(** * PaperMiner: the PDF.js <-> host bridge ([resources/bridge.js])

    A shallow embedding of the bridge script.  The script is a set of event
    handlers over a handful of globals ([pyBridge], [selectedText],
    [selectionRects], [selectionPage], [annotations], [viewerApp]) and the DOM
    of the bridge page and of the nested viewer frame.  Every handler is
    embedded as a function [State -> State]; what a handler does to the
    outside world is recorded in the state:

    - the calls made on the host object, in order ([hostCalls]);
    - the lines written to the console ([console]);
    - the timers registered with [setTimeout] ([timers]);
    - the DOM nodes the script reads and writes ([menu], [toast], [iframe]).

    Strings are sequences of code units below 256 ([string]); integers that
    the script treats as integers (page numbers, annotation ids, delays) are
    [Z]; CSS pixel quantities are kept abstract behind the class [Number], so
    that every statement about overlay geometry holds for whatever arithmetic
    the engine uses, and are instantiated with [Z] where exact arithmetic is
    needed. *)

From Stdlib Require Import ZArith String Ascii List Bool Lia DecimalString DecimalPos DecimalZ.
Import ListNotations.

#[local] Set Warnings "-register-all".

Local Open Scope string_scope.
Local Open Scope Z_scope.

(** ** Built-in string operations *)

(** White space and line terminators stripped by [String.prototype.trim] and
    skipped by [parseInt] (the ones representable below 256). *)
Definition isWhiteSpace (c : ascii) : bool :=
  let n := Z.of_nat (nat_of_ascii c) in
  ((9 <=? n) && (n <=? 13)) || (n =? 32) || (n =? 160).

Fixpoint trimStart (s : string) : string :=
  match s with
  | EmptyString => EmptyString
  | String c r => if isWhiteSpace c then trimStart r else s
  end.

Fixpoint trimEnd (s : string) : string :=
  match s with
  | EmptyString => EmptyString
  | String c r =>
      match trimEnd r with
      | EmptyString => if isWhiteSpace c then EmptyString else String c EmptyString
      | r' => String c r'
      end
  end.

(** [s.trim()] *)
Definition trim (s : string) : string := trimEnd (trimStart s).

(** [s.length] *)
Definition strlen (s : string) : Z := Z.of_nat (String.length s).

(** [String(n)] for an integer [n], in plain decimal digits.  The engine
    writes the same digits for every integer it holds exactly (magnitude up
    to 2^53 - 1); from 10^21 on it writes an exponent form, which this
    definition does not follow. *)
Definition string_of_Z (z : Z) : string := NilZero.string_of_int (Z.to_int z).

Definition digitValue (c : ascii) : option Z :=
  let n := Z.of_nat (nat_of_ascii c) in
  if (48 <=? n) && (n <=? 57) then Some (n - 48) else None.

(** The longest prefix of decimal digits, accumulated; [None] when the
    prefix is empty. *)
Fixpoint parseDigits (s : string) (acc : option Z) : option Z :=
  match s with
  | EmptyString => acc
  | String c r =>
      match digitValue c with
      | Some d => parseDigits r (Some (10 * match acc with Some a => a | None => 0 end + d))
      | None => acc
      end
  end.

(** [parseInt(v, 10)] on the result of [getAttribute] ([None] is [null], whose
    string form has no digits).  The result [None] is [NaN].  The digits are
    accumulated exactly; the engine returns the nearest double, which is the
    same number as long as its magnitude is at most 2^53 - 1. *)
Definition parseInt (v : option string) : option Z :=
  match v with
  | None => None
  | Some s =>
      match trimStart s with
      | String "-"%char r => option_map Z.opp (parseDigits r None)
      | String "+"%char r => parseDigits r None
      | t => parseDigits t None
      end
  end.

(** [href.split("?")[0]] *)
Fixpoint beforeQuery (s : string) : string :=
  match s with
  | EmptyString => EmptyString
  | String c r => if Ascii.eqb c "?"%char then EmptyString else String c (beforeQuery r)
  end.

Fixpoint lastIndexOfFrom (c : ascii) (s : string) (i found : Z) : Z :=
  match s with
  | EmptyString => found
  | String a r => lastIndexOfFrom c r (i + 1) (if Ascii.eqb a c then i else found)
  end.

(** [s.lastIndexOf(c)], [-1] when [c] does not occur. *)
Definition lastIndexOf (c : ascii) (s : string) : Z := lastIndexOfFrom c s 0 (-1).

(** [s.substring(0, e)]: a negative [e] counts as 0. *)
Definition substring0 (e : Z) (s : string) : string :=
  String.substring 0 (Z.to_nat (Z.max 0 e)) s.

Definition hexDigit (n : Z) : ascii :=
  ascii_of_nat (Z.to_nat (if n <? 10 then 48 + n else 55 + n)).

Definition percentByte (b : Z) : string :=
  String "%"%char (String (hexDigit (b / 16)) (String (hexDigit (b mod 16)) EmptyString)).

Definition isUnreserved (c : ascii) : bool :=
  let n := Z.of_nat (nat_of_ascii c) in
  ((65 <=? n) && (n <=? 90)) || ((97 <=? n) && (n <=? 122)) || ((48 <=? n) && (n <=? 57))
  || existsb (Ascii.eqb c) ["-"; "_"; "."; "!"; "~"; "*"; "'"; "("; ")"]%char.

(** [encodeURIComponent(s)]: unreserved characters stay, every other code
    unit is written as the percent-escaped bytes of its UTF-8 form. *)
Fixpoint encodeURIComponent (s : string) : string :=
  match s with
  | EmptyString => EmptyString
  | String c r =>
      let n := Z.of_nat (nat_of_ascii c) in
      (if isUnreserved c then String c EmptyString
       else if n <? 128 then percentByte n
       else percentByte (192 + n / 64) ++ percentByte (128 + n mod 64))
      ++ encodeURIComponent r
  end.

(** ** Pixel arithmetic *)

(** The operations the script applies to pixel quantities: [+], [-], [>] and
    the literal [10]. *)
Class Number (num : Type) := {
  nadd : num -> num -> num;
  nsub : num -> num -> num;
  ngtb : num -> num -> bool;
  nlit : Z -> num
}.

#[export] Instance Z_Number : Number Z :=
  {| nadd := Z.add; nsub := Z.sub; ngtb := Z.gtb; nlit := fun z => z |}.

(** ** Values that do not carry pixel quantities *)

(** A node on the ancestor path of a selection anchor.  [DocumentNode] is the
    viewer frame's own document (the [doc] argument of
    [getPageFromSelection]); a text node has no [classList]. *)
Inductive Node :=
| DocumentNode
| TextNode
| ElementNode (classList : list string) (attributes : list (string * string)).

(** What the script catches in its [try] blocks, and what the frame's
    [onerror] handler receives. *)
Inductive JSError := SecurityError | FrameLoadError.

Inductive LogLevel := LogInfo | LogWarn | LogError.

(** The listeners [setupIframeListeners] installs on the viewer's event bus
    and on the viewer frame's document. *)
Inductive BusHandler := hPageChanging | hDocumentLoaded | hDocumentError.

Inductive DocHandler := hMouseUp | hMouseDown.

(** An event published on the viewer's event bus. *)
Record BusEvent := { evt_name : string; pageNumber : Z; message : option string }.

(** An argument of a [console] call: a string, an integer, a caught error,
    its [message] or [stack], or an event object. *)
Inductive LogArg :=
| AStr (s : string)
| AInt (z : Z)
| AErr (e : JSError)
| AErrMessage (e : JSError)
| AErrStack (e : JSError)
| AEvent (evt : BusEvent).

Record LogEntry := { level : LogLevel; args : list LogArg }.

Definition containsClass (cls : list string) (c : string) : bool :=
  existsb (String.eqb c) cls.

Fixpoint getAttribute (attrs : list (string * string)) (name : string) : option string :=
  match attrs with
  | [] => None
  | (k, v) :: rest => if String.eqb k name then Some v else getAttribute rest name
  end.

(** ** The data model and the handlers *)

Section Bridge.

Context {num : Type} `{Number num}.

(** *** Geometry *)

(** A captured selection rectangle, [{x, y, w, h}]. *)
Record Rect := { rect_x : num; rect_y : num; rect_w : num; rect_h : num }.

(** What [getBoundingClientRect] and [getClientRects] return. *)
Record DOMRect := { left : num; top : num; width : num; height : num }.

Record MouseEvent := { clientX : num; clientY : num }.

(** *** Selections of the viewer frame *)

Record Range := { getClientRects : list DOMRect }.

(** A [Selection] object: its text, its ranges ([rangeCount] is their
    number) and the anchor node with its chain of [parentNode]s, anchor
    first.  The chain ends where [parentNode] is [null]. *)
Record Selection := {
  toString : string;
  ranges : list Range;
  anchorPath : list Node
}.

(** *** Annotations and what is sent to the host *)

Record Annotation := {
  ann_id : Z;
  ann_page : Z;
  ann_content : string;
  ann_rects : list Rect;
  ann_color : string;
  ann_comment : string
}.

(** The document [JSON.stringify] writes, as a tree. *)
Inductive JSON :=
| JInt (z : Z)
| JNum (n : num)
| JStr (s : string)
| JArr (items : list JSON)
| JObj (members : list (string * JSON)).

(** Second argument of [onContextAction]: the selected text, or a
    serialized object. *)
Inductive ActionPayload :=
| PText (s : string)
| PJson (j : JSON).

(** A call on the host object [pyBridge]. *)
Inductive HostCall :=
| onTextSelected (text : string)
| onAnnotationRequest (payload : JSON)
| onContextAction (action : string) (payload : ActionPayload)
| onPageChanged (page : Z)
| onViewerReady.

(** The closures handed to [setTimeout]. *)
Inductive Callback :=
| cbInitBridge
| cbSetupIframeListeners
| cbHandleTextSelection (e : MouseEvent)
| cbHideToast.

(** *** The DOM *)

(** A [div.pm-highlight] built by [renderHighlight]: its class, its
    [data-annotation-id] attribute, the fields of its inline style, its
    tooltip, and the annotation its click listener closes over. *)
Record Overlay := {
  className : string;
  data_annotation_id : string;
  style_left : num;
  style_top : num;
  style_width : num;
  style_height : num;
  style_background : string;
  title : string;
  click_ann : Annotation
}.

(** A child of a text layer: a text span of the viewer, or a highlight. *)
Inductive LayerChild :=
| Span (text : string)
| Highlight (o : Overlay).

(** A [.textLayer] element: its bounding client rectangle, its scroll
    offsets and its children in document order. *)
Record TextLayer := {
  tl_rect : DOMRect;
  scrollLeft : num;
  scrollTop : num;
  children : list LayerChild
}.

(** A [.page] element of the viewer: its [data-page-number] attribute, its
    bounding rectangle and its first [.textLayer] descendant, if any. *)
Record PageDiv := {
  data_page_number : string;
  page_rect : DOMRect;
  textLayer : option TextLayer
}.

(** The viewer frame's document: its [.page] elements in document order and
    the listeners added to it. *)
Record Document := {
  pages : list PageDiv;
  docListeners : list (string * DocHandler)
}.

(** [PDFViewerApplication]: its event bus, once it exists, is the list of
    subscriptions made with [eventBus.on]. *)
Record ViewerApp := { eventBus : option (list (string * BusHandler)) }.

(** The [#viewer-frame] element.  [contentDocument = None] is a frame whose
    document the bridge page may not touch: reading it raises. *)
Record Iframe := {
  src : option string;
  onload : bool;
  onerror : bool;
  frame_rect : DOMRect;
  contentDocument : option Document;
  PDFViewerApplication : option ViewerApp
}.

(** The [#context-menu] element: the inline style the script writes, and
    the size of its box when displayed. *)
Record Menu := {
  menu_display : string;
  menu_left : option num;
  menu_top : option num;
  menu_width : num;
  menu_height : num
}.

(** The [#toast] element. *)
Record Toast := { textContent : string; toast_display : string }.

(** What the script reads of [window]: the viewport, the location, and
    [new URLSearchParams(location.search).get("file")]. *)
Record Window := {
  innerWidth : num;
  innerHeight : num;
  location_href : string;
  location_search : string;
  searchParam_file : option string
}.

(** *** The session state *)

Record State := {
  pyBridge : bool;
  selectedText : string;
  selectionRects : list Rect;
  selectionPage : Z;
  annotations : list Annotation;
  viewerApp : bool;
  menu : Menu;
  toast : Toast;
  iframe : Iframe;
  window : Window;
  hostCalls : list HostCall;
  console : list LogEntry;
  timers : list (Z * Callback)
}.

Definition set_pyBridge (v : bool) (s : State) : State :=
  {| pyBridge := v; selectedText := selectedText s; selectionRects := selectionRects s;
     selectionPage := selectionPage s; annotations := annotations s; viewerApp := viewerApp s;
     menu := menu s; toast := toast s; iframe := iframe s; window := window s;
     hostCalls := hostCalls s; console := console s; timers := timers s |}.

Definition set_selectedText (v : string) (s : State) : State :=
  {| pyBridge := pyBridge s; selectedText := v; selectionRects := selectionRects s;
     selectionPage := selectionPage s; annotations := annotations s; viewerApp := viewerApp s;
     menu := menu s; toast := toast s; iframe := iframe s; window := window s;
     hostCalls := hostCalls s; console := console s; timers := timers s |}.

Definition set_selectionRects (v : list Rect) (s : State) : State :=
  {| pyBridge := pyBridge s; selectedText := selectedText s; selectionRects := v;
     selectionPage := selectionPage s; annotations := annotations s; viewerApp := viewerApp s;
     menu := menu s; toast := toast s; iframe := iframe s; window := window s;
     hostCalls := hostCalls s; console := console s; timers := timers s |}.

Definition set_selectionPage (v : Z) (s : State) : State :=
  {| pyBridge := pyBridge s; selectedText := selectedText s; selectionRects := selectionRects s;
     selectionPage := v; annotations := annotations s; viewerApp := viewerApp s;
     menu := menu s; toast := toast s; iframe := iframe s; window := window s;
     hostCalls := hostCalls s; console := console s; timers := timers s |}.

Definition set_annotations (v : list Annotation) (s : State) : State :=
  {| pyBridge := pyBridge s; selectedText := selectedText s; selectionRects := selectionRects s;
     selectionPage := selectionPage s; annotations := v; viewerApp := viewerApp s;
     menu := menu s; toast := toast s; iframe := iframe s; window := window s;
     hostCalls := hostCalls s; console := console s; timers := timers s |}.

Definition set_viewerApp (v : bool) (s : State) : State :=
  {| pyBridge := pyBridge s; selectedText := selectedText s; selectionRects := selectionRects s;
     selectionPage := selectionPage s; annotations := annotations s; viewerApp := v;
     menu := menu s; toast := toast s; iframe := iframe s; window := window s;
     hostCalls := hostCalls s; console := console s; timers := timers s |}.

Definition set_menu (v : Menu) (s : State) : State :=
  {| pyBridge := pyBridge s; selectedText := selectedText s; selectionRects := selectionRects s;
     selectionPage := selectionPage s; annotations := annotations s; viewerApp := viewerApp s;
     menu := v; toast := toast s; iframe := iframe s; window := window s;
     hostCalls := hostCalls s; console := console s; timers := timers s |}.

Definition set_toast (v : Toast) (s : State) : State :=
  {| pyBridge := pyBridge s; selectedText := selectedText s; selectionRects := selectionRects s;
     selectionPage := selectionPage s; annotations := annotations s; viewerApp := viewerApp s;
     menu := menu s; toast := v; iframe := iframe s; window := window s;
     hostCalls := hostCalls s; console := console s; timers := timers s |}.

Definition set_iframe (v : Iframe) (s : State) : State :=
  {| pyBridge := pyBridge s; selectedText := selectedText s; selectionRects := selectionRects s;
     selectionPage := selectionPage s; annotations := annotations s; viewerApp := viewerApp s;
     menu := menu s; toast := toast s; iframe := v; window := window s;
     hostCalls := hostCalls s; console := console s; timers := timers s |}.

Definition set_hostCalls (v : list HostCall) (s : State) : State :=
  {| pyBridge := pyBridge s; selectedText := selectedText s; selectionRects := selectionRects s;
     selectionPage := selectionPage s; annotations := annotations s; viewerApp := viewerApp s;
     menu := menu s; toast := toast s; iframe := iframe s; window := window s;
     hostCalls := v; console := console s; timers := timers s |}.

Definition set_console (v : list LogEntry) (s : State) : State :=
  {| pyBridge := pyBridge s; selectedText := selectedText s; selectionRects := selectionRects s;
     selectionPage := selectionPage s; annotations := annotations s; viewerApp := viewerApp s;
     menu := menu s; toast := toast s; iframe := iframe s; window := window s;
     hostCalls := hostCalls s; console := v; timers := timers s |}.

Definition set_timers (v : list (Z * Callback)) (s : State) : State :=
  {| pyBridge := pyBridge s; selectedText := selectedText s; selectionRects := selectionRects s;
     selectionPage := selectionPage s; annotations := annotations s; viewerApp := viewerApp s;
     menu := menu s; toast := toast s; iframe := iframe s; window := window s;
     hostCalls := hostCalls s; console := console s; timers := v |}.

(** *** Effects *)

(** [pyBridge.m(...)], behind the script's [if (pyBridge)] guard. *)
Definition callHost (c : HostCall) (s : State) : State :=
  if pyBridge s then set_hostCalls (hostCalls s ++ [c]) s else s.

Definition consoleWrite (l : LogLevel) (a : list LogArg) (s : State) : State :=
  set_console (console s ++ [{| level := l; args := a |}]) s.

(** [setTimeout(cb, delay)] *)
Definition setTimeout (cb : Callback) (delay : Z) (s : State) : State :=
  set_timers (timers s ++ [(delay, cb)]) s.

(** *** Utility *)

Definition set_toast_display (d : string) (s : State) : State :=
  set_toast {| textContent := textContent (toast s); toast_display := d |} s.

(** [showToast(message, duration)]; [duration = None] is a call with one
    argument.  [duration || 2000] also replaces 0. *)
Definition showToast (msg : string) (duration : option Z) (s : State) : State :=
  let duration :=
    match duration with
    | Some d => if d =? 0 then 2000 else d
    | None => 2000
    end in
  let s := set_toast {| textContent := msg; toast_display := toast_display (toast s) |} s in
  let s := set_toast_display "block" s in
  setTimeout cbHideToast duration s.

(** *** Context menu *)

Definition set_menu_display (d : string) (s : State) : State :=
  let m := menu s in
  set_menu {| menu_display := d; menu_left := menu_left m; menu_top := menu_top m;
              menu_width := menu_width m; menu_height := menu_height m |} s.

Definition set_menu_position (x y : num) (s : State) : State :=
  let m := menu s in
  set_menu {| menu_display := menu_display m; menu_left := Some x; menu_top := Some y;
              menu_width := menu_width m; menu_height := menu_height m |} s.

Definition showContextMenu (x y : num) (s : State) : State :=
  let s := set_menu_display "block" s in
  (* Clamp to viewport *)
  let menuRect_width := menu_width (menu s) in
  let menuRect_height := menu_height (menu s) in
  let x :=
    if ngtb (nadd x menuRect_width) (innerWidth (window s))
    then nsub (nsub (innerWidth (window s)) menuRect_width) (nlit 10) else x in
  let y :=
    if ngtb (nadd y menuRect_height) (innerHeight (window s))
    then nsub (nsub (innerHeight (window s)) menuRect_height) (nlit 10) else y in
  set_menu_position x y s.

Definition hideContextMenu (s : State) : State := set_menu_display "none" s.

(** *** Selection *)

(** The loop of [getPageFromSelection] along the anchor's chain of parents:
    it stops at [null] (end of the chain), at the document, or at the first
    element whose class list has ["page"]. *)
Fixpoint pageOfPath (path : list Node) : Z :=
  match path with
  | [] => 0
  | DocumentNode :: _ => 0
  | TextNode :: rest => pageOfPath rest
  | ElementNode cls attrs :: rest =>
      if containsClass cls "page"
      then match parseInt (getAttribute attrs "data-page-number") with
           | None => 0
           | Some pageNum => pageNum
           end
      else pageOfPath rest
  end.

Definition getPageFromSelection (selection : option Selection) : Z :=
  match selection with
  | None => 0
  | Some sel =>
      match ranges sel with
      | [] => 0
      | _ :: _ => pageOfPath (anchorPath sel)
      end
  end.

Definition rectOfDOMRect (r : DOMRect) : Rect :=
  {| rect_x := left r; rect_y := top r; rect_w := width r; rect_h := height r |}.

(** [handleTextSelection(iframeWin, iframeDoc, mouseEvent)], on the value
    [selection] of [iframeWin.getSelection()] ([None] is [null], whose text
    is taken to be empty). *)
Definition handleTextSelection (selection : option Selection) (mouseEvent : MouseEvent)
    (s : State) : State :=
  let text := match selection with Some sel => trim (toString sel) | None => "" end in
  if strlen text <? 2 then
    let s := hideContextMenu s in
    set_selectedText "" s
  else
    let s := set_selectedText text s in
    (* Get selection bounding rects *)
    let s :=
      match selection with
      | Some sel =>
          match ranges sel with
          | range :: _ => set_selectionRects (map rectOfDOMRect (getClientRects range)) s
          | [] => s
          end
      | None => s
      end in
    let s := set_selectionPage (getPageFromSelection selection) s in
    let s := callHost (onTextSelected text) s in
    let iframeRect := frame_rect (iframe s) in
    let menuX := nadd (clientX mouseEvent) (left iframeRect) in
    let menuY := nadd (clientY mouseEvent) (top iframeRect) in
    showContextMenu menuX menuY s.

(** *** Annotations *)

(** [a || b || ""] on strings. *)
Definition orElse (a b : string) : string :=
  if String.eqb a "" then b else a.

(** The element built by one iteration of the loop of [renderHighlight]. *)
Definition makeHighlight (ann : Annotation) (textLayerRect : DOMRect) (tl : TextLayer)
    (rect : Rect) : Overlay :=
  {| className := "pm-highlight";
     data_annotation_id := string_of_Z (ann_id ann);
     style_left := nadd (nsub (rect_x rect) (left textLayerRect)) (scrollLeft tl);
     style_top := nadd (nsub (rect_y rect) (top textLayerRect)) (scrollTop tl);
     style_width := rect_w rect;
     style_height := rect_h rect;
     style_background := ann_color ann ++ "40";
     title := orElse (orElse (ann_comment ann) (ann_content ann)) "";
     click_ann := ann |}.

(** [textLayer.appendChild(c)] *)
Definition appendChild (c : LayerChild) (tl : TextLayer) : TextLayer :=
  {| tl_rect := tl_rect tl; scrollLeft := scrollLeft tl; scrollTop := scrollTop tl;
     children := children tl ++ [c] |}.

(** [for (const rect of ann.rects) { ... textLayer.appendChild(highlight); }] *)
Definition appendHighlights (ann : Annotation) (textLayerRect : DOMRect) (tl : TextLayer)
    : TextLayer :=
  fold_left (fun tl rect => appendChild (Highlight (makeHighlight ann textLayerRect tl rect)) tl)
            (ann_rects ann) tl.

Definition pageMatches (number : string) (p : PageDiv) : bool :=
  String.eqb (data_page_number p) number.

(** The first page satisfying [sel] is the element [querySelector] returns;
    what the script then does to that element is [f]. *)
Fixpoint updateFirst (sel : PageDiv -> bool) (f : PageDiv -> PageDiv) (l : list PageDiv)
    : list PageDiv :=
  match l with
  | [] => []
  | p :: rest => if sel p then f p :: rest else p :: updateFirst sel f rest
  end.

Definition set_textLayer (tl : TextLayer) (p : PageDiv) : PageDiv :=
  {| data_page_number := data_page_number p; page_rect := page_rect p; textLayer := Some tl |}.

Definition set_pages (ps : list PageDiv) (s : State) : State :=
  let f := iframe s in
  set_iframe
    {| src := src f; onload := onload f; onerror := onerror f; frame_rect := frame_rect f;
       contentDocument :=
         option_map (fun d => {| pages := ps; docListeners := docListeners d |})
                    (contentDocument f);
       PDFViewerApplication := PDFViewerApplication f |} s.

Definition renderHighlight (ann : Annotation) (s : State) : State :=
  match contentDocument (iframe s) with
  | None =>
      (* reading the frame's document raised: the catch block *)
      consoleWrite LogError [AStr "Error rendering highlight:"; AErr SecurityError] s
  | Some iframeDoc =>
      let number := string_of_Z (ann_page ann) in
      match find (pageMatches number) (pages iframeDoc) with
      | None => consoleWrite LogWarn [AStr ("Page div not found for page " ++ number)] s
      | Some pageDiv =>
          match textLayer pageDiv with
          | None => consoleWrite LogWarn [AStr ("Text layer not found for page " ++ number)] s
          | Some tl =>
              let textLayerRect := tl_rect tl in
              let tl' := appendHighlights ann textLayerRect tl in
              set_pages (updateFirst (pageMatches number) (set_textLayer tl') (pages iframeDoc)) s
          end
      end
  end.

Definition rectJSON (r : Rect) : JSON :=
  JObj [("x", JNum (rect_x r)); ("y", JNum (rect_y r));
        ("w", JNum (rect_w r)); ("h", JNum (rect_h r))].

(** [JSON.stringify(annotationData)] in [createHighlight]. *)
Definition annotationData (s : State) : JSON :=
  JObj [("page", JInt (selectionPage s));
        ("text", JStr (selectedText s));
        ("rects", JArr (map rectJSON (selectionRects s)));
        ("color", JStr "#FFFF00");
        ("comment", JStr "")].

(** The annotation [createHighlight] renders before the host has answered.
    It holds the very array [selectionRects]; the script never writes into
    that array again (a later selection first assigns a new array and then
    pushes into the new one), so holding its value is the same. *)
Definition optimisticAnnotation (s : State) : Annotation :=
  {| ann_id := -1;
     ann_page := selectionPage s;
     ann_content := selectedText s;
     ann_rects := selectionRects s;
     ann_color := "#FFFF00";
     ann_comment := "" |}.

Definition createHighlight (s : State) : State :=
  if String.eqb (selectedText s) "" || (Z.of_nat (length (selectionRects s)) =? 0) then s
  else
    let ann := optimisticAnnotation s in
    let s := callHost (onAnnotationRequest (annotationData s)) s in
    let s := renderHighlight ann s in
    showToast "Highlight saved!" None s.

Definition contextAction (action : string) (s : State) : State :=
  let s := hideContextMenu s in
  if String.eqb (selectedText s) "" then s
  else if String.eqb action "highlight" then createHighlight s
  else callHost (onContextAction action (PText (selectedText s))) s.

(** [window.loadAnnotations(annList)] *)
Definition loadAnnotations (annList : list Annotation) (s : State) : State :=
  let s := consoleWrite LogInfo
             [AStr ("Loading " ++ string_of_Z (Z.of_nat (length annList))
                    ++ " annotations from DB.")] s in
  let s := set_annotations annList s in
  fold_left (fun s ann => renderHighlight ann s) annList s.

(** [window.confirmAnnotation(realId)] *)
Definition confirmAnnotation (realId : Z) (s : State) : State :=
  consoleWrite LogInfo [AStr "Annotation confirmed with ID:"; AInt realId] s.

(** The click listener [renderHighlight] adds to a highlight. *)
Definition clickHighlight (o : Overlay) (s : State) : State :=
  let ann := click_ann o in
  callHost (onContextAction "show_annotation"
              (PJson (JObj [("id", JInt (ann_id ann));
                            ("content", JStr (ann_content ann));
                            ("comment", JStr (ann_comment ann))]))) s.

(** *** Initialization *)

Definition set_src (u : string) (s : State) : State :=
  let f := iframe s in
  set_iframe
    {| src := Some u; onload := onload f; onerror := onerror f; frame_rect := frame_rect f;
       contentDocument := contentDocument f;
       PDFViewerApplication := PDFViewerApplication f |} s.

Definition set_onload_onerror (s : State) : State :=
  let f := iframe s in
  set_iframe
    {| src := src f; onload := true; onerror := true; frame_rect := frame_rect f;
       contentDocument := contentDocument f;
       PDFViewerApplication := PDFViewerApplication f |} s.

(** [iframeDoc.addEventListener(name, h)] *)
Definition addEventListener (name : string) (h : DocHandler) (s : State) : State :=
  let f := iframe s in
  set_iframe
    {| src := src f; onload := onload f; onerror := onerror f; frame_rect := frame_rect f;
       contentDocument :=
         option_map (fun d => {| pages := pages d;
                                 docListeners := (docListeners d ++ [(name, h)])%list |})
                    (contentDocument f);
       PDFViewerApplication := PDFViewerApplication f |} s.

(** [viewerApp.eventBus.on(name, h)] *)
Definition eventBus_on (name : string) (h : BusHandler) (s : State) : State :=
  let f := iframe s in
  set_iframe
    {| src := src f; onload := onload f; onerror := onerror f; frame_rect := frame_rect f;
       contentDocument := contentDocument f;
       PDFViewerApplication :=
         option_map (fun app => {| eventBus := option_map (fun l => (l ++ [(name, h)])%list)
                                                          (eventBus app) |})
                    (PDFViewerApplication f) |} s.

Definition resolvePdfjsPath (s : State) : string :=
  let href := beforeQuery (location_href (window s)) in
  let basePath := substring0 (lastIndexOf "/" href) href in
  basePath ++ "/../pdfjs-5.4.624-dist/web/viewer.html".

Definition initViewer (s : State) : State :=
  let fileUrl := searchParam_file (window s) in
  match fileUrl with
  | None | Some EmptyString =>
      let s := consoleWrite LogError [AStr "No 'file' parameter provided in URL."] s in
      showToast "Error: No PDF file specified" (Some 3000) s
  | Some fileUrl =>
      let s := consoleWrite LogInfo [AStr "=== PDF.js Initialization ==="] s in
      let s := consoleWrite LogInfo [AStr "File URL from parameter:"; AStr fileUrl] s in
      let s := consoleWrite LogInfo
                 [AStr "Current location:"; AStr (location_href (window s))] s in
      let s := consoleWrite LogInfo
                 [AStr "Raw URL params:"; AStr (location_search (window s))] s in
      let pdfjsViewerPath := resolvePdfjsPath s in
      let s := consoleWrite LogInfo [AStr "PDF.js viewer path:"; AStr pdfjsViewerPath] s in
      let viewerUrl := pdfjsViewerPath ++ "?file=" ++ encodeURIComponent fileUrl in
      let s := consoleWrite LogInfo [AStr "Final viewer URL:"; AStr viewerUrl] s in
      let s := set_src viewerUrl s in
      set_onload_onerror s
  end.

(** The callback given to [new QWebChannel]; [channel_pyBridge] tells
    whether [channel.objects.pyBridge] is an object. *)
Definition onChannelReady (channel_pyBridge : bool) (s : State) : State :=
  let s := set_pyBridge channel_pyBridge s in
  let s := consoleWrite LogInfo [AStr "QWebChannel bridge established."] s in
  initViewer s.

(** [initBridge()]; [qwebchannel] is [typeof QWebChannel !== "undefined"],
    [transport] is [typeof qt !== "undefined" && qt.webChannelTransport].
    In the last case the channel is being built and [onChannelReady] runs
    once it is. *)
Definition initBridge (qwebchannel transport : bool) (s : State) : State :=
  if negb qwebchannel then
    let s := consoleWrite LogWarn
               [AStr "QWebChannel not available, running in standalone mode."] s in
    initViewer s
  else if negb transport then
    let s := consoleWrite LogInfo [AStr "Waiting for qt.webChannelTransport..."] s in
    setTimeout cbInitBridge 50 s
  else s.

(** *** Listeners of the viewer frame *)

Definition setupIframeListeners (s : State) : State :=
  match contentDocument (iframe s) with
  | None =>
      let s := consoleWrite LogError
                 [AStr "[ERROR] Failed to set up iframe listeners:"; AErr SecurityError] s in
      let s := consoleWrite LogError
                 [AStr "Error details:"; AErrMessage SecurityError; AErrStack SecurityError] s in
      showToast "Error: Failed to access PDF viewer (security restriction)" (Some 5000) s
  | Some iframeDoc =>
      let s := consoleWrite LogInfo [AStr "Setting up iframe listeners..."] s in
      let s := consoleWrite LogInfo [AStr "iframeDoc:"; AStr "OK"] s in
      let s := consoleWrite LogInfo [AStr "iframeWin:"; AStr "OK"] s in
      let app := PDFViewerApplication (iframe s) in
      let s := set_viewerApp (match app with Some _ => true | None => false end) s in
      match app with
      | Some {| eventBus := Some _ |} =>
          let s := consoleWrite LogInfo [AStr "[OK] PDFViewerApplication ready"] s in
          let s := addEventListener "mouseup" hMouseUp s in
          let s := addEventListener "mousedown" hMouseDown s in
          let s := eventBus_on "pagechanging" hPageChanging s in
          let s := eventBus_on "documentloaded" hDocumentLoaded s in
          let s := eventBus_on "documenterror" hDocumentError s in
          consoleWrite LogInfo [AStr "[OK] Iframe listeners installed successfully"] s
      | _ =>
          let s := consoleWrite LogInfo
                     [AStr "PDFViewerApplication not ready, retrying in 100ms..."] s in
          setTimeout cbSetupIframeListeners 100 s
      end
  end.

(** [iframe.onload] and [iframe.onerror] as set by [initViewer]. *)
Definition iframe_onload (s : State) : State :=
  let s := consoleWrite LogInfo [AStr "[OK] PDF.js iframe loaded successfully"] s in
  setupIframeListeners s.

Definition iframe_onerror (s : State) : State :=
  let s := consoleWrite LogError
             [AStr "[ERROR] Failed to load PDF.js viewer iframe:"; AErr FrameLoadError] s in
  showToast "Error: Failed to load PDF viewer" (Some 5000) s.

(** The bodies of the three event-bus listeners. *)
Definition runBusHandler (h : BusHandler) (evt : BusEvent) (s : State) : State :=
  match h with
  | hPageChanging => callHost (onPageChanged (pageNumber evt)) s
  | hDocumentLoaded =>
      let s := consoleWrite LogInfo [AStr "[OK] PDF document fully loaded!"] s in
      callHost onViewerReady s
  | hDocumentError =>
      let s := consoleWrite LogError [AStr "[ERROR] PDF document error:"; AEvent evt] s in
      showToast ("Error loading PDF: "
                 ++ match message evt with
                    | Some m => orElse m "Unknown error"
                    | None => "Unknown error"
                    end) (Some 5000) s
  end.

Definition busListeners (s : State) : list (string * BusHandler) :=
  match PDFViewerApplication (iframe s) with
  | Some {| eventBus := Some l |} => l
  | _ => []
  end.

(** The listeners in [l] subscribed under the event's name run, in
    subscription order. *)
Fixpoint dispatchTo (evt : BusEvent) (l : list (string * BusHandler)) (s : State) : State :=
  match l with
  | [] => s
  | (name, h) :: rest =>
      dispatchTo evt rest
        (if String.eqb name (evt_name evt) then runBusHandler h evt s else s)
  end.

(** The viewer publishes [evt] on its event bus. *)
Definition eventBus_dispatch (evt : BusEvent) (s : State) : State :=
  dispatchTo evt (busListeners s) s.

(** A run of the viewer: the events it publishes, one after the other. *)
Fixpoint eventBus_run (evts : list BusEvent) (s : State) : State :=
  match evts with
  | [] => s
  | evt :: rest => eventBus_run rest (eventBus_dispatch evt s)
  end.

(** The bodies of the two listeners on the frame's document. *)
Definition runDocHandler (h : DocHandler) (e : MouseEvent) (s : State) : State :=
  match h with
  | hMouseUp => setTimeout (cbHandleTextSelection e) 50 s
  | hMouseDown => hideContextMenu s
  end.

(** The [mousedown] listener of the bridge page's own document; a press on
    the menu stops there ([stopPropagation]) and does not reach it. *)
Definition document_mousedown (onMenu : bool) (s : State) : State :=
  if onMenu then s else hideContextMenu s.

(** The timer set by [showToast] fires. *)
Definition hideToast (s : State) : State := set_toast_display "none" s.

(** What a timer callback finds when it runs: whether [QWebChannel] and the
    transport are there, and the frame's current selection. *)
Record Environment := {
  env_QWebChannel : bool;
  env_transport : bool;
  env_getSelection : option Selection
}.

(** A timer fires. *)
Definition runCallback (env : Environment) (cb : Callback) (s : State) : State :=
  match cb with
  | cbInitBridge => initBridge (env_QWebChannel env) (env_transport env) s
  | cbSetupIframeListeners => setupIframeListeners s
  | cbHandleTextSelection e => handleTextSelection (env_getSelection env) e s
  | cbHideToast => hideToast s
  end.

(** The state the script starts from, over the page it is loaded in. *)
Definition bootState (w : Window) (m : Menu) (t : Toast) (f : Iframe) : State :=
  {| pyBridge := false; selectedText := ""; selectionRects := []; selectionPage := 0;
     annotations := []; viewerApp := false; menu := m; toast := t; iframe := f;
     window := w; hostCalls := []; console := []; timers := [] |}.

(** All highlights of the viewer frame, page by page. *)
Definition overlaysOfLayer (tl : TextLayer) : list Overlay :=
  flat_map (fun c => match c with Highlight o => [o] | Span _ => [] end) (children tl).

Definition overlaysOfPage (p : PageDiv) : list Overlay :=
  match textLayer p with
  | Some tl => overlaysOfLayer tl
  | None => []
  end.

Definition overlaysOf (s : State) : list Overlay :=
  match contentDocument (iframe s) with
  | Some d => flat_map overlaysOfPage (pages d)
  | None => []
  end.

(** What [querySelector] finds for the page numbered [number] (the value of
    its [data-page-number] attribute): the text layer [renderHighlight]
    draws that page's annotations on. *)
Definition textLayerOf (number : string) (s : State) : option TextLayer :=
  match contentDocument (iframe s) with
  | Some d =>
      match find (pageMatches number) (pages d) with
      | Some pageDiv => textLayer pageDiv
      | None => None
      end
  | None => None
  end.

(** A text layer with more children at its end. *)
Definition withAppended (cs : list LayerChild) (tl : TextLayer) : TextLayer :=
  {| tl_rect := tl_rect tl; scrollLeft := scrollLeft tl; scrollTop := scrollTop tl;
     children := children tl ++ cs |}.

End Bridge.

(** Outside the section the types name their pixel type: [State num]. *)
Arguments Rect : clear implicits.
Arguments DOMRect : clear implicits.
Arguments MouseEvent : clear implicits.
Arguments Range : clear implicits.
Arguments Selection : clear implicits.
Arguments Annotation : clear implicits.
Arguments JSON : clear implicits.
Arguments ActionPayload : clear implicits.
Arguments HostCall : clear implicits.
Arguments Callback : clear implicits.
Arguments Overlay : clear implicits.
Arguments LayerChild : clear implicits.
Arguments TextLayer : clear implicits.
Arguments PageDiv : clear implicits.
Arguments Document : clear implicits.
Arguments Iframe : clear implicits.
Arguments Menu : clear implicits.
Arguments Window : clear implicits.
Arguments State : clear implicits.
Arguments Environment : clear implicits.

(** ** Properties stated over the handlers *)

Section Observations.

Context {num : Type} `{Number num}.

(** The text [handleTextSelection] works on: the trimmed selection text,
    empty when there is no selection object. *)
Definition trimmedText (selection : option (Selection num)) : string :=
  match selection with
  | Some sel => trim (toString sel)
  | None => ""
  end.

(** No element of a path is marked as a page container. *)
Definition notPageContainer (n : Node) : bool :=
  match n with
  | ElementNode cls _ => negb (containsClass cls "page")
  | _ => true
  end.

Definition isViewerReady (c : HostCall num) : bool :=
  match c with
  | onViewerReady => true
  | _ => false
  end.

(** How many times the host was told the viewer is ready. *)
Definition countViewerReady (calls : list (HostCall num)) : nat :=
  length (filter isViewerReady calls).

(** How many document-loaded events a run of the viewer publishes. *)
Definition countDocumentLoaded (evts : list BusEvent) : nat :=
  length (filter (fun evt => String.eqb (evt_name evt) "documentloaded") evts).

(** The listeners subscribed under [name] that signal readiness. *)
Definition readyListeners (name : string) (l : list (string * BusHandler)) : nat :=
  length (filter (fun nh => String.eqb (fst nh) name
                            && match snd nh with hDocumentLoaded => true | _ => false end) l).

(** The highlights one call of [renderHighlight ann] appends to the text
    layer [tl] of the page numbered [number]: one per rectangle when the
    annotation is on that page, none otherwise. *)
Definition highlightsOn (number : string) (tl : TextLayer num) (ann : Annotation num)
    : list (LayerChild num) :=
  if String.eqb (string_of_Z (ann_page ann)) number
  then map (fun rect => Highlight (makeHighlight ann (tl_rect tl) tl rect)) (ann_rects ann)
  else [].

End Observations.

(** ** The event loop *)

Section Session.

Context {num : Type} `{Number num}.

(** The pending timers without the one at position [i]. *)
Fixpoint removeNth {A : Type} (i : nat) (l : list A) : list A :=
  match l, i with
  | [], _ => []
  | _ :: rest, O => rest
  | a :: rest, S j => a :: removeNth j rest
  end.

(** The listeners in [l] added under the event's type run, in the order
    they were added. *)
Fixpoint dispatchDocTo (name : string) (e : MouseEvent num)
    (l : list (string * DocHandler)) (s : State num) : State num :=
  match l with
  | [] => s
  | (n, h) :: rest =>
      dispatchDocTo name e rest (if String.eqb n name then runDocHandler h e s else s)
  end.

(** A mouse event of type [name] reaches the viewer frame's document. *)
Definition frameDocument_dispatch (name : string) (e : MouseEvent num) (s : State num)
    : State num :=
  match contentDocument (iframe s) with
  | Some d => dispatchDocTo name e (docListeners d) s
  | None => s
  end.

(** The viewer changes what the bridge sees of it: the frame's document
    (pages rendered, re-rendered or dropped), the application object and
    the frame's place on the page.  The frame element keeps what the script
    wrote on it. *)
Definition viewerUpdate (doc : option (Document num)) (app : option ViewerApp)
    (rect : DOMRect num) (s : State num) : State num :=
  let f := iframe s in
  set_iframe
    {| src := src f; onload := onload f; onerror := onerror f; frame_rect := rect;
       contentDocument := doc; PDFViewerApplication := app |} s.

(** The page is laid out again: a new viewport and a new menu box. *)
Definition layoutUpdate (vw vh mw mh : num) (s : State num) : State num :=
  let w := window s in
  let m := menu s in
  {| pyBridge := pyBridge s; selectedText := selectedText s;
     selectionRects := selectionRects s; selectionPage := selectionPage s;
     annotations := annotations s; viewerApp := viewerApp s;
     menu := {| menu_display := menu_display m; menu_left := menu_left m;
                menu_top := menu_top m; menu_width := mw; menu_height := mh |};
     toast := toast s; iframe := iframe s;
     window := {| innerWidth := vw; innerHeight := vh; location_href := location_href w;
                  location_search := location_search w;
                  searchParam_file := searchParam_file w |};
     hostCalls := hostCalls s; console := console s; timers := timers s |}.

(** What can happen to the bridge page: the browser delivers an event to a
    handler the script has installed, a timer fires, the host calls one of
    the two global entry points, or the surroundings change under the
    script (the viewer, the layout). *)
Inductive Input :=
| inViewerUpdate (doc : option (Document num)) (app : option ViewerApp) (rect : DOMRect num)
| inLayoutUpdate (vw vh mw mh : num)
| inDOMContentLoaded (qwebchannel transport : bool)
| inChannelReady (channel_pyBridge : bool)
| inFrameLoad
| inFrameError
| inTimer (env : Environment num) (i : nat)
| inBusEvent (evt : BusEvent)
| inFrameMouse (name : string) (e : MouseEvent num)
| inPageMouseDown (onMenu : bool)
| inMenuButton (action : string)
| inHighlightClick (o : Overlay num)
| inLoadAnnotations (annList : list (Annotation num))
| inConfirmAnnotation (realId : Z).

(** The handler that runs on an input.  The frame's [onload] and [onerror]
    handlers exist once [initViewer] has set them; a timer runs once and is
    gone. *)
Definition react (i : Input) (s : State num) : State num :=
  match i with
  | inViewerUpdate doc app rect => viewerUpdate doc app rect s
  | inLayoutUpdate vw vh mw mh => layoutUpdate vw vh mw mh s
  | inDOMContentLoaded qwebchannel transport => initBridge qwebchannel transport s
  | inChannelReady channel_pyBridge => onChannelReady channel_pyBridge s
  | inFrameLoad => if onload (iframe s) then iframe_onload s else s
  | inFrameError => if onerror (iframe s) then iframe_onerror s else s
  | inTimer env n =>
      match nth_error (timers s) n with
      | Some (_, cb) => runCallback env cb (set_timers (removeNth n (timers s)) s)
      | None => s
      end
  | inBusEvent evt => eventBus_dispatch evt s
  | inFrameMouse name e => frameDocument_dispatch name e s
  | inPageMouseDown onMenu => document_mousedown onMenu s
  | inMenuButton action => contextAction action s
  | inHighlightClick o => clickHighlight o s
  | inLoadAnnotations annList => loadAnnotations annList s
  | inConfirmAnnotation realId => confirmAnnotation realId s
  end.

(** A session: inputs handled one after the other, each to completion. *)
Fixpoint session (inputs : list Input) (s : State num) : State num :=
  match inputs with
  | [] => s
  | i :: rest => session rest (react i s)
  end.

(** The one input that can store a host object in [pyBridge]. *)
Definition connects (i : Input) : bool :=
  match i with
  | inChannelReady true => true
  | _ => false
  end.

(** The inputs after which the viewer's document is what the bridge left. *)
Definition viewerQuiet (i : Input) : bool :=
  match i with
  | inViewerUpdate _ _ _ => false
  | _ => true
  end.

(** The host call the bridge makes for an event of the viewer's bus. *)
Definition busCalls (evt : BusEvent) : list (HostCall num) :=
  if String.eqb (evt_name evt) "pagechanging" then [onPageChanged (pageNumber evt)]
  else if String.eqb (evt_name evt) "documentloaded" then [onViewerReady]
  else [].

(** The tag of a highlight is the id its click listener sends. *)
Definition wellTagged (o : Overlay num) : Prop :=
  data_annotation_id o = string_of_Z (ann_id (click_ann o)).

(** The rectangles of [ann] that [renderHighlight ann] draws in state [s]:
    all of them when the annotation's page has a text layer, none
    otherwise. *)
Definition drawnRects (s : State num) (ann : Annotation num) : nat :=
  match textLayerOf (string_of_Z (ann_page ann)) s with
  | Some _ => length (ann_rects ann)
  | None => 0%nat
  end.

(** A handler that leaves the host alone when there is none: it keeps
    [pyBridge], and makes no host call if [pyBridge] is empty. *)
Definition quietHost (s s' : State num) : Prop :=
  pyBridge s' = pyBridge s /\ (pyBridge s = false -> hostCalls s' = hostCalls s).

(** The menu is displayed only over a stored selection of at least 2
    characters. *)
Definition menuBacked (s : State num) : Prop :=
  menu_display (menu s) = "block" -> 2 <= strlen (selectedText s).

(** The [.page] elements the bridge sees, if it may read the frame. *)
Definition pagesOf (s : State num) : option (list (PageDiv num)) :=
  option_map pages (contentDocument (iframe s)).

(** Every text layer of [s] is still there in [s'], with its children in
    place and possibly more after them. *)
Definition layersGrow (s s' : State num) : Prop :=
  forall (number : string) (tl : TextLayer num),
    textLayerOf number s = Some tl ->
    exists cs : list (LayerChild num), textLayerOf number s' = Some (withAppended cs tl).

(** The overlays of [s'] are those of [s] and elements built by
    [renderHighlight]. *)
Definition overlaysFrom (s s' : State num) : Prop :=
  forall o : Overlay num,
    In o (overlaysOf s') ->
    In o (overlaysOf s)
    \/ exists (ann : Annotation num) (r : DOMRect num) (tl : TextLayer num) (rect : Rect num),
         o = makeHighlight ann r tl rect.

(** The text layers and overlays of [s] are, in [s'], still there and
    joined only by elements [renderHighlight] built. *)
Definition keptBy (s s' : State num) : Prop := layersGrow s s' /\ overlaysFrom s s'.

(** A path prefix the walk of [getPageFromSelection] passes through: no
    page container and not the document. *)
Definition passedThrough (n : Node) : bool :=
  match n with
  | DocumentNode => false
  | TextNode => true
  | ElementNode cls _ => negb (containsClass cls "page")
  end.

End Session.

Arguments Input : clear implicits.

(** The subscriptions [setupIframeListeners] makes on the viewer's event
    bus, and the listeners it adds to the frame's document. *)
Definition bridgeSubscriptions : list (string * BusHandler) :=
  [("pagechanging", hPageChanging); ("documentloaded", hDocumentLoaded);
   ("documenterror", hDocumentError)].

Definition bridgeFrameListeners : list (string * DocHandler) :=
  [("mouseup", hMouseUp); ("mousedown", hMouseDown)].

(** The text of the toast for a document-error event. *)
Definition documentErrorText (evt : BusEvent) : string :=
  "Error loading PDF: "
  ++ match message evt with
     | Some EmptyString | None => "Unknown error"
     | Some m => m
     end.

(** ** Observations on strings *)

Definition allWhiteSpace (s : string) : bool :=
  forallb isWhiteSpace (list_ascii_of_string s).

(** [c] does not occur in [s]. *)
Definition without (c : ascii) (s : string) : bool :=
  forallb (fun a => negb (Ascii.eqb a c)) (list_ascii_of_string s).

(** A character [encodeURIComponent] may write: an unreserved one, or the
    percent sign of an escape. *)
Definition urlSafe (c : ascii) : bool := isUnreserved c || Ascii.eqb c "%"%char.

(** The integers a JavaScript number holds exactly
    ([Number.MAX_SAFE_INTEGER] is 2^53 - 1): on these [parseInt] and
    [String] are the exact functions of this file. *)
Definition safeInteger (n : Z) : Prop := Z.abs n <= 9007199254740991.

(** The number a string of decimal digits stands for, after [acc]. *)
Fixpoint uintValue (d : Decimal.uint) (acc : Z) : Z :=
  match d with
  | Decimal.Nil => acc
  | Decimal.D0 l => uintValue l (10 * acc + 0)
  | Decimal.D1 l => uintValue l (10 * acc + 1)
  | Decimal.D2 l => uintValue l (10 * acc + 2)
  | Decimal.D3 l => uintValue l (10 * acc + 3)
  | Decimal.D4 l => uintValue l (10 * acc + 4)
  | Decimal.D5 l => uintValue l (10 * acc + 5)
  | Decimal.D6 l => uintValue l (10 * acc + 6)
  | Decimal.D7 l => uintValue l (10 * acc + 7)
  | Decimal.D8 l => uintValue l (10 * acc + 8)
  | Decimal.D9 l => uintValue l (10 * acc + 9)
  end.

(** ** A concrete session, in integer pixels *)

Definition exWindow : Window Z :=
  {| innerWidth := 800; innerHeight := 600;
     location_href := "file:///app/resources/viewer_bridge.html?file=/home/u/paper.pdf";
     location_search := "?file=/home/u/paper.pdf";
     searchParam_file := Some "/home/u/paper.pdf" |}.

Definition exWindowNoFile : Window Z :=
  {| innerWidth := 800; innerHeight := 600;
     location_href := "file:///app/resources/viewer_bridge.html";
     location_search := "";
     searchParam_file := None |}.

Definition exMenu : Menu Z :=
  {| menu_display := "none"; menu_left := None; menu_top := None;
     menu_width := 120; menu_height := 80 |}.

Definition exToast : Toast := {| textContent := ""; toast_display := "none" |}.

Definition exTextLayer : TextLayer Z :=
  {| tl_rect := {| left := 10; top := 20; width := 600; height := 800 |};
     scrollLeft := 0; scrollTop := 5;
     children := [Span "Hello world"] |}.

Definition exPage : PageDiv Z :=
  {| data_page_number := "1";
     page_rect := {| left := 10; top := 20; width := 600; height := 800 |};
     textLayer := Some exTextLayer |}.

Definition exIframe : Iframe Z :=
  {| src := None; onload := false; onerror := false;
     frame_rect := {| left := 0; top := 40; width := 800; height := 560 |};
     contentDocument := Some {| pages := [exPage]; docListeners := [] |};
     PDFViewerApplication := Some {| eventBus := Some [] |} |}.

(** The session right after the channel callback stored the host object. *)
Definition exConnected : State Z :=
  set_pyBridge true (bootState exWindow exMenu exToast exIframe).

(** The same page opened without a [file] parameter. *)
Definition exNoFile : State Z := bootState exWindowNoFile exMenu exToast exIframe.

Definition exClientRect : DOMRect Z := {| left := 30; top := 50; width := 40; height := 12 |}.

(** A selection inside page 1. *)
Definition exSelection : Selection Z :=
  {| toString := "  Hello ";
     ranges := [ {| getClientRects := [exClientRect] |} ];
     anchorPath := [TextNode; ElementNode ["textLayer"] [];
                    ElementNode ["page"] [("data-page-number", "1")];
                    ElementNode [] [("id", "viewer")]; DocumentNode] |}.

(** A one-character selection. *)
Definition exShortSelection : Selection Z :=
  {| toString := " a ";
     ranges := [ {| getClientRects := [exClientRect] |} ];
     anchorPath := anchorPath exSelection |}.

(** A selection anchored outside every page container. *)
Definition exOrphanSelection : Selection Z :=
  {| toString := "Hello";
     ranges := [ {| getClientRects := [exClientRect] |} ];
     anchorPath := [TextNode; ElementNode ["toolbar"] []; DocumentNode] |}.

Definition exMouseEvent : MouseEvent Z := {| clientX := 100; clientY := 200 |}.

Definition exDocumentLoaded : BusEvent :=
  {| evt_name := "documentloaded"; pageNumber := 0; message := None |}.

Definition exAnnotation : Annotation Z :=
  {| ann_id := 7; ann_page := 1; ann_content := "Hello";
     ann_rects := [ {| rect_x := 30; rect_y := 50; rect_w := 40; rect_h := 12 |};
                    {| rect_x := 12; rect_y := 64; rect_w := 90; rect_h := 12 |} ];
     ann_color := "#FFFF00"; ann_comment := "" |}.

(** More of the concrete session. *)

Definition exBoot : State Z := bootState exWindow exMenu exToast exIframe.

(** A selection of blanks. *)
Definition exBlankSelection : Selection Z :=
  {| toString := "    ";
     ranges := [ {| getClientRects := [exClientRect] |} ];
     anchorPath := anchorPath exSelection |}.

(** A selection anchored on the page element itself: no ancestor of the
    anchor is a page container, the anchor is one. *)
Definition exPageAnchorSelection : Selection Z :=
  {| toString := "Hello";
     ranges := [ {| getClientRects := [exClientRect] |} ];
     anchorPath := [ElementNode ["page"] [("data-page-number", "3")];
                    ElementNode [] [("id", "viewer")]; DocumentNode] |}.

(** A selection object that reports a text and no range. *)
Definition exRangelessSelection : Selection Z :=
  {| toString := "Hello"; ranges := []; anchorPath := anchorPath exSelection |}.

(** A stored annotation on a page the viewer does not show. *)
Definition exStrayAnnotation : Annotation Z :=
  {| ann_id := 8; ann_page := 9; ann_content := "Elsewhere";
     ann_rects := [ {| rect_x := 1; rect_y := 2; rect_w := 3; rect_h := 4 |} ];
     ann_color := "#00FF00"; ann_comment := "see also" |}.

(** The page opened with an empty [file] parameter. *)
Definition exEmptyFile : State Z :=
  bootState {| innerWidth := 800; innerHeight := 600;
               location_href := "file:///app/resources/viewer_bridge.html?file=";
               location_search := "?file=";
               searchParam_file := Some "" |} exMenu exToast exIframe.

(** The channel API is loaded, the transport is not there yet. *)
Definition exEnvironment : Environment Z :=
  {| env_QWebChannel := true; env_transport := false;
     env_getSelection := Some exSelection |}.

(** The frame has loaded, the viewer inside has not started. *)
Definition exNotReady : State Z :=
  viewerUpdate (Some {| pages := []; docListeners := [] |}) None
               (frame_rect exIframe) exConnected.

(** A frame the bridge page may not read. *)
Definition exDenied : State Z :=
  viewerUpdate None None (frame_rect exIframe) exConnected.

Definition exPageChanging : BusEvent :=
  {| evt_name := "pagechanging"; pageNumber := 3; message := None |}.

Definition exDocumentError : BusEvent :=
  {| evt_name := "documenterror"; pageNumber := 0; message := Some "Invalid PDF structure" |}.

(** A standalone session: boot, frame load, a selection, the highlight
    action, a bulk load, and a viewer event. *)
Definition exSession : list (Input Z) :=
  [inDOMContentLoaded false false; inFrameLoad;
   inFrameMouse "mouseup" exMouseEvent; inTimer exEnvironment 0;
   inMenuButton "highlight"; inBusEvent exDocumentLoaded;
   inLoadAnnotations [exAnnotation; exStrayAnnotation];
   inPageMouseDown false].

(** ** Sanity checks of the embedding on the concrete session *)

Example trim_example : trim "  Hello " = "Hello".
Proof. reflexivity. Qed.

Example parseInt_examples :
  parseInt (Some " 12px") = Some 12 /\ parseInt (Some "-3") = Some (-3)
  /\ parseInt (Some "page") = None /\ parseInt None = None.
Proof. repeat split; reflexivity. Qed.

Example resolvePdfjsPath_example :
  resolvePdfjsPath exConnected = "file:///app/resources/../pdfjs-5.4.624-dist/web/viewer.html".
Proof. reflexivity. Qed.

Example initViewer_example :
  src (iframe (initViewer exConnected))
  = Some "file:///app/resources/../pdfjs-5.4.624-dist/web/viewer.html?file=%2Fhome%2Fu%2Fpaper.pdf".
Proof. reflexivity. Qed.

Example getPageFromSelection_example : getPageFromSelection (Some exSelection) = 1.
Proof. reflexivity. Qed.

Example handleTextSelection_example :
  let s := handleTextSelection (Some exSelection) exMouseEvent exConnected in
  selectedText s = "Hello" /\ selectionPage s = 1
  /\ selectionRects s = [ {| rect_x := 30; rect_y := 50; rect_w := 40; rect_h := 12 |} ]
  /\ menu_left (menu s) = Some 100 /\ menu_top (menu s) = Some 240.
Proof. repeat split; reflexivity. Qed.

Example renderHighlight_example :
  map (fun o => (style_left o, style_top o, style_width o, style_height o,
                 data_annotation_id o, title o))
      (overlaysOf (renderHighlight exAnnotation exConnected))
  = [(20, 35, 40, 12, "7", "Hello"); (2, 49, 90, 12, "7", "Hello")].
Proof. reflexivity. Qed.

Example createHighlight_example :
  let s := createHighlight
             (handleTextSelection (Some exSelection) exMouseEvent exConnected) in
  map (fun o => (style_left o, style_top o, data_annotation_id o)) (overlaysOf s)
  = [(20, 35, "-1")]
  /\ textContent (toast s) = "Highlight saved!"
  /\ timers s = [(2000, cbHideToast)].
Proof. repeat split; reflexivity. Qed.

Example clickHighlight_example :
  hostCalls (clickHighlight (makeHighlight exAnnotation (tl_rect exTextLayer) exTextLayer
                               {| rect_x := 30; rect_y := 50; rect_w := 40; rect_h := 12 |})
                            exConnected)
  = [onContextAction "show_annotation"
       (PJson (JObj [("id", JInt 7); ("content", JStr "Hello"); ("comment", JStr "")]))].
Proof. reflexivity. Qed.

(** ** What the handlers leave alone *)

Section Frames.

Context {num : Type} `{Number num}.

Lemma callHost_connected (c : HostCall num) (s : State num) :
  pyBridge s = true -> hostCalls (callHost c s) = (hostCalls s ++ [c])%list.
Proof. intros Hb. unfold callHost. rewrite Hb. reflexivity. Qed.

Lemma callHost_standalone (c : HostCall num) (s : State num) :
  pyBridge s = false -> callHost c s = s.
Proof. intros Hb. unfold callHost. rewrite Hb. reflexivity. Qed.

Lemma showContextMenu_hostCalls (x y : num) (s : State num) :
  hostCalls (showContextMenu x y s) = hostCalls s.
Proof. reflexivity. Qed.

Lemma showToast_hostCalls (msg : string) (d : option Z) (s : State num) :
  hostCalls (showToast msg d s) = hostCalls s.
Proof. reflexivity. Qed.

Lemma showToast_iframe (msg : string) (d : option Z) (s : State num) :
  iframe (showToast msg d s) = iframe s.
Proof. reflexivity. Qed.

Lemma showToast_pyBridge (msg : string) (d : option Z) (s : State num) :
  pyBridge (showToast msg d s) = pyBridge s.
Proof. reflexivity. Qed.

Lemma callHost_iframe (c : HostCall num) (s : State num) :
  iframe (callHost c s) = iframe s.
Proof. unfold callHost. destruct (pyBridge s); reflexivity. Qed.

Lemma callHost_pyBridge (c : HostCall num) (s : State num) :
  pyBridge (callHost c s) = pyBridge s.
Proof. unfold callHost. destruct (pyBridge s) eqn:Hb; exact Hb. Qed.

(** [renderHighlight] makes no host call, whichever branch it takes. *)
Lemma renderHighlight_hostCalls (ann : Annotation num) (s : State num) :
  hostCalls (renderHighlight ann s) = hostCalls s.
Proof.
  unfold renderHighlight.
  destruct (contentDocument (iframe s)) as [d|]; [|reflexivity].
  destruct (find _ (pages d)) as [p|]; [|reflexivity].
  destruct (textLayer p); reflexivity.
Qed.

Lemma renderHighlight_pyBridge (ann : Annotation num) (s : State num) :
  pyBridge (renderHighlight ann s) = pyBridge s.
Proof.
  unfold renderHighlight.
  destruct (contentDocument (iframe s)) as [d|]; [|reflexivity].
  destruct (find _ (pages d)) as [p|]; [|reflexivity].
  destruct (textLayer p); reflexivity.
Qed.

End Frames.

(** ** Selection handling *)

Section SelectionProperties.

Context {num : Type} `{Number num}.

(** C1 (as amended): for every pointer-release selection whose trimmed text
    has fewer than 2 characters, [handleTextSelection] empties the selected
    text and hides the context menu; it makes no host call and leaves the
    captured rectangles and the page of the previous selection as they
    were. *)
Theorem handleTextSelection_short (selection : option (Selection num))
    (mouseEvent : MouseEvent num) (s : State num) :
  strlen (trimmedText selection) < 2 ->
  let s' := handleTextSelection selection mouseEvent s in
  selectedText s' = ""
  /\ menu_display (menu s') = "none"
  /\ menu_left (menu s') = menu_left (menu s)
  /\ menu_top (menu s') = menu_top (menu s)
  /\ selectionRects s' = selectionRects s
  /\ selectionPage s' = selectionPage s
  /\ hostCalls s' = hostCalls s.
Proof.
  intros Hlen s'. subst s'. unfold handleTextSelection.
  fold (trimmedText selection).
  apply Z.ltb_lt in Hlen. rewrite Hlen.
  repeat split.
Qed.

(** C6: for every pointer-release selection whose trimmed text has at least
    2 characters, in connected mode [handleTextSelection] makes exactly one
    host call, [onTextSelected], whose argument is the trimmed text. *)
Theorem handleTextSelection_notifies_host (selection : option (Selection num))
    (mouseEvent : MouseEvent num) (s : State num) :
  pyBridge s = true ->
  2 <= strlen (trimmedText selection) ->
  hostCalls (handleTextSelection selection mouseEvent s)
  = (hostCalls s ++ [onTextSelected (trimmedText selection)])%list.
Proof.
  intros Hb Hlen. unfold handleTextSelection.
  fold (trimmedText selection).
  assert (Hge : (strlen (trimmedText selection) <? 2) = false) by (apply Z.ltb_ge; lia).
  rewrite Hge. rewrite showContextMenu_hostCalls.
  rewrite callHost_connected.
  - destruct selection as [sel|]; [destruct (ranges sel)|]; reflexivity.
  - destruct selection as [sel|]; [destruct (ranges sel)|]; exact Hb.
Qed.

Lemma pageOfPath_no_container (path : list Node) :
  forallb notPageContainer path = true -> pageOfPath path = 0.
Proof.
  induction path as [|n rest IH]; intros Hall; [reflexivity|].
  cbn [forallb] in Hall. apply andb_true_iff in Hall as [Hn Hrest].
  destruct n as [| |cls attrs]; cbn [pageOfPath].
  - reflexivity.
  - exact (IH Hrest).
  - cbn [notPageContainer] in Hn. apply negb_true_iff in Hn. rewrite Hn. exact (IH Hrest).
Qed.

(** C8 (as amended): a selection whose anchor node is not itself a page
    container and has no ancestor marked as one (no element of the chain
    from the anchor upwards, the anchor included, carries the class)
    resolves to page 0, and so does a missing selection or one without a
    range; the function is total, so there is no input on which it
    faults. *)
Theorem getPageFromSelection_default (selection : option (Selection num)) :
  (forall sel, selection = Some sel -> ranges sel <> [] ->
               forallb notPageContainer (anchorPath sel) = true) ->
  getPageFromSelection selection = 0.
Proof.
  intros Hpath. unfold getPageFromSelection.
  destruct selection as [sel|]; [|reflexivity].
  destruct (ranges sel) as [|r rs] eqn:Hr; [reflexivity|].
  apply pageOfPath_no_container. apply (Hpath sel eq_refl).
  rewrite Hr. discriminate.
Qed.

End SelectionProperties.

(** ** Start-up and the viewer's event bus *)

Section LifecycleProperties.

Context {num : Type} `{Number num}.

(** C9: when the query string has no [file] parameter, [initViewer] shows
    the toast "Error: No PDF file specified" (to be hidden after 3000 ms),
    writes one error line to the console, and does nothing else: the viewer
    frame (its source address, its load and error handlers, its document) is
    untouched, no host call is made and the globals keep their values. *)
Theorem initViewer_missing_file (s : State num) :
  searchParam_file (window s) = None ->
  let s' := initViewer s in
  toast s' = {| textContent := "Error: No PDF file specified"; toast_display := "block" |}
  /\ timers s' = (timers s ++ [(3000, cbHideToast)])%list
  /\ console s'
     = (console s ++ [{| level := LogError;
                         args := [AStr "No 'file' parameter provided in URL."] |}])%list
  /\ iframe s' = iframe s
  /\ src (iframe s') = src (iframe s)
  /\ hostCalls s' = hostCalls s
  /\ menu s' = menu s
  /\ (pyBridge s', selectedText s', selectionRects s', selectionPage s',
      annotations s', viewerApp s')
     = (pyBridge s, selectedText s, selectionRects s, selectionPage s,
        annotations s, viewerApp s).
Proof.
  intros Hfile s'. subst s'. unfold initViewer. rewrite Hfile.
  repeat split.
Qed.

Lemma countViewerReady_app (l1 l2 : list (HostCall num)) :
  countViewerReady (l1 ++ l2) = (countViewerReady l1 + countViewerReady l2)%nat.
Proof. unfold countViewerReady. rewrite filter_app, length_app. reflexivity. Qed.

Lemma runBusHandler_iframe (h : BusHandler) (evt : BusEvent) (s : State num) :
  iframe (runBusHandler h evt s) = iframe s.
Proof. destruct h; cbn [runBusHandler]; rewrite ?callHost_iframe; reflexivity. Qed.

Lemma runBusHandler_pyBridge (h : BusHandler) (evt : BusEvent) (s : State num) :
  pyBridge (runBusHandler h evt s) = pyBridge s.
Proof. destruct h; cbn [runBusHandler]; rewrite ?callHost_pyBridge; reflexivity. Qed.

(** One listener: a readiness call exactly when it is the document-loaded
    listener and the host is connected. *)
Lemma runBusHandler_ready (h : BusHandler) (evt : BusEvent) (s : State num) :
  pyBridge s = true ->
  countViewerReady (hostCalls (runBusHandler h evt s))
  = (countViewerReady (hostCalls s)
     + match h with hDocumentLoaded => 1 | _ => 0 end)%nat.
Proof.
  intros Hb. destruct h; cbn [runBusHandler].
  - rewrite callHost_connected by exact Hb. rewrite countViewerReady_app. reflexivity.
  - rewrite callHost_connected by exact Hb. rewrite countViewerReady_app. reflexivity.
  - rewrite showToast_hostCalls. cbn [consoleWrite set_console hostCalls]. lia.
Qed.

Lemma dispatchTo_frame (evt : BusEvent) (l : list (string * BusHandler)) (s : State num) :
  iframe (dispatchTo evt l s) = iframe s /\ pyBridge (dispatchTo evt l s) = pyBridge s.
Proof.
  revert s. induction l as [|[n h] l IH]; intros s; [split; reflexivity|].
  cbn [dispatchTo].
  destruct (String.eqb n (evt_name evt)).
  - destruct (IH (runBusHandler h evt s)) as [Hi Hp].
    rewrite Hi, Hp, runBusHandler_iframe, runBusHandler_pyBridge. split; reflexivity.
  - apply IH.
Qed.

Lemma readyListeners_cons (name n : string) (h : BusHandler) (l : list (string * BusHandler)) :
  readyListeners name ((n, h) :: l)
  = ((if String.eqb n name then match h with hDocumentLoaded => 1 | _ => 0 end else 0)
     + readyListeners name l)%nat.
Proof.
  unfold readyListeners. cbn [filter fst snd].
  destruct (String.eqb n name); [destruct h|]; reflexivity.
Qed.

Lemma dispatchTo_ready (evt : BusEvent) (l : list (string * BusHandler)) (s : State num) :
  pyBridge s = true ->
  countViewerReady (hostCalls (dispatchTo evt l s))
  = (countViewerReady (hostCalls s) + readyListeners (evt_name evt) l)%nat.
Proof.
  revert s. induction l as [|[n h] l IH]; intros s Hb.
  - cbn. lia.
  - cbn [dispatchTo]. rewrite readyListeners_cons.
    destruct (String.eqb n (evt_name evt)).
    + rewrite IH by (rewrite runBusHandler_pyBridge; exact Hb).
      rewrite runBusHandler_ready by exact Hb. lia.
    + rewrite IH by exact Hb. lia.
Qed.

Lemma eventBus_dispatch_frame (evt : BusEvent) (s : State num) :
  busListeners (eventBus_dispatch evt s) = busListeners s
  /\ pyBridge (eventBus_dispatch evt s) = pyBridge s.
Proof.
  unfold eventBus_dispatch.
  destruct (dispatchTo_frame evt (busListeners s) s) as [Hi Hp].
  split; [|exact Hp]. unfold busListeners at 1 3. rewrite Hi. reflexivity.
Qed.

(** A run of the viewer against a fixed set of subscriptions. *)
Lemma eventBus_run_ready (evts : list BusEvent) (s : State num) :
  pyBridge s = true ->
  (forall name, readyListeners name (busListeners s)
                = if String.eqb name "documentloaded" then 1%nat else 0%nat) ->
  countViewerReady (hostCalls (eventBus_run evts s))
  = (countViewerReady (hostCalls s) + countDocumentLoaded evts)%nat.
Proof.
  revert s. induction evts as [|evt evts IH]; intros s Hb Hl.
  - cbn. lia.
  - cbn [eventBus_run].
    destruct (eventBus_dispatch_frame evt s) as [Hbus Hpy].
    rewrite IH; [|rewrite Hpy; exact Hb|intros name; rewrite Hbus; apply Hl].
    unfold eventBus_dispatch.
    rewrite dispatchTo_ready by exact Hb. rewrite Hl.
    unfold countDocumentLoaded. cbn [filter].
    destruct (String.eqb (evt_name evt) "documentloaded"); cbn [length]; lia.
Qed.

(** C4 (as amended): in connected mode, once [setupIframeListeners] has
    subscribed to a viewer whose event bus had no subscription, every
    document-loaded event the viewer publishes makes one [onViewerReady]
    host call: a run makes as many calls as it has document-loaded events,
    none when it has none, one when it has one. *)
Theorem onViewerReady_per_documentloaded (evts : list BusEvent) (s : State num) :
  pyBridge s = true ->
  contentDocument (iframe s) <> None ->
  PDFViewerApplication (iframe s) = Some {| eventBus := Some [] |} ->
  countViewerReady (hostCalls (eventBus_run evts (setupIframeListeners s)))
  = (countViewerReady (hostCalls s) + countDocumentLoaded evts)%nat.
Proof.
  intros Hb Hdoc Happ.
  assert (Hs : pyBridge (setupIframeListeners s) = true
               /\ hostCalls (setupIframeListeners s) = hostCalls s
               /\ busListeners (setupIframeListeners s)
                  = [("pagechanging", hPageChanging); ("documentloaded", hDocumentLoaded);
                     ("documenterror", hDocumentError)]).
  { unfold setupIframeListeners.
    destruct (contentDocument (iframe s)) as [d|] eqn:Hd; [|contradiction].
    cbn [iframe consoleWrite set_console]. rewrite Happ.
    repeat split; [exact Hb|].
    unfold busListeners. cbn. rewrite Happ. reflexivity. }
  destruct Hs as (Hb' & Hcalls & Hbus).
  rewrite eventBus_run_ready; [rewrite Hcalls; reflexivity|exact Hb'|].
  intros name. rewrite Hbus. unfold readyListeners. cbn [filter fst snd andb].
  rewrite andb_false_r, andb_true_r, andb_false_r.
  rewrite (String.eqb_sym name). destruct (String.eqb "documentloaded" name); reflexivity.
Qed.

End LifecycleProperties.

(** ** Highlight overlays *)

Section OverlayProperties.

Context {num : Type} `{Number num}.

Lemma withAppended_nil (tl : TextLayer num) : withAppended [] tl = tl.
Proof. destruct tl. unfold withAppended. cbn. rewrite app_nil_r. reflexivity. Qed.

Lemma withAppended_twice (a b : list (LayerChild num)) (tl : TextLayer num) :
  withAppended b (withAppended a tl) = withAppended (a ++ b) tl.
Proof. unfold withAppended. cbn. rewrite app_assoc. reflexivity. Qed.

(** The element built for a rectangle depends on the text layer through its
    scroll offsets only. *)
Lemma makeHighlight_layout (ann : Annotation num) (r : DOMRect num)
    (tl tl0 : TextLayer num) (rect : Rect num) :
  scrollLeft tl = scrollLeft tl0 -> scrollTop tl = scrollTop tl0 ->
  makeHighlight ann r tl rect = makeHighlight ann r tl0 rect.
Proof. intros Hl Ht. unfold makeHighlight. rewrite Hl, Ht. reflexivity. Qed.

Lemma appendLoop_spec (ann : Annotation num) (r : DOMRect num) (tl0 : TextLayer num)
    (rects : list (Rect num)) :
  forall tl : TextLayer num,
    scrollLeft tl = scrollLeft tl0 -> scrollTop tl = scrollTop tl0 ->
    fold_left (fun tl rect => appendChild (Highlight (makeHighlight ann r tl rect)) tl) rects tl
    = withAppended (map (fun rect => Highlight (makeHighlight ann r tl0 rect)) rects) tl.
Proof.
  induction rects as [|rect rects IH]; intros tl Hl Ht.
  - cbn. symmetry. apply withAppended_nil.
  - cbn [fold_left map]. rewrite IH by assumption.
    rewrite (makeHighlight_layout ann r tl tl0 rect Hl Ht).
    unfold withAppended, appendChild. cbn. rewrite <- app_assoc. reflexivity.
Qed.

(** The loop of [renderHighlight] appends one highlight per rectangle, in
    order, and changes nothing else of the text layer. *)
Lemma appendHighlights_spec (ann : Annotation num) (tl : TextLayer num) :
  appendHighlights ann (tl_rect tl) tl
  = withAppended (map (fun rect => Highlight (makeHighlight ann (tl_rect tl) tl rect))
                      (ann_rects ann)) tl.
Proof. unfold appendHighlights. apply appendLoop_spec; reflexivity. Qed.

Lemma find_updateFirst_same (sel : PageDiv num -> bool) (f : PageDiv num -> PageDiv num)
    (l : list (PageDiv num)) :
  (forall p, sel (f p) = sel p) ->
  find sel (updateFirst sel f l) = option_map f (find sel l).
Proof.
  intros Hf. induction l as [|p l IH]; [reflexivity|].
  cbn [updateFirst find]. destruct (sel p) eqn:Hp; cbn [find].
  - rewrite Hf, Hp. reflexivity.
  - rewrite Hp. exact IH.
Qed.

Lemma find_updateFirst_other (sel sel' : PageDiv num -> bool)
    (f : PageDiv num -> PageDiv num) (l : list (PageDiv num)) :
  (forall p, sel p = true -> sel' p = false) ->
  (forall p, sel' (f p) = sel' p) ->
  find sel' (updateFirst sel f l) = find sel' l.
Proof.
  intros Hdisj Hf. induction l as [|p l IH]; [reflexivity|].
  cbn [updateFirst find]. destruct (sel p) eqn:Hp; cbn [find].
  - rewrite Hf, (Hdisj p Hp). reflexivity.
  - rewrite IH. reflexivity.
Qed.

Lemma pageMatches_distinct (a b : string) (p : PageDiv num) :
  String.eqb a b = false -> pageMatches a p = true -> pageMatches b p = false.
Proof.
  unfold pageMatches. intros Hab Ha. apply String.eqb_eq in Ha. rewrite Ha. exact Hab.
Qed.

(** What one call of [renderHighlight] does to the text layer of any page:
    it appends the annotation's highlights when the annotation is on that
    page, and nothing otherwise. *)
Lemma renderHighlight_textLayerOf (ann : Annotation num) (number : string) (s : State num) :
  textLayerOf number (renderHighlight ann s)
  = option_map (fun tl => withAppended (highlightsOn number tl ann) tl) (textLayerOf number s).
Proof.
  unfold renderHighlight, textLayerOf at 2, highlightsOn.
  destruct (contentDocument (iframe s)) as [d|] eqn:Hd.
  2:{ unfold textLayerOf. cbn. rewrite Hd. reflexivity. }
  destruct (String.eqb (string_of_Z (ann_page ann)) number) eqn:Hn.
  - apply String.eqb_eq in Hn. subst number.
    destruct (find _ (pages d)) as [p|] eqn:Hp.
    + destruct (textLayer p) as [tl|] eqn:Htl.
      * unfold textLayerOf. cbn. rewrite Hd. cbn.
        rewrite find_updateFirst_same by reflexivity. rewrite Hp. cbn.
        rewrite appendHighlights_spec. reflexivity.
      * unfold textLayerOf. cbn. rewrite Hd, Hp, Htl. reflexivity.
    + unfold textLayerOf. cbn. rewrite Hd, Hp. reflexivity.
  - assert (Hgoal : forall o : option (TextLayer num),
               o = option_map (fun tl => withAppended [] tl) o)
      by (intros [tl|]; cbn; [rewrite withAppended_nil|]; reflexivity).
    rewrite <- Hgoal.
    destruct (find (pageMatches (string_of_Z (ann_page ann))) (pages d)) as [p|] eqn:Hp.
    + destruct (textLayer p) as [tl|] eqn:Htl.
      * unfold textLayerOf. cbn. rewrite Hd. cbn.
        rewrite find_updateFirst_other; [reflexivity| |reflexivity].
        intros q. apply pageMatches_distinct. exact Hn.
      * unfold textLayerOf. cbn. rewrite Hd. reflexivity.
    + unfold textLayerOf. cbn. rewrite Hd. reflexivity.
Qed.

(** A call that finds no text layer for the annotation's page leaves the
    viewer frame as it is. *)
Lemma renderHighlight_missing (ann : Annotation num) (s : State num) :
  textLayerOf (string_of_Z (ann_page ann)) s = None ->
  iframe (renderHighlight ann s) = iframe s.
Proof.
  unfold textLayerOf, renderHighlight.
  destruct (contentDocument (iframe s)) as [d|]; [|reflexivity].
  destruct (find _ (pages d)) as [p|]; [|reflexivity].
  destruct (textLayer p); [discriminate|reflexivity].
Qed.

Lemma renderHighlight_annotations (ann : Annotation num) (s : State num) :
  annotations (renderHighlight ann s) = annotations s.
Proof.
  unfold renderHighlight.
  destruct (contentDocument (iframe s)) as [d|]; [|reflexivity].
  destruct (find _ (pages d)) as [p|]; [|reflexivity].
  destruct (textLayer p); reflexivity.
Qed.

(** C2: when [renderHighlight] finds the text layer of the annotation's
    page, it leaves the layer's layout and existing children as they are and
    appends one element per rectangle, in order; the element for [rect] has
    left [rect.x - textLayerRect.left + scrollLeft], top
    [rect.y - textLayerRect.top + scrollTop], width [rect.w] and height
    [rect.h], computed with the layer's current rectangle and scroll
    offsets. *)
Theorem renderHighlight_geometry (ann : Annotation num) (s : State num)
    (tl : TextLayer num) :
  textLayerOf (string_of_Z (ann_page ann)) s = Some tl ->
  exists tl' : TextLayer num,
    textLayerOf (string_of_Z (ann_page ann)) (renderHighlight ann s) = Some tl'
    /\ tl_rect tl' = tl_rect tl
    /\ scrollLeft tl' = scrollLeft tl
    /\ scrollTop tl' = scrollTop tl
    /\ length (children tl') = (length (children tl) + length (ann_rects ann))%nat
    /\ firstn (length (children tl)) (children tl') = children tl
    /\ forall (i : nat) (rect : Rect num),
         nth_error (ann_rects ann) i = Some rect ->
         exists o : Overlay num,
           nth_error (children tl') (length (children tl) + i) = Some (Highlight o)
           /\ style_left o = nadd (nsub (rect_x rect) (left (tl_rect tl'))) (scrollLeft tl')
           /\ style_top o = nadd (nsub (rect_y rect) (top (tl_rect tl'))) (scrollTop tl')
           /\ style_width o = rect_w rect
           /\ style_height o = rect_h rect.
Proof.
  intros Htl.
  rewrite renderHighlight_textLayerOf, Htl. cbn [option_map].
  unfold highlightsOn. rewrite String.eqb_refl.
  eexists. split; [reflexivity|].
  cbn [withAppended tl_rect scrollLeft scrollTop children].
  repeat split.
  - rewrite length_app, length_map. reflexivity.
  - rewrite firstn_app, Nat.sub_diag, firstn_all. cbn. apply app_nil_r.
  - intros i rect Hi.
    exists (makeHighlight ann (tl_rect tl) tl rect).
    rewrite nth_error_app2 by lia.
    replace (length (children tl) + i - length (children tl))%nat with i by lia.
    rewrite nth_error_map, Hi. repeat split.
Qed.

(** C3 (as amended): a highlight created in connected mode from a non-empty
    selection with at least one rectangle makes exactly one host call,
    [onAnnotationRequest], carrying the selection's page, text, rectangles,
    the colour and an empty comment.  When the viewer frame has a text layer
    for the selection's page, one element per selection rectangle is
    appended to it, each tagged with annotation id -1; when it has none, the
    frame is left as it is. *)
Theorem createHighlight_request_and_overlays (s : State num) :
  pyBridge s = true ->
  selectedText s <> "" ->
  selectionRects s <> [] ->
  let s' := createHighlight s in
  let number := string_of_Z (selectionPage s) in
  hostCalls s'
  = (hostCalls s
     ++ [onAnnotationRequest
           (JObj [("page", JInt (selectionPage s));
                  ("text", JStr (selectedText s));
                  ("rects", JArr (map rectJSON (selectionRects s)));
                  ("color", JStr "#FFFF00");
                  ("comment", JStr "")])])%list
  /\ (forall tl : TextLayer num,
        textLayerOf number s = Some tl ->
        exists added : list (Overlay num),
          textLayerOf number s' = Some (withAppended (map Highlight added) tl)
          /\ added = map (makeHighlight (optimisticAnnotation s) (tl_rect tl) tl)
                         (selectionRects s)
          /\ length added = length (selectionRects s)
          /\ Forall (fun o => data_annotation_id o = "-1" /\ ann_id (click_ann o) = -1)
                    added)
  /\ (textLayerOf number s = None -> iframe s' = iframe s).
Proof.
  intros Hb Htext Hrects s' number. subst s' number. unfold createHighlight.
  assert (Hguard : String.eqb (selectedText s) "" || (Z.of_nat (length (selectionRects s)) =? 0)
                   = false).
  { apply orb_false_iff. split.
    - apply String.eqb_neq. exact Htext.
    - apply Z.eqb_neq. destruct (selectionRects s); [contradiction|cbn; lia]. }
  rewrite Hguard. split; [|split].
  - rewrite showToast_hostCalls, renderHighlight_hostCalls.
    apply callHost_connected. exact Hb.
  - intros tl Htl.
    exists (map (makeHighlight (optimisticAnnotation s) (tl_rect tl) tl) (selectionRects s)).
    split; [|split; [reflexivity|split]].
    + change (textLayerOf (string_of_Z (selectionPage s))
                (renderHighlight (optimisticAnnotation s)
                   (callHost (onAnnotationRequest (annotationData s)) s))
              = Some (withAppended
                        (map Highlight
                           (map (makeHighlight (optimisticAnnotation s) (tl_rect tl) tl)
                                (selectionRects s))) tl)).
      rewrite renderHighlight_textLayerOf.
      unfold textLayerOf at 1. rewrite callHost_iframe. fold (textLayerOf (string_of_Z (selectionPage s)) s).
      rewrite Htl. cbn [option_map]. unfold highlightsOn.
      cbn [optimisticAnnotation ann_page ann_rects]. rewrite String.eqb_refl.
      rewrite map_map. reflexivity.
    + apply length_map.
    + apply Forall_forall. intros o Ho. apply in_map_iff in Ho as (rect & <- & _).
      split; reflexivity.
  - intros Hnone. rewrite showToast_iframe.
    rewrite renderHighlight_missing; [apply callHost_iframe|].
    unfold textLayerOf. rewrite callHost_iframe. exact Hnone.
Qed.

(** C7: [confirmAnnotation realId] writes one line to the console and
    nothing else: no host call, no change to the globals, the menu, the
    toast, the timers or the viewer frame, so every highlight is still in
    place with the tag and the click listener it was built with.  A click on
    a highlight sends the same call after the confirmation as before; for a
    highlight built by [createHighlight] the tag is "-1" and, in connected
    mode, the click sends id -1. *)
Theorem confirmAnnotation_only_logs (realId : Z) (s : State num) :
  let s' := confirmAnnotation realId s in
  console s'
  = (console s ++ [{| level := LogInfo;
                      args := [AStr "Annotation confirmed with ID:"; AInt realId] |}])%list
  /\ hostCalls s' = hostCalls s
  /\ iframe s' = iframe s
  /\ overlaysOf s' = overlaysOf s
  /\ (pyBridge s', selectedText s', selectionRects s', selectionPage s',
      annotations s', viewerApp s')
     = (pyBridge s, selectedText s, selectionRects s, selectionPage s,
        annotations s, viewerApp s)
  /\ (menu s', toast s', timers s', window s') = (menu s, toast s, timers s, window s)
  /\ (forall o : Overlay num,
        hostCalls (clickHighlight o s') = hostCalls (clickHighlight o s))
  /\ (forall (s0 : State num) (r : DOMRect num) (tl : TextLayer num) (rect : Rect num),
        let o := makeHighlight (optimisticAnnotation s0) r tl rect in
        data_annotation_id o = "-1"
        /\ (pyBridge s = true ->
            hostCalls (clickHighlight o s')
            = (hostCalls s
               ++ [onContextAction "show_annotation"
                     (PJson (JObj [("id", JInt (-1));
                                   ("content", JStr (selectedText s0));
                                   ("comment", JStr "")]))])%list)).
Proof.
  intros s'. subst s'. unfold confirmAnnotation.
  repeat split.
  - intros o. unfold clickHighlight, callHost. cbn [pyBridge consoleWrite set_console].
    destruct (pyBridge s); reflexivity.
  - intros Hb. unfold clickHighlight. rewrite callHost_connected by exact Hb. reflexivity.
Qed.

(** [renderHighlight] over a list, as in the loop of [loadAnnotations]. *)
Lemma renderAll_textLayerOf (l : list (Annotation num)) (number : string) :
  forall s : State num,
    textLayerOf number (fold_left (fun s ann => renderHighlight ann s) l s)
    = option_map (fun tl => withAppended (flat_map (highlightsOn number tl) l) tl)
                 (textLayerOf number s).
Proof.
  induction l as [|ann l IH]; intros s.
  - cbn. destruct (textLayerOf number s) as [tl|]; cbn; [rewrite withAppended_nil|];
      reflexivity.
  - cbn [fold_left flat_map]. rewrite IH, renderHighlight_textLayerOf.
    destruct (textLayerOf number s) as [tl|]; cbn [option_map]; [|reflexivity].
    rewrite withAppended_twice. reflexivity.
Qed.

Lemma renderAll_annotations (l : list (Annotation num)) :
  forall s : State num,
    annotations (fold_left (fun s ann => renderHighlight ann s) l s) = annotations s.
Proof.
  induction l as [|ann l IH]; intros s; [reflexivity|].
  cbn [fold_left]. rewrite IH. apply renderHighlight_annotations.
Qed.

Lemma loadAnnotations_textLayerOf (l : list (Annotation num)) (number : string)
    (s : State num) :
  textLayerOf number (loadAnnotations l s)
  = option_map (fun tl => withAppended (flat_map (highlightsOn number tl) l) tl)
               (textLayerOf number s).
Proof. unfold loadAnnotations. rewrite renderAll_textLayerOf. reflexivity. Qed.

(** C10: of two consecutive [loadAnnotations] calls, the second replaces
    the in-memory annotation list with its argument and removes nothing
    from the viewer frame: on every page, the text layer keeps the children
    it had after the first call, the first call's highlights among them, and
    the highlights of the second list are appended after them. *)
Theorem loadAnnotations_twice (l1 l2 : list (Annotation num)) (s : State num) :
  let s1 := loadAnnotations l1 s in
  let s2 := loadAnnotations l2 s1 in
  annotations s1 = l1
  /\ annotations s2 = l2
  /\ forall number : string,
       (forall tl1 : TextLayer num,
          textLayerOf number s1 = Some tl1 ->
          textLayerOf number s2
          = Some (withAppended (flat_map (highlightsOn number tl1) l2) tl1))
       /\ (forall tl : TextLayer num,
             textLayerOf number s = Some tl ->
             exists tl2 : TextLayer num,
               textLayerOf number s2 = Some tl2
               /\ children tl2
                  = (children tl ++ flat_map (highlightsOn number tl) l1
                                 ++ flat_map (highlightsOn number tl) l2)%list)
       /\ (textLayerOf number s1 = None -> textLayerOf number s2 = None).
Proof.
  intros s1 s2. subst s1 s2.
  split; [|split].
  - unfold loadAnnotations. rewrite renderAll_annotations. reflexivity.
  - unfold loadAnnotations at 1. rewrite renderAll_annotations. reflexivity.
  - intros number. split; [|split].
    + intros tl1 H1. rewrite loadAnnotations_textLayerOf, H1. reflexivity.
    + intros tl Htl. rewrite !loadAnnotations_textLayerOf, Htl. cbn [option_map].
      eexists. split; [reflexivity|].
      cbn [withAppended children]. rewrite <- app_assoc. reflexivity.
    + intros H1. rewrite loadAnnotations_textLayerOf, H1. reflexivity.
Qed.

End OverlayProperties.

(** ** The context menu in integer pixels *)

(** C5 (as amended): [showContextMenu x y] displays the menu and places it
    at [x], unless [x + menuWidth] exceeds the viewport width, where it
    places it at [viewportWidth - menuWidth - 10]; the same vertically.  The
    menu therefore never extends past the right or the bottom edge of the
    viewport.  Nothing moves the menu right or down: a position is kept
    above 0 only when the requested one was and the menu and its margin fit
    the viewport. *)
Theorem showContextMenu_position (x y : Z) (s : State Z) :
  let s' := showContextMenu x y s in
  let vw := innerWidth (window s) in
  let vh := innerHeight (window s) in
  let mw := menu_width (menu s) in
  let mh := menu_height (menu s) in
  menu_display (menu s') = "block"
  /\ exists x' y' : Z,
       menu_left (menu s') = Some x'
       /\ menu_top (menu s') = Some y'
       /\ x' = (if x + mw >? vw then vw - mw - 10 else x)
       /\ y' = (if y + mh >? vh then vh - mh - 10 else y)
       /\ x' + mw <= vw
       /\ y' + mh <= vh
       /\ x' <= x
       /\ y' <= y
       /\ (0 <= x -> mw + 10 <= vw -> 0 <= x')
       /\ (0 <= y -> mh + 10 <= vh -> 0 <= y').
Proof.
  intros s' vw vh mw mh. subst s'. split; [reflexivity|].
  exists (if x + mw >? vw then vw - mw - 10 else x),
         (if y + mh >? vh then vh - mh - 10 else y).
  split; [reflexivity|]. split; [reflexivity|]. split; [reflexivity|]. split; [reflexivity|].
  destruct (x + mw >? vw) eqn:Hx; destruct (y + mh >? vh) eqn:Hy;
    rewrite ?Z.gtb_ltb, ?Z.ltb_lt, ?Z.ltb_ge in Hx, Hy; repeat split; lia.
Qed.

(** C5, the claim as first stated fails: a request 5 pixels short of the
    right edge overflow is kept as it is, inside the 10-pixel margin, and a
    negative ordinate is kept negative. *)
Lemma showContextMenu_not_clamped :
  menu_left (menu (showContextMenu 675 (-5) exConnected)) = Some 675
  /\ menu_top (menu (showContextMenu 675 (-5) exConnected)) = Some (-5)
  /\ innerWidth (window exConnected) - menu_width (menu exConnected) - 10 = 670
  /\ ~ (0 <= 675 <= innerWidth (window exConnected) - menu_width (menu exConnected) - 10)
  /\ ~ (0 <= -5 <= innerHeight (window exConnected) - menu_height (menu exConnected) - 10).
Proof.
  repeat split; try reflexivity; cbn; lia.
Qed.

(** ** The claims on the concrete session *)

(** C1, the claim as first stated fails: after a selection of "Hello" with
    one rectangle, a one-character selection empties the text but the
    rectangle captured before is still in [selectionRects]. *)
Lemma handleTextSelection_short_keeps_rects :
  strlen (trimmedText (Some exShortSelection)) < 2
  /\ selectionRects
       (handleTextSelection (Some exShortSelection) exMouseEvent
          (handleTextSelection (Some exSelection) exMouseEvent exConnected))
     = [ {| rect_x := 30; rect_y := 50; rect_w := 40; rect_h := 12 |} ]
  /\ selectionRects
       (handleTextSelection (Some exShortSelection) exMouseEvent
          (handleTextSelection (Some exSelection) exMouseEvent exConnected))
     <> [].
Proof.
  split; [reflexivity|]. split; [reflexivity|]. discriminate.
Qed.

(** C1 on the one-character selection. *)
Lemma handleTextSelection_short_witness :
  strlen (trimmedText (Some exShortSelection)) < 2
  /\ selectedText (handleTextSelection (Some exShortSelection) exMouseEvent exConnected) = ""
  /\ menu_display (menu (handleTextSelection (Some exShortSelection) exMouseEvent exConnected))
     = "none".
Proof.
  assert (Hlen : strlen (trimmedText (Some exShortSelection)) < 2) by reflexivity.
  split; [exact Hlen|].
  destruct (handleTextSelection_short (Some exShortSelection) exMouseEvent exConnected Hlen)
    as (Htext & Hmenu & _).
  split; [exact Htext|exact Hmenu].
Defined.

(** C6 on the selection of "Hello". *)
Lemma handleTextSelection_notifies_host_witness :
  pyBridge exConnected = true
  /\ 2 <= strlen (trimmedText (Some exSelection))
  /\ hostCalls (handleTextSelection (Some exSelection) exMouseEvent exConnected)
     = [onTextSelected "Hello"].
Proof.
  assert (Hb : pyBridge exConnected = true) by reflexivity.
  assert (Hlen : 2 <= strlen (trimmedText (Some exSelection))) by (vm_compute; discriminate).
  split; [exact Hb|]. split; [exact Hlen|].
  exact (handleTextSelection_notifies_host (Some exSelection) exMouseEvent exConnected Hb Hlen).
Defined.

(** C8, the claim as first stated fails: the walk starts at the anchor, so
    a selection anchored on the page element itself, none of whose
    ancestors is a page container, resolves to that page and not to 0. *)
Lemma getPageFromSelection_anchor_is_page :
  ranges exPageAnchorSelection <> []
  /\ forallb notPageContainer (tl (anchorPath exPageAnchorSelection)) = true
  /\ getPageFromSelection (Some exPageAnchorSelection) = 3
  /\ getPageFromSelection (Some exPageAnchorSelection) <> 0.
Proof.
  split; [discriminate|]. split; [reflexivity|]. split; [reflexivity|]. discriminate.
Qed.

(** C8 on the selection anchored in the toolbar. *)
Lemma getPageFromSelection_default_witness :
  forallb notPageContainer (anchorPath exOrphanSelection) = true
  /\ getPageFromSelection (Some exOrphanSelection) = 0.
Proof.
  split; [reflexivity|].
  apply (getPageFromSelection_default (Some exOrphanSelection)).
  intros sel Hsel _. injection Hsel as <-. reflexivity.
Defined.

(** C9 on the page opened without a [file] parameter. *)
Lemma initViewer_missing_file_witness :
  searchParam_file (window exNoFile) = None
  /\ textContent (toast (initViewer exNoFile)) = "Error: No PDF file specified"
  /\ src (iframe (initViewer exNoFile)) = None.
Proof.
  assert (Hfile : searchParam_file (window exNoFile) = None) by reflexivity.
  split; [exact Hfile|].
  destruct (initViewer_missing_file exNoFile Hfile) as (Htoast & _ & _ & _ & Hsrc & _).
  split; [rewrite Htoast; reflexivity|rewrite Hsrc; reflexivity].
Defined.

(** C4, the claim as first stated fails: two document-loaded events make
    two [onViewerReady] calls. *)
Lemma onViewerReady_called_twice :
  hostCalls (eventBus_run [exDocumentLoaded; exDocumentLoaded]
               (setupIframeListeners exConnected))
  = [onViewerReady; onViewerReady]
  /\ countViewerReady
       (hostCalls (eventBus_run [exDocumentLoaded; exDocumentLoaded]
                     (setupIframeListeners exConnected)))
     = 2%nat.
Proof. split; reflexivity. Qed.

(** C4 on a run with one document-loaded event. *)
Lemma onViewerReady_per_documentloaded_witness :
  pyBridge exConnected = true
  /\ contentDocument (iframe exConnected) <> None
  /\ PDFViewerApplication (iframe exConnected) = Some {| eventBus := Some [] |}
  /\ countViewerReady
       (hostCalls (eventBus_run [exDocumentLoaded] (setupIframeListeners exConnected)))
     = 1%nat.
Proof.
  assert (Hb : pyBridge exConnected = true) by reflexivity.
  assert (Hdoc : contentDocument (iframe exConnected) <> None) by discriminate.
  assert (Happ : PDFViewerApplication (iframe exConnected) = Some {| eventBus := Some [] |})
    by reflexivity.
  split; [exact Hb|]. split; [exact Hdoc|]. split; [exact Happ|].
  exact (onViewerReady_per_documentloaded [exDocumentLoaded] exConnected Hb Hdoc Happ).
Defined.

(** C2 on a stored annotation with two rectangles on page 1. *)
Lemma renderHighlight_geometry_witness :
  textLayerOf (string_of_Z (ann_page exAnnotation)) exConnected = Some exTextLayer
  /\ exists tl' : TextLayer Z,
       textLayerOf (string_of_Z (ann_page exAnnotation)) (renderHighlight exAnnotation exConnected)
       = Some tl'
       /\ length (children tl') = 3%nat.
Proof.
  assert (Htl : textLayerOf (string_of_Z (ann_page exAnnotation)) exConnected
                = Some exTextLayer) by reflexivity.
  split; [exact Htl|].
  destruct (renderHighlight_geometry exAnnotation exConnected exTextLayer Htl)
    as (tl' & Hafter & _ & _ & _ & Hlen & _).
  exists tl'. split; [exact Hafter|exact Hlen].
Defined.

(** C3, the claim as first stated fails: a selection anchored outside every
    page container has page 0; the highlight made from it is requested from
    the host, and no overlay is rendered, the viewer having no page 0. *)
Lemma createHighlight_without_overlay :
  let s := handleTextSelection (Some exOrphanSelection) exMouseEvent exConnected in
  pyBridge s = true
  /\ selectedText s = "Hello"
  /\ length (selectionRects s) = 1%nat
  /\ selectionPage s = 0
  /\ hostCalls (createHighlight s)
     = (hostCalls s ++ [onAnnotationRequest (annotationData s)])%list
  /\ overlaysOf (createHighlight s) = [].
Proof. repeat split. Qed.

(** C3 on the selection of "Hello" inside page 1. *)
Lemma createHighlight_request_and_overlays_witness :
  let s := handleTextSelection (Some exSelection) exMouseEvent exConnected in
  pyBridge s = true
  /\ selectedText s <> ""
  /\ selectionRects s <> []
  /\ hostCalls (createHighlight s)
     = [onTextSelected "Hello";
        onAnnotationRequest
          (JObj [("page", JInt 1); ("text", JStr "Hello");
                 ("rects", JArr [JObj [("x", JNum 30); ("y", JNum 50);
                                       ("w", JNum 40); ("h", JNum 12)]]);
                 ("color", JStr "#FFFF00"); ("comment", JStr "")])].
Proof.
  intros s.
  assert (Hb : pyBridge s = true) by reflexivity.
  assert (Htext : selectedText s <> "") by discriminate.
  assert (Hrects : selectionRects s <> []) by discriminate.
  split; [exact Hb|]. split; [exact Htext|]. split; [exact Hrects|].
  destruct (createHighlight_request_and_overlays s Hb Htext Hrects) as (Hcalls & _).
  rewrite Hcalls. reflexivity.
Defined.

(** ** Further properties: strings and addresses *)

Lemma list_ascii_of_string_app (a b : string) :
  list_ascii_of_string (a ++ b) = (list_ascii_of_string a ++ list_ascii_of_string b)%list.
Proof. induction a as [|c a IH]; cbn; [|rewrite IH]; reflexivity. Qed.

Lemma append_empty_r (s : string) : s ++ "" = s.
Proof. induction s as [|c s IH]; cbn; [|rewrite IH]; reflexivity. Qed.

Lemma append_assoc (a b c : string) : (a ++ b) ++ c = a ++ (b ++ c).
Proof. induction a as [|x a IH]; cbn; [|rewrite IH]; reflexivity. Qed.

Lemma trimStart_allWhiteSpace (s : string) : allWhiteSpace s = true -> trimStart s = "".
Proof.
  unfold allWhiteSpace. induction s as [|c s IH]; cbn; [reflexivity|].
  intros Hall. apply andb_true_iff in Hall as [Hc Hs]. rewrite Hc. exact (IH Hs).
Qed.

(** The escape of one code unit is made of a percent sign and characters
    that need no escape. *)
Lemma encode_unit_safe (c : ascii) :
  forallb urlSafe (list_ascii_of_string (encodeURIComponent (String c ""))) = true.
Proof. destruct c as [[] [] [] [] [] [] [] []]; vm_compute; reflexivity. Qed.

Lemma encodeURIComponent_cons (c : ascii) (r : string) :
  encodeURIComponent (String c r)
  = encodeURIComponent (String c "") ++ encodeURIComponent r.
Proof. cbn [encodeURIComponent]. rewrite append_empty_r. reflexivity. Qed.

Lemma encodeURIComponent_urlSafe (s : string) :
  forallb urlSafe (list_ascii_of_string (encodeURIComponent s)) = true.
Proof.
  induction s as [|c s IH]; [reflexivity|].
  rewrite encodeURIComponent_cons, list_ascii_of_string_app, forallb_app.
  rewrite encode_unit_safe, IH. reflexivity.
Qed.

Lemma encodeURIComponent_without (s : string) (c : ascii) :
  urlSafe c = false -> without c (encodeURIComponent s) = true.
Proof.
  intros Hc. unfold without. pose proof (encodeURIComponent_urlSafe s) as Hsafe.
  rewrite forallb_forall in Hsafe |- *. intros a Ha.
  apply negb_true_iff. destruct (Ascii.eqb a c) eqn:Heq; [|reflexivity].
  apply Ascii.eqb_eq in Heq. subst a. rewrite (Hsafe c Ha) in Hc. discriminate.
Qed.

(** [encodeURIComponent] writes only unreserved characters and percent
    signs, whatever its input: the result has no character that separates
    or ends a query parameter. *)
Theorem encodeURIComponent_safe (s : string) :
  forallb urlSafe (list_ascii_of_string (encodeURIComponent s)) = true
  /\ without "?" (encodeURIComponent s) = true
  /\ without "&" (encodeURIComponent s) = true
  /\ without "=" (encodeURIComponent s) = true
  /\ without "#" (encodeURIComponent s) = true
  /\ without "/" (encodeURIComponent s) = true
  /\ without " " (encodeURIComponent s) = true.
Proof.
  split; [apply encodeURIComponent_urlSafe|].
  repeat split; apply encodeURIComponent_without; reflexivity.
Qed.

(** A string of unreserved characters is its own encoding. *)
Theorem encodeURIComponent_unreserved (s : string) :
  forallb isUnreserved (list_ascii_of_string s) = true ->
  encodeURIComponent s = s.
Proof.
  induction s as [|c s IH]; [reflexivity|].
  cbn [list_ascii_of_string forallb]. intros Hall.
  apply andb_true_iff in Hall as [Hc Hs].
  cbn [encodeURIComponent]. rewrite Hc, (IH Hs). reflexivity.
Qed.

Lemma encodeURIComponent_unreserved_witness :
  forallb isUnreserved (list_ascii_of_string "paper-v2_final.pdf") = true
  /\ encodeURIComponent "paper-v2_final.pdf" = "paper-v2_final.pdf".
Proof.
  assert (Hall : forallb isUnreserved (list_ascii_of_string "paper-v2_final.pdf") = true)
    by reflexivity.
  split; [exact Hall|]. exact (encodeURIComponent_unreserved "paper-v2_final.pdf" Hall).
Defined.

Lemma beforeQuery_without (a : string) : without "?" a = true -> beforeQuery a = a.
Proof.
  unfold without. induction a as [|c a IH]; cbn; [reflexivity|].
  intros Hall. apply andb_true_iff in Hall as [Hc Ha].
  apply negb_true_iff in Hc. rewrite Hc, (IH Ha). reflexivity.
Qed.

Lemma beforeQuery_query (a q : string) :
  without "?" a = true -> beforeQuery (a ++ String "?" q) = a.
Proof.
  unfold without. induction a as [|c a IH]; cbn; [reflexivity|].
  intros Hall. apply andb_true_iff in Hall as [Hc Ha].
  apply negb_true_iff in Hc. rewrite Hc, (IH Ha). reflexivity.
Qed.

Lemma lastIndexOfFrom_without (c : ascii) (s : string) (i found : Z) :
  without c s = true -> lastIndexOfFrom c s i found = found.
Proof.
  unfold without. revert i found. induction s as [|a s IH]; intros i found; cbn;
    [reflexivity|].
  intros Hall. apply andb_true_iff in Hall as [Ha Hs].
  apply negb_true_iff in Ha. rewrite Ha. apply IH. exact Hs.
Qed.

Lemma lastIndexOfFrom_last (c : ascii) (dir file : string) :
  without c file = true ->
  forall i found : Z,
    lastIndexOfFrom c (dir ++ String c file) i found = i + strlen dir.
Proof.
  intros Hfile. unfold strlen. induction dir as [|a dir IH]; intros i found.
  - cbn [append lastIndexOfFrom]. rewrite Ascii.eqb_refl.
    rewrite lastIndexOfFrom_without by exact Hfile. cbn. lia.
  - cbn [append lastIndexOfFrom String.length]. rewrite IH. lia.
Qed.

Lemma substring_prefix (a b : string) : String.substring 0 (String.length a) (a ++ b) = a.
Proof.
  induction a as [|c a IH]; cbn.
  - destruct b; reflexivity.
  - rewrite IH. reflexivity.
Qed.

Lemma without_app (c : ascii) (a b : string) :
  without c (a ++ b) = without c a && without c b.
Proof. unfold without. rewrite list_ascii_of_string_app, forallb_app. reflexivity. Qed.

Section AddressProperties.

Context {num : Type} `{Number num}.

(** [resolvePdfjsPath] on an address [dir/file] or [dir/file?query]: the
    viewer is looked up beside the directory of the bridge page, whatever
    the query holds, slashes and question marks included. *)
Theorem resolvePdfjsPath_directory (s : State num) (dir file query : string) :
  without "?" dir = true ->
  without "?" file = true ->
  without "/" file = true ->
  location_href (window s) = dir ++ String "/" file
  \/ location_href (window s) = dir ++ String "/" (file ++ String "?" query) ->
  resolvePdfjsPath s = dir ++ "/../pdfjs-5.4.624-dist/web/viewer.html".
Proof.
  intros Hdir Hfile Hslash Hhref.
  assert (Hpath : without "?" (dir ++ String "/" file) = true).
  { rewrite without_app, Hdir. unfold without in *. cbn. exact Hfile. }
  assert (Hbefore : beforeQuery (location_href (window s)) = dir ++ String "/" file).
  { destruct Hhref as [-> | ->].
    - apply beforeQuery_without. exact Hpath.
    - change (dir ++ String "/" (file ++ String "?" query))
        with (dir ++ (String "/" file ++ String "?" query)).
      rewrite <- append_assoc. apply beforeQuery_query. exact Hpath. }
  unfold resolvePdfjsPath. rewrite Hbefore.
  unfold lastIndexOf. rewrite lastIndexOfFrom_last by exact Hslash.
  unfold substring0, strlen.
  replace (Z.to_nat (Z.max 0 (0 + Z.of_nat (String.length dir)))) with (String.length dir)
    by lia.
  rewrite substring_prefix. reflexivity.
Qed.

(** [resolvePdfjsPath] on an address that has no slash before its query:
    [lastIndexOf] gives -1, the base path is empty and the viewer path
    starts at the root. *)
Theorem resolvePdfjsPath_no_slash (s : State num) :
  without "/" (beforeQuery (location_href (window s))) = true ->
  resolvePdfjsPath s = "/../pdfjs-5.4.624-dist/web/viewer.html".
Proof.
  intros Hslash. unfold resolvePdfjsPath, lastIndexOf.
  rewrite lastIndexOfFrom_without by exact Hslash.
  unfold substring0. cbn [Z.max Z.compare Z.to_nat].
  destruct (beforeQuery (location_href (window s))); reflexivity.
Qed.

End AddressProperties.

(** ** Further properties: page numbers *)

Lemma uintValue_of_uint_acc (d : Decimal.uint) (acc : positive) :
  Z.pos (Pos.of_uint_acc d acc) = uintValue d (Z.pos acc).
Proof.
  revert acc. induction d; intros acc; cbn [Pos.of_uint_acc uintValue];
    try reflexivity; rewrite IHd; f_equal; lia.
Qed.

Lemma uintValue_of_uint (d : Decimal.uint) : Z.of_N (Pos.of_uint d) = uintValue d 0.
Proof.
  induction d; cbn [Pos.of_uint uintValue]; try reflexivity; try exact IHd;
    cbn [Z.of_N]; rewrite uintValue_of_uint_acc; reflexivity.
Qed.

Lemma parseDigits_uint (d : Decimal.uint) (acc : Z) :
  parseDigits (NilEmpty.string_of_uint d) (Some acc) = Some (uintValue d acc).
Proof.
  revert acc. induction d; intros acc; cbn [NilEmpty.string_of_uint uintValue];
    [reflexivity|..]; cbn [parseDigits]; apply IHd.
Qed.

Lemma parseInt_uint (d : Decimal.uint) :
  parseInt (Some (NilZero.string_of_uint d)) = Some (uintValue d 0)
  /\ parseDigits (NilZero.string_of_uint d) None = Some (uintValue d 0).
Proof.
  destruct d; cbn [NilZero.string_of_uint NilEmpty.string_of_uint uintValue];
    [split; reflexivity|..];
    (split; [unfold parseInt; cbn [trimStart isWhiteSpace]; cbn|cbn [parseDigits]; cbn];
     apply parseDigits_uint).
Qed.

(** [parseInt(String(n), 10)] is [n]: the number read from a page marker
    is the one a selector built from it looks for. *)
Lemma parseInt_string_of_Z (n : Z) : parseInt (Some (string_of_Z n)) = Some n.
Proof.
  unfold string_of_Z.
  destruct n as [|p|p]; cbn [Z.to_int NilZero.string_of_int].
  - reflexivity.
  - destruct (parseInt_uint (Pos.to_uint p)) as [Hp _]. rewrite Hp.
    rewrite <- uintValue_of_uint, DecimalPos.Unsigned.of_to. reflexivity.
  - change (parseInt (Some (String "-" (NilZero.string_of_uint (Pos.to_uint p)))))
      with (option_map Z.opp (parseDigits (NilZero.string_of_uint (Pos.to_uint p)) None)).
    destruct (parseInt_uint (Pos.to_uint p)) as [_ Hp]. rewrite Hp.
    rewrite <- uintValue_of_uint, DecimalPos.Unsigned.of_to. reflexivity.
Qed.

Section MoreSelectionProperties.

Context {num : Type} `{Number num}.

Lemma pageOfPath_passedThrough (pre rest : list Node) :
  forallb passedThrough pre = true -> pageOfPath (pre ++ rest) = pageOfPath rest.
Proof.
  induction pre as [|n pre IH]; intros Hpre; [reflexivity|].
  cbn [forallb] in Hpre. apply andb_true_iff in Hpre as [Hn Hpre].
  destruct n as [| |cls attrs]; cbn [app pageOfPath].
  - discriminate.
  - exact (IH Hpre).
  - cbn [passedThrough] in Hn. apply negb_true_iff in Hn. rewrite Hn. exact (IH Hpre).
Qed.

(** The page of a selection is read from the page container nearest to the
    anchor: what lies above that container is not looked at, and a marker
    that is missing or is not a number gives page 0. *)
Theorem getPageFromSelection_nearest (sel : Selection num) (pre rest : list Node)
    (cls : list string) (attrs : list (string * string)) :
  ranges sel <> [] ->
  anchorPath sel = (pre ++ ElementNode cls attrs :: rest)%list ->
  forallb passedThrough pre = true ->
  containsClass cls "page" = true ->
  getPageFromSelection (Some sel)
  = match parseInt (getAttribute attrs "data-page-number") with
    | Some pageNum => pageNum
    | None => 0
    end.
Proof.
  intros Hranges Hpath Hpre Hcls. unfold getPageFromSelection.
  destruct (ranges sel) as [|r rs]; [contradiction|].
  rewrite Hpath, pageOfPath_passedThrough by exact Hpre.
  cbn [pageOfPath]. rewrite Hcls. reflexivity.
Qed.

(** Round trip, for page numbers the engine holds exactly (magnitude up to
    2^53 - 1, where [parseInt] and [String] lose nothing): a selection whose
    nearest page container is marked [String(n)] has page [n], so the
    selector [renderHighlight] builds from the stored page is that marker
    again. *)
Theorem getPageFromSelection_round_trip (sel : Selection num) (pre rest : list Node)
    (cls : list string) (attrs : list (string * string)) (n : Z) :
  safeInteger n ->
  ranges sel <> [] ->
  anchorPath sel = (pre ++ ElementNode cls attrs :: rest)%list ->
  forallb passedThrough pre = true ->
  containsClass cls "page" = true ->
  getAttribute attrs "data-page-number" = Some (string_of_Z n) ->
  getPageFromSelection (Some sel) = n
  /\ Some (string_of_Z (getPageFromSelection (Some sel)))
     = getAttribute attrs "data-page-number".
Proof.
  intros _ Hranges Hpath Hpre Hcls Hattr.
  assert (Hpage : getPageFromSelection (Some sel) = n).
  { unfold getPageFromSelection.
    destruct (ranges sel) as [|r rs]; [contradiction|].
    rewrite Hpath, pageOfPath_passedThrough by exact Hpre.
    cbn [pageOfPath]. rewrite Hcls, Hattr, parseInt_string_of_Z. reflexivity. }
  split; [exact Hpage|]. rewrite Hpage, Hattr. reflexivity.
Qed.

(** A selection made of white space only, however long, counts as no
    selection: the text is emptied, the menu hidden, the host not called. *)
Theorem handleTextSelection_whitespace (sel : Selection num) (mouseEvent : MouseEvent num)
    (s : State num) :
  allWhiteSpace (toString sel) = true ->
  let s' := handleTextSelection (Some sel) mouseEvent s in
  selectedText s' = ""
  /\ menu_display (menu s') = "none"
  /\ hostCalls s' = hostCalls s
  /\ iframe s' = iframe s.
Proof.
  intros Hws s'. subst s'. unfold handleTextSelection, trim.
  rewrite trimStart_allWhiteSpace by exact Hws.
  repeat split.
Qed.

(** A selection of at least 2 characters is stored whole: its trimmed text,
    its page, and one rectangle per client rectangle of its first range,
    with the same coordinates; later ranges are not read, and without any
    range the rectangles of the previous selection stay.  The menu is
    displayed, and in standalone mode the host is not called. *)
Theorem handleTextSelection_captures (sel : Selection num) (mouseEvent : MouseEvent num)
    (s : State num) :
  2 <= strlen (trim (toString sel)) ->
  let s' := handleTextSelection (Some sel) mouseEvent s in
  selectedText s' = trim (toString sel)
  /\ selectionPage s' = getPageFromSelection (Some sel)
  /\ (ranges sel = [] -> selectionRects s' = selectionRects s)
  /\ (forall (range : Range num) (others : list (Range num)),
        ranges sel = range :: others ->
        length (selectionRects s') = length (getClientRects range)
        /\ forall (i : nat) (r : DOMRect num),
             nth_error (getClientRects range) i = Some r ->
             nth_error (selectionRects s') i
             = Some {| rect_x := left r; rect_y := top r;
                       rect_w := width r; rect_h := height r |})
  /\ menu_display (menu s') = "block"
  /\ (pyBridge s = false -> hostCalls s' = hostCalls s)
  /\ iframe s' = iframe s
  /\ toast s' = toast s
  /\ timers s' = timers s.
Proof.
  intros Hlen s'. subst s'. unfold handleTextSelection.
  assert (Hge : (strlen (trim (toString sel)) <? 2) = false) by (apply Z.ltb_ge; lia).
  rewrite Hge.
  split; [|split; [|split; [|split; [|split; [|split; [|split; [|split]]]]]]].
  - destruct (ranges sel); unfold callHost; cbn; destruct (pyBridge s); reflexivity.
  - destruct (ranges sel); unfold callHost; cbn; destruct (pyBridge s); reflexivity.
  - intros Hr. rewrite Hr. unfold callHost. cbn. destruct (pyBridge s); reflexivity.
  - intros range others Hr. rewrite Hr.
    split.
    + etransitivity; [|apply (length_map rectOfDOMRect)]. f_equal.
      unfold callHost. cbn. destruct (pyBridge s); reflexivity.
    + intros i r Hi.
      replace (nth_error _ i) with (nth_error (map rectOfDOMRect (getClientRects range)) i).
      * rewrite nth_error_map, Hi. reflexivity.
      * f_equal. unfold callHost. cbn. destruct (pyBridge s); reflexivity.
  - reflexivity.
  - intros Hb. rewrite showContextMenu_hostCalls.
    rewrite callHost_standalone; [destruct (ranges sel); reflexivity|].
    destruct (ranges sel); exact Hb.
  - destruct (ranges sel); unfold callHost; cbn; destruct (pyBridge s); reflexivity.
  - destruct (ranges sel); unfold callHost; cbn; destruct (pyBridge s); reflexivity.
  - destruct (ranges sel); unfold callHost; cbn; destruct (pyBridge s); reflexivity.
Qed.

End MoreSelectionProperties.

(** ** Further properties: annotations and the menu *)

Section MoreOverlayProperties.

Context {num : Type} `{Number num}.

(** [renderHighlight] touches the viewer frame and the console only. *)
Lemma renderHighlight_frame (ann : Annotation num) (s : State num) :
  let s' := renderHighlight ann s in
  pyBridge s' = pyBridge s /\ selectedText s' = selectedText s
  /\ selectionRects s' = selectionRects s /\ selectionPage s' = selectionPage s
  /\ annotations s' = annotations s /\ viewerApp s' = viewerApp s
  /\ menu s' = menu s /\ toast s' = toast s /\ window s' = window s
  /\ hostCalls s' = hostCalls s /\ timers s' = timers s.
Proof.
  unfold renderHighlight.
  destruct (contentDocument (iframe s)) as [d|]; [|repeat split].
  destruct (find _ (pages d)) as [p|]; [|repeat split].
  destruct (textLayer p); repeat split.
Qed.

Lemma callHost_frame (c : HostCall num) (s : State num) :
  let s' := callHost c s in
  pyBridge s' = pyBridge s /\ selectedText s' = selectedText s
  /\ selectionRects s' = selectionRects s /\ selectionPage s' = selectionPage s
  /\ annotations s' = annotations s /\ viewerApp s' = viewerApp s
  /\ menu s' = menu s /\ toast s' = toast s /\ window s' = window s
  /\ iframe s' = iframe s /\ console s' = console s /\ timers s' = timers s.
Proof. unfold callHost. destruct (pyBridge s) eqn:Hb; cbn; rewrite ?Hb; repeat split. Qed.

(** An annotation whose page has no text layer to draw on (no such page, no
    text layer in it, or a frame that may not be read) is skipped: one
    warning or error line goes to the console and nothing else changes. *)
Theorem renderHighlight_skips (ann : Annotation num) (s : State num) :
  textLayerOf (string_of_Z (ann_page ann)) s = None ->
  let s' := renderHighlight ann s in
  (exists entry : LogEntry,
      console s' = (console s ++ [entry])%list /\ level entry <> LogInfo)
  /\ iframe s' = iframe s
  /\ hostCalls s' = hostCalls s
  /\ toast s' = toast s
  /\ timers s' = timers s
  /\ menu s' = menu s.
Proof.
  intros Hnone s'. subst s'. unfold textLayerOf in Hnone. unfold renderHighlight.
  destruct (contentDocument (iframe s)) as [d|].
  - destruct (find _ (pages d)) as [p|].
    + destruct (textLayer p); [discriminate|].
      split; [eexists; split; [reflexivity|discriminate]|repeat split].
    + split; [eexists; split; [reflexivity|discriminate]|repeat split].
  - split; [eexists; split; [reflexivity|discriminate]|repeat split].
Qed.

(** Drawing an annotation changes the text layer of no other page. *)
Theorem renderHighlight_other_pages (ann : Annotation num) (number : string)
    (s : State num) :
  number <> string_of_Z (ann_page ann) ->
  textLayerOf number (renderHighlight ann s) = textLayerOf number s.
Proof.
  intros Hne. rewrite renderHighlight_textLayerOf. unfold highlightsOn.
  assert (Hn : String.eqb (string_of_Z (ann_page ann)) number = false)
    by (apply String.eqb_neq; congruence).
  rewrite Hn. destruct (textLayerOf number s) as [tl|]; cbn [option_map];
    [rewrite withAppended_nil|]; reflexivity.
Qed.

(** What a highlight carries besides its geometry: the class, the id of
    its annotation as tag, the annotation's colour with the translucency
    suffix, the comment as tooltip (the content when the comment is empty),
    and a click that sends the annotation's id, content and comment to the
    host. *)
Theorem renderHighlight_attributes (ann : Annotation num) (s : State num)
    (tl : TextLayer num) :
  textLayerOf (string_of_Z (ann_page ann)) s = Some tl ->
  exists tl' : TextLayer num,
    textLayerOf (string_of_Z (ann_page ann)) (renderHighlight ann s) = Some tl'
    /\ forall (i : nat) (rect : Rect num),
         nth_error (ann_rects ann) i = Some rect ->
         exists o : Overlay num,
           nth_error (children tl') (length (children tl) + i) = Some (Highlight o)
           /\ className o = "pm-highlight"
           /\ data_annotation_id o = string_of_Z (ann_id ann)
           /\ style_background o = ann_color ann ++ "40"
           /\ (ann_comment ann <> "" -> title o = ann_comment ann)
           /\ (ann_comment ann = "" -> title o = ann_content ann)
           /\ forall s0 : State num,
                pyBridge s0 = true ->
                hostCalls (clickHighlight o s0)
                = (hostCalls s0
                   ++ [onContextAction "show_annotation"
                         (PJson (JObj [("id", JInt (ann_id ann));
                                       ("content", JStr (ann_content ann));
                                       ("comment", JStr (ann_comment ann))]))])%list.
Proof.
  intros Htl.
  rewrite renderHighlight_textLayerOf, Htl. cbn [option_map].
  unfold highlightsOn. rewrite String.eqb_refl.
  eexists. split; [reflexivity|].
  intros i rect Hi. exists (makeHighlight ann (tl_rect tl) tl rect).
  cbn [withAppended children].
  rewrite nth_error_app2 by lia.
  replace (length (children tl) + i - length (children tl))%nat with i by lia.
  rewrite nth_error_map, Hi.
  split; [reflexivity|]. split; [reflexivity|]. split; [reflexivity|].
  split; [reflexivity|]. split; [|split].
  - intros Hc. cbn [makeHighlight title]. unfold orElse.
    apply String.eqb_neq in Hc. rewrite Hc.
    destruct (ann_comment ann) eqn:Hcm; [discriminate|reflexivity].
  - intros Hc. cbn [makeHighlight title]. unfold orElse. rewrite Hc. cbn.
    destruct (ann_content ann); reflexivity.
  - intros s0 Hb. unfold clickHighlight. rewrite callHost_connected by exact Hb. reflexivity.
Qed.

End MoreOverlayProperties.

Section MenuActionProperties.

Context {num : Type} `{Number num}.

Lemma createHighlight_guard (s : State num) :
  selectedText s <> "" -> selectionRects s <> [] ->
  String.eqb (selectedText s) "" || (Z.of_nat (length (selectionRects s)) =? 0) = false.
Proof.
  intros Htext Hrects. apply orb_false_iff. split.
  - apply String.eqb_neq. exact Htext.
  - apply Z.eqb_neq. destruct (selectionRects s); [contradiction|cbn; lia].
Qed.

(** [createHighlight] announces success whatever happened: with a
    non-empty selection it shows "Highlight saved!" for 2000 ms also when
    there is no host to save to (no host call is made then) and when the
    page has no text layer to draw on.  The overlays are drawn without a
    host as they are with one. *)
Theorem createHighlight_optimistic (s : State num) :
  selectedText s <> "" ->
  selectionRects s <> [] ->
  let s' := createHighlight s in
  let number := string_of_Z (selectionPage s) in
  toast s' = {| textContent := "Highlight saved!"; toast_display := "block" |}
  /\ timers s' = (timers s ++ [(2000, cbHideToast)])%list
  /\ (pyBridge s = false -> hostCalls s' = hostCalls s)
  /\ textLayerOf number s'
     = option_map
         (fun tl => withAppended
                      (map (fun rect => Highlight (makeHighlight (optimisticAnnotation s)
                                                                 (tl_rect tl) tl rect))
                           (selectionRects s)) tl)
         (textLayerOf number s)
  /\ selectedText s' = selectedText s
  /\ selectionRects s' = selectionRects s.
Proof.
  intros Htext Hrects s' number. subst s' number. unfold createHighlight.
  rewrite (createHighlight_guard s Htext Hrects).
  set (s1 := callHost (onAnnotationRequest (annotationData s)) s).
  destruct (renderHighlight_frame (optimisticAnnotation s) s1)
    as (_ & Hst & Hsr & _ & _ & _ & _ & Ht & _ & Hh & Htm).
  destruct (callHost_frame (onAnnotationRequest (annotationData s)) s)
    as (_ & Hst1 & Hsr1 & _ & _ & _ & _ & _ & _ & Hif1 & _ & Htm1).
  fold s1 in Hst1, Hsr1, Hif1, Htm1.
  split; [reflexivity|]. split; [|split; [|split; [|split]]].
  - cbn [showToast setTimeout set_timers timers set_toast set_toast_display].
    rewrite Htm, Htm1. reflexivity.
  - intros Hb. rewrite showToast_hostCalls, Hh. unfold s1.
    rewrite callHost_standalone by exact Hb. reflexivity.
  - change (textLayerOf (string_of_Z (selectionPage s))
              (showToast "Highlight saved!" None (renderHighlight (optimisticAnnotation s) s1)))
      with (textLayerOf (string_of_Z (selectionPage s))
              (renderHighlight (optimisticAnnotation s) s1)).
    rewrite renderHighlight_textLayerOf.
    unfold textLayerOf at 1. rewrite Hif1. fold (textLayerOf (string_of_Z (selectionPage s)) s).
    unfold highlightsOn. cbn [optimisticAnnotation ann_page ann_rects].
    rewrite String.eqb_refl. reflexivity.
  - cbn [showToast setTimeout set_timers selectedText set_toast set_toast_display].
    rewrite Hst, Hst1. reflexivity.
  - cbn [showToast setTimeout set_timers selectionRects set_toast set_toast_display].
    rewrite Hsr, Hsr1. reflexivity.
Qed.

Lemma contextAction_menu_display (action : string) (s : State num) :
  menu_display (menu (contextAction action s)) = "none".
Proof.
  unfold contextAction.
  destruct (String.eqb (selectedText (hideContextMenu s)) ""); [reflexivity|].
  destruct (String.eqb action "highlight").
  - unfold createHighlight.
    destruct (String.eqb (selectedText (hideContextMenu s)) "" || _); [reflexivity|].
    change (menu (showToast ?m ?d ?st)) with (menu st).
    destruct (renderHighlight_frame (optimisticAnnotation (hideContextMenu s))
                (callHost (onAnnotationRequest (annotationData (hideContextMenu s)))
                          (hideContextMenu s)))
      as (_ & _ & _ & _ & _ & _ & Hm & _).
    destruct (callHost_frame (onAnnotationRequest (annotationData (hideContextMenu s)))
                             (hideContextMenu s))
      as (_ & _ & _ & _ & _ & _ & Hm1 & _).
    rewrite Hm, Hm1. reflexivity.
  - destruct (callHost_frame
                (onContextAction action (PText (selectedText (hideContextMenu s))))
                (hideContextMenu s))
      as (_ & _ & _ & _ & _ & _ & Hm1 & _).
    rewrite Hm1. reflexivity.
Qed.

(** A menu action always leaves the menu hidden and the stored selection
    (text, rectangles, page) as it was, whichever action it is. *)
Theorem contextAction_hides_menu (action : string) (s : State num) :
  let s' := contextAction action s in
  menu_display (menu s') = "none"
  /\ selectedText s' = selectedText s
  /\ selectionRects s' = selectionRects s
  /\ selectionPage s' = selectionPage s
  /\ pyBridge s' = pyBridge s.
Proof.
  intros s'. subst s'. unfold contextAction.
  change (selectedText (hideContextMenu s)) with (selectedText s).
  destruct (String.eqb (selectedText s) ""); [repeat split|].
  destruct (String.eqb action "highlight").
  - unfold createHighlight.
    change (selectedText (hideContextMenu s)) with (selectedText s).
    change (selectionRects (hideContextMenu s)) with (selectionRects s).
    destruct (String.eqb (selectedText s) "" || (Z.of_nat (length (selectionRects s)) =? 0));
      [repeat split|].
    set (s1 := callHost (onAnnotationRequest (annotationData (hideContextMenu s)))
                        (hideContextMenu s)).
    destruct (renderHighlight_frame (optimisticAnnotation (hideContextMenu s)) s1)
      as (Hp & Hst & Hsr & Hsp & _ & _ & Hm & _).
    destruct (callHost_frame (onAnnotationRequest (annotationData (hideContextMenu s)))
                             (hideContextMenu s))
      as (Hp1 & Hst1 & Hsr1 & Hsp1 & _ & _ & Hm1 & _).
    fold s1 in Hp1, Hst1, Hsr1, Hsp1, Hm1.
    cbn [showToast setTimeout set_timers set_toast set_toast_display
         menu selectedText selectionRects selectionPage pyBridge].
    rewrite Hp, Hst, Hsr, Hsp, Hm, Hp1, Hst1, Hsr1, Hsp1, Hm1. repeat split.
  - destruct (callHost_frame (onContextAction action (PText (selectedText s)))
                             (hideContextMenu s))
      as (Hp1 & Hst1 & Hsr1 & Hsp1 & _ & _ & Hm1 & _).
    rewrite Hp1, Hst1, Hsr1, Hsp1, Hm1. repeat split.
Qed.

(** A menu action other than "highlight", with a selection stored and the
    host connected, is forwarded as it is: one [onContextAction] call with
    the action's name and the selected text.  Nothing is drawn and no toast
    is shown. *)
Theorem contextAction_forwards (action : string) (s : State num) :
  pyBridge s = true ->
  selectedText s <> "" ->
  action <> "highlight" ->
  let s' := contextAction action s in
  hostCalls s' = (hostCalls s ++ [onContextAction action (PText (selectedText s))])%list
  /\ iframe s' = iframe s
  /\ toast s' = toast s
  /\ timers s' = timers s
  /\ console s' = console s.
Proof.
  intros Hb Htext Hact s'. subst s'. unfold contextAction.
  change (selectedText (hideContextMenu s)) with (selectedText s).
  apply String.eqb_neq in Htext. rewrite Htext.
  apply String.eqb_neq in Hact. rewrite Hact.
  destruct (callHost_frame (onContextAction action (PText (selectedText s)))
                           (hideContextMenu s))
    as (_ & _ & _ & _ & _ & _ & _ & Ht & _ & Hi & Hc & Htm).
  rewrite Ht, Hi, Hc, Htm.
  rewrite callHost_connected by exact Hb. repeat split.
Qed.

(** After a selection of fewer than 2 characters no menu action does
    anything but hide the menu: no host call, nothing drawn, no toast, also
    for "highlight" and also while rectangles of an earlier selection are
    still stored. *)
Theorem contextAction_after_short_selection (selection : option (Selection num))
    (mouseEvent : MouseEvent num) (action : string) (s : State num) :
  strlen (trimmedText selection) < 2 ->
  let s' := contextAction action (handleTextSelection selection mouseEvent s) in
  hostCalls s' = hostCalls s
  /\ iframe s' = iframe s
  /\ toast s' = toast s
  /\ timers s' = timers s
  /\ console s' = console s
  /\ menu_display (menu s') = "none".
Proof.
  intros Hlen s'. subst s'. unfold handleTextSelection.
  fold (trimmedText selection). apply Z.ltb_lt in Hlen. rewrite Hlen.
  repeat split.
Qed.

(** The "highlight" action with a text stored but no rectangle (a
    selection that had no range) asks nothing of the host, draws nothing and
    shows no toast. *)
Theorem contextAction_highlight_without_rects (s : State num) :
  selectionRects s = [] ->
  let s' := contextAction "highlight" s in
  hostCalls s' = hostCalls s
  /\ iframe s' = iframe s
  /\ toast s' = toast s
  /\ timers s' = timers s
  /\ console s' = console s.
Proof.
  intros Hrects s'. subst s'. unfold contextAction.
  change (selectedText (hideContextMenu s)) with (selectedText s).
  destruct (String.eqb (selectedText s) "") eqn:Htext; [repeat split|].
  cbn [String.eqb Ascii.eqb Bool.eqb]. unfold createHighlight.
  change (selectedText (hideContextMenu s)) with (selectedText s).
  change (selectionRects (hideContextMenu s)) with (selectionRects s).
  rewrite Htext, Hrects. repeat split.
Qed.

End MenuActionProperties.

Section BulkLoadProperties.

Context {num : Type} `{Number num}.

Lemma flat_map_updateFirst_length {B : Type} (f : PageDiv num -> list B)
    (sel : PageDiv num -> bool) (g : PageDiv num -> PageDiv num) (l : list (PageDiv num))
    (p : PageDiv num) :
  find sel l = Some p ->
  (length (flat_map f (updateFirst sel g l)) + length (f p)
   = length (flat_map f l) + length (f (g p)))%nat.
Proof.
  induction l as [|q l IH]; [discriminate|].
  cbn [find updateFirst]. destruct (sel q).
  - intros [= ->]. cbn [flat_map]. rewrite !length_app. lia.
  - intros Hfind. cbn [flat_map]. rewrite !length_app. specialize (IH Hfind). lia.
Qed.

Lemma in_flat_map_updateFirst {B : Type} (f : PageDiv num -> list B)
    (sel : PageDiv num -> bool) (g : PageDiv num -> PageDiv num) (l : list (PageDiv num))
    (b : B) :
  In b (flat_map f (updateFirst sel g l)) ->
  In b (flat_map f l) \/ exists p, find sel l = Some p /\ In b (f (g p)).
Proof.
  induction l as [|q l IH]; [intros []|].
  cbn [find updateFirst]. destruct (sel q); cbn [flat_map]; rewrite !in_app_iff.
  - intros [Hb|Hb]; [right; exists q; split; [reflexivity|exact Hb]|left; right; exact Hb].
  - intros [Hb|Hb]; [left; left; exact Hb|].
    destruct (IH Hb) as [Hl|Hr]; [left; right; exact Hl|right; exact Hr].
Qed.

Lemma overlaysOfLayer_withAppended (ann : Annotation num) (r : DOMRect num)
    (tl0 tl : TextLayer num) (rects : list (Rect num)) :
  overlaysOfLayer
    (withAppended (map (fun rect => Highlight (makeHighlight ann r tl0 rect)) rects) tl)
  = (overlaysOfLayer tl ++ map (makeHighlight ann r tl0) rects)%list.
Proof.
  unfold overlaysOfLayer, withAppended. cbn [children]. rewrite flat_map_app. f_equal.
  induction rects as [|rect rects IH]; cbn; [|rewrite IH]; reflexivity.
Qed.

(** The overlays in the frame after one [renderHighlight]: those that were
    there, and the annotation's own. *)
Lemma overlaysOf_renderHighlight (ann : Annotation num) (s : State num) :
  length (overlaysOf (renderHighlight ann s))
  = (length (overlaysOf s) + drawnRects s ann)%nat
  /\ forall o : Overlay num,
       In o (overlaysOf (renderHighlight ann s)) ->
       In o (overlaysOf s)
       \/ exists (r : DOMRect num) (tl : TextLayer num) (rect : Rect num),
            o = makeHighlight ann r tl rect.
Proof.
  unfold drawnRects, textLayerOf, renderHighlight, overlaysOf.
  destruct (contentDocument (iframe s)) as [d|] eqn:Hd.
  2:{ cbn. rewrite Hd. split; [reflexivity|intros o []]. }
  destruct (find _ (pages d)) as [p|] eqn:Hp.
  2:{ cbn. rewrite Hd. split; [lia|intros o Ho; left; exact Ho]. }
  destruct (textLayer p) as [tl|] eqn:Htl.
  2:{ cbn. rewrite Hd. split; [lia|intros o Ho; left; exact Ho]. }
  cbn. rewrite Hd. cbn. rewrite appendHighlights_spec. split.
  - pose proof (flat_map_updateFirst_length overlaysOfPage
                  (pageMatches (string_of_Z (ann_page ann)))
                  (set_textLayer
                     (withAppended
                        (map (fun rect => Highlight (makeHighlight ann (tl_rect tl) tl rect))
                             (ann_rects ann)) tl))
                  (pages d) p Hp) as Hlen.
    unfold overlaysOfPage at 2 4 in Hlen. cbn [set_textLayer textLayer] in Hlen.
    rewrite Htl, overlaysOfLayer_withAppended, length_app, length_map in Hlen. lia.
  - intros o Ho. apply in_flat_map_updateFirst in Ho as [Ho|(q & Hq & Ho)]; [left; exact Ho|].
    rewrite Hp in Hq. injection Hq as <-.
    unfold overlaysOfPage in Ho. cbn [set_textLayer textLayer] in Ho.
    rewrite overlaysOfLayer_withAppended in Ho. apply in_app_iff in Ho as [Ho|Ho].
    + left. apply in_flat_map. exists p. split.
      * apply find_some in Hp. exact (proj1 Hp).
      * unfold overlaysOfPage. rewrite Htl. exact Ho.
    + right. apply in_map_iff in Ho as (rect & <- & _). eauto.
Qed.

Lemma drawnRects_renderHighlight (a ann : Annotation num) (s : State num) :
  drawnRects (renderHighlight a s) ann = drawnRects s ann.
Proof.
  unfold drawnRects. rewrite renderHighlight_textLayerOf.
  destruct (textLayerOf _ s); reflexivity.
Qed.

Lemma renderAll_overlays (l : list (Annotation num)) :
  forall s : State num,
    length (overlaysOf (fold_left (fun s ann => renderHighlight ann s) l s))
    = (length (overlaysOf s) + list_sum (map (drawnRects s) l))%nat.
Proof.
  induction l as [|a l IH]; intros s; cbn [fold_left map].
  - unfold list_sum. cbn [fold_right]. lia.
  - rewrite IH. destruct (overlaysOf_renderHighlight a s) as [Hlen _]. rewrite Hlen.
    rewrite (map_ext _ (drawnRects s) (fun ann => drawnRects_renderHighlight a ann s)).
    unfold list_sum. cbn [fold_right]. lia.
Qed.

Lemma renderAll_frame (l : list (Annotation num)) :
  forall s : State num,
    let s' := fold_left (fun s ann => renderHighlight ann s) l s in
    hostCalls s' = hostCalls s /\ selectedText s' = selectedText s
    /\ toast s' = toast s /\ timers s' = timers s /\ menu s' = menu s
    /\ pyBridge s' = pyBridge s.
Proof.
  induction l as [|a l IH]; intros s; [repeat split|].
  cbn [fold_left]. destruct (IH (renderHighlight a s)) as (Hh & Hst & Ht & Htm & Hm & Hp).
  destruct (renderHighlight_frame a s)
    as (Hp1 & Hst1 & _ & _ & _ & _ & Hm1 & Ht1 & _ & Hh1 & Htm1).
  cbn zeta. rewrite Hh, Hst, Ht, Htm, Hm, Hp, Hh1, Hst1, Ht1, Htm1, Hm1, Hp1.
  repeat split.
Qed.

(** Bulk load draws every rectangle of every annotation whose page has a
    text layer, and skips the others: the number of overlays in the frame
    grows by exactly the rectangles of the drawable annotations.  The host
    is not called, and no toast is shown. *)
Theorem loadAnnotations_overlay_count (annList : list (Annotation num)) (s : State num) :
  let s' := loadAnnotations annList s in
  length (overlaysOf s')
  = (length (overlaysOf s) + list_sum (map (drawnRects s) annList))%nat
  /\ annotations s' = annList
  /\ hostCalls s' = hostCalls s
  /\ toast s' = toast s
  /\ timers s' = timers s.
Proof.
  intros s'. subst s'. unfold loadAnnotations.
  set (s0 := set_annotations annList _).
  destruct (renderAll_frame annList s0) as (Hh & _ & Ht & Htm & _).
  split; [|split; [|split; [|split]]].
  - rewrite renderAll_overlays. reflexivity.
  - rewrite renderAll_annotations. reflexivity.
  - rewrite Hh. reflexivity.
  - rewrite Ht. reflexivity.
  - rewrite Htm. reflexivity.
Qed.

Lemma renderHighlight_iframe_ext (ann : Annotation num) (s1 s2 : State num) :
  iframe s1 = iframe s2 -> iframe (renderHighlight ann s1) = iframe (renderHighlight ann s2).
Proof.
  intros Heq. unfold renderHighlight. rewrite Heq.
  destruct (contentDocument (iframe s2)) as [d|]; [|exact Heq].
  destruct (find _ (pages d)) as [p|]; [|exact Heq].
  destruct (textLayer p); [|exact Heq].
  unfold set_pages. cbn. rewrite Heq. reflexivity.
Qed.

Lemma renderAll_iframe_ext (l : list (Annotation num)) :
  forall s1 s2 : State num,
    iframe s1 = iframe s2 ->
    iframe (fold_left (fun s ann => renderHighlight ann s) l s1)
    = iframe (fold_left (fun s ann => renderHighlight ann s) l s2).
Proof.
  induction l as [|a l IH]; intros s1 s2 Heq; [exact Heq|].
  cbn [fold_left]. apply IH, renderHighlight_iframe_ext, Heq.
Qed.

(** Loading a list in two parts, one call after the other, leaves the
    viewer frame exactly as loading it in one call does; only the stored
    list differs (it is the second part). *)
Theorem loadAnnotations_split (l1 l2 : list (Annotation num)) (s : State num) :
  iframe (loadAnnotations l2 (loadAnnotations l1 s)) = iframe (loadAnnotations (l1 ++ l2) s)
  /\ annotations (loadAnnotations l2 (loadAnnotations l1 s)) = l2
  /\ annotations (loadAnnotations (l1 ++ l2) s) = (l1 ++ l2)%list.
Proof.
  split; [|split].
  - unfold loadAnnotations. rewrite fold_left_app.
    apply renderAll_iframe_ext. apply renderAll_iframe_ext. reflexivity.
  - unfold loadAnnotations at 1. rewrite renderAll_annotations. reflexivity.
  - unfold loadAnnotations. rewrite renderAll_annotations. reflexivity.
Qed.

End BulkLoadProperties.

(** ** Further properties: start-up, polling and the event bus *)

Lemma without_beforeQuery (s : string) : without "?" (beforeQuery s) = true.
Proof.
  unfold without. induction s as [|c s IH]; [reflexivity|].
  cbn [beforeQuery]. destruct (Ascii.eqb c "?") eqn:Hc; [reflexivity|].
  cbn [list_ascii_of_string forallb]. rewrite Hc, IH. reflexivity.
Qed.

Lemma without_substring (c : ascii) (s : string) :
  without c s = true -> forall n m : nat, without c (String.substring n m s) = true.
Proof.
  unfold without. induction s as [|a s IH]; intros Hs n m.
  - destruct n, m; reflexivity.
  - cbn [list_ascii_of_string forallb] in Hs. apply andb_true_iff in Hs as [Ha Hs].
    destruct n as [|n]; [destruct m as [|m]|]; cbn [String.substring]; [reflexivity| |].
    + cbn [list_ascii_of_string forallb]. rewrite Ha. exact (IH Hs 0%nat m).
    + exact (IH Hs n m).
Qed.

Lemma nth_error_last {A : Type} (l : list A) (x : A) :
  nth_error (l ++ [x]) (length l) = Some x.
Proof. rewrite nth_error_app2, Nat.sub_diag by lia. reflexivity. Qed.

Lemma removeNth_last {A : Type} (l : list A) (x : A) :
  removeNth (length l) (l ++ [x]) = l.
Proof. induction l as [|a l IH]; cbn; [|rewrite IH]; reflexivity. Qed.

Section MoreLifecycleProperties.

Context {num : Type} `{Number num}.

Lemma without_resolvePdfjsPath (s : State num) : without "?" (resolvePdfjsPath s) = true.
Proof.
  unfold resolvePdfjsPath, substring0. rewrite without_app.
  rewrite without_substring by apply without_beforeQuery. reflexivity.
Qed.

(** An empty [file] parameter is handled like a missing one: the error
    toast, and a viewer frame that is left alone. *)
Theorem initViewer_empty_file (s : State num) :
  searchParam_file (window s) = Some "" ->
  let s' := initViewer s in
  toast s' = {| textContent := "Error: No PDF file specified"; toast_display := "block" |}
  /\ timers s' = (timers s ++ [(3000, cbHideToast)])%list
  /\ iframe s' = iframe s
  /\ hostCalls s' = hostCalls s.
Proof.
  intros Hfile s'. subst s'. unfold initViewer. rewrite Hfile. repeat split.
Qed.

(** With a [file] parameter [initViewer] points the frame at the viewer
    beside the bridge page and hands it the document as its one query
    parameter: the address is the viewer path, ["?file="] and the encoded
    document address; the path has no question mark and the encoded address
    has none of [? & # =], so the query is the [file] parameter and nothing
    else.  Both frame handlers are set; no toast, timer or host call is
    made. *)
Theorem initViewer_viewer_address (s : State num) (fileUrl : string) :
  searchParam_file (window s) = Some fileUrl ->
  fileUrl <> "" ->
  let s' := initViewer s in
  src (iframe s')
  = Some (resolvePdfjsPath s ++ "?file=" ++ encodeURIComponent fileUrl)
  /\ (forall address, src (iframe s') = Some address ->
                      beforeQuery address = resolvePdfjsPath s)
  /\ without "?" (encodeURIComponent fileUrl) = true
  /\ without "&" (encodeURIComponent fileUrl) = true
  /\ without "#" (encodeURIComponent fileUrl) = true
  /\ without "=" (encodeURIComponent fileUrl) = true
  /\ onload (iframe s') = true
  /\ onerror (iframe s') = true
  /\ contentDocument (iframe s') = contentDocument (iframe s)
  /\ toast s' = toast s
  /\ timers s' = timers s
  /\ hostCalls s' = hostCalls s.
Proof.
  intros Hfile Hne s'. subst s'. unfold initViewer. rewrite Hfile.
  destruct fileUrl as [|c f]; [contradiction|].
  split; [reflexivity|]. split.
  - intros address Haddr. cbn in Haddr. injection Haddr as <-.
    change (resolvePdfjsPath
              (consoleWrite LogInfo
                 [AStr "Raw URL params:"; AStr (location_search (window s))] _))
      with (resolvePdfjsPath s).
    apply (beforeQuery_query (resolvePdfjsPath s)). apply without_resolvePdfjsPath.
  - repeat split; apply encodeURIComponent_without; reflexivity.
Qed.

(** Without [QWebChannel] the viewer is loaded exactly as it is once a
    channel is there: [initBridge] in standalone mode and the channel
    callback leave the same frame, toast and timers; the first keeps
    [pyBridge] as it was, the second stores the host object.  Neither calls
    the host. *)
Theorem initBridge_standalone (transport channel_pyBridge : bool) (s : State num) :
  let s1 := initBridge false transport s in
  let s2 := onChannelReady channel_pyBridge s in
  iframe s1 = iframe s2
  /\ toast s1 = toast s2
  /\ timers s1 = timers s2
  /\ pyBridge s1 = pyBridge s
  /\ pyBridge s2 = channel_pyBridge
  /\ hostCalls s1 = hostCalls s
  /\ hostCalls s2 = hostCalls s.
Proof.
  unfold initBridge, onChannelReady, initViewer. cbn [negb].
  cbn [window consoleWrite set_console set_pyBridge].
  destruct (searchParam_file (window s)) as [[|c f]|]; repeat split.
Qed.

(** While the transport is missing [initBridge] only arms a 50 ms retry;
    the retry, finding it still missing, arms the next one, so one retry is
    pending at any time and nothing else changes.  Once the transport is
    there the retry arms nothing more. *)
Theorem initBridge_waits_for_transport (env : Environment num) (s : State num) :
  env_QWebChannel env = true ->
  let s1 := initBridge true false s in
  let s2 := react (inTimer env (length (timers s))) s1 in
  timers s1 = (timers s ++ [(50, cbInitBridge)])%list
  /\ iframe s1 = iframe s /\ toast s1 = toast s
  /\ pyBridge s1 = pyBridge s /\ hostCalls s1 = hostCalls s
  /\ (env_transport env = false -> timers s2 = (timers s ++ [(50, cbInitBridge)])%list)
  /\ (env_transport env = true -> timers s2 = timers s)
  /\ iframe s2 = iframe s /\ toast s2 = toast s
  /\ pyBridge s2 = pyBridge s /\ hostCalls s2 = hostCalls s.
Proof.
  intros Hq s1 s2.
  do 5 (split; [reflexivity|]).
  subst s2. unfold react.
  change (timers s1) with (timers s ++ [(50, @cbInitBridge num)])%list.
  rewrite nth_error_last, removeNth_last. cbn [runCallback]. unfold initBridge at 1.
  rewrite Hq. cbn [negb].
  destruct (env_transport env); cbn [negb];
    repeat split; intros; try discriminate; reflexivity.
Qed.

(** A viewer that has no application object or no event bus yet is polled:
    [setupIframeListeners] installs nothing and arms one 100 ms retry, and
    the retry does the same as long as the viewer is not ready. *)
Theorem setupIframeListeners_waits (env : Environment num) (s : State num) :
  contentDocument (iframe s) <> None ->
  PDFViewerApplication (iframe s) = None
  \/ PDFViewerApplication (iframe s) = Some {| eventBus := None |} ->
  let s1 := setupIframeListeners s in
  let s2 := react (inTimer env (length (timers s))) s1 in
  timers s1 = (timers s ++ [(100, cbSetupIframeListeners)])%list
  /\ iframe s1 = iframe s /\ toast s1 = toast s /\ hostCalls s1 = hostCalls s
  /\ timers s2 = (timers s ++ [(100, cbSetupIframeListeners)])%list
  /\ iframe s2 = iframe s /\ toast s2 = toast s /\ hostCalls s2 = hostCalls s.
Proof.
  intros Hdoc Happ s1 s2.
  assert (Hstep : forall st : State num,
             iframe st = iframe s ->
             timers (setupIframeListeners st)
             = (timers st ++ [(100, cbSetupIframeListeners)])%list
             /\ iframe (setupIframeListeners st) = iframe s
             /\ toast (setupIframeListeners st) = toast st
             /\ hostCalls (setupIframeListeners st) = hostCalls st).
  { intros st Hst. unfold setupIframeListeners. rewrite Hst.
    destruct (contentDocument (iframe s)) as [d|]; [|contradiction].
    cbn [iframe consoleWrite set_console]. rewrite Hst.
    destruct Happ as [-> | ->]; repeat split; exact Hst. }
  destruct (Hstep s eq_refl) as (Ht1 & Hi1 & Hto1 & Hh1).
  subst s1 s2. split; [exact Ht1|]. split; [exact Hi1|]. split; [exact Hto1|].
  split; [exact Hh1|].
  unfold react. rewrite Ht1, nth_error_last, removeNth_last. cbn [runCallback].
  destruct (Hstep (set_timers (timers s) (setupIframeListeners s)) Hi1)
    as (Ht2 & Hi2 & Hto2 & Hh2).
  rewrite Ht2, Hi2, Hto2, Hh2. repeat split; assumption.
Qed.

Lemma setupIframeListeners_ready (st : State num) (d : Document num)
    (bus : list (string * BusHandler)) :
  contentDocument (iframe st) = Some d ->
  PDFViewerApplication (iframe st) = Some {| eventBus := Some bus |} ->
  busListeners (setupIframeListeners st) = (bus ++ bridgeSubscriptions)%list
  /\ contentDocument (iframe (setupIframeListeners st))
     = Some {| pages := pages d;
               docListeners := (docListeners d ++ bridgeFrameListeners)%list |}
  /\ timers (setupIframeListeners st) = timers st
  /\ viewerApp (setupIframeListeners st) = true
  /\ hostCalls (setupIframeListeners st) = hostCalls st
  /\ toast (setupIframeListeners st) = toast st.
Proof.
  intros Hd Happ. unfold setupIframeListeners. rewrite Hd.
  cbn [iframe consoleWrite set_console]. rewrite Happ.
  split; [|split; [|repeat split]].
  - unfold busListeners, eventBus_on, addEventListener. cbn. rewrite Happ. cbn.
    rewrite <- !app_assoc. reflexivity.
  - unfold eventBus_on, addEventListener. cbn. rewrite Hd. cbn.
    rewrite <- !app_assoc. reflexivity.
Qed.

(** Polling ends when the viewer appears: the retry that finds the
    application object and its event bus subscribes to the three bus events
    and adds the two mouse listeners to the frame's document, and arms no
    further retry. *)
Theorem setupIframeListeners_polling_succeeds (env : Environment num) (s : State num)
    (d : Document num) (bus : list (string * BusHandler)) (rect : DOMRect num) :
  contentDocument (iframe s) <> None ->
  PDFViewerApplication (iframe s) = None ->
  let s1 := setupIframeListeners s in
  let s2 := viewerUpdate (Some d) (Some {| eventBus := Some bus |}) rect s1 in
  let s3 := react (inTimer env (length (timers s))) s2 in
  busListeners s3 = (bus ++ bridgeSubscriptions)%list
  /\ contentDocument (iframe s3)
     = Some {| pages := pages d;
               docListeners := (docListeners d ++ bridgeFrameListeners)%list |}
  /\ timers s3 = timers s
  /\ viewerApp s3 = true
  /\ hostCalls s3 = hostCalls s
  /\ toast s3 = toast s.
Proof.
  intros Hdoc Happ s1 s2 s3.
  assert (Ht1 : timers s1 = (timers s ++ [(100, cbSetupIframeListeners)])%list
                /\ hostCalls s1 = hostCalls s /\ toast s1 = toast s).
  { subst s1. unfold setupIframeListeners.
    destruct (contentDocument (iframe s)) as [d0|]; [|contradiction].
    cbn [iframe consoleWrite set_console]. rewrite Happ. repeat split. }
  destruct Ht1 as (Ht1 & Hh1 & Hto1).
  assert (Hfire : s3 = setupIframeListeners (set_timers (timers s) s2)).
  { subst s3. unfold react.
    change (timers s2) with (timers s1). rewrite Ht1, nth_error_last, removeNth_last.
    reflexivity. }
  destruct (setupIframeListeners_ready (set_timers (timers s) s2) d bus eq_refl eq_refl)
    as (Hbus & Hd & Ht & Hv & Hh & Hto).
  rewrite Hfire, Hbus, Hd, Ht, Hv, Hh, Hto.
  repeat split; assumption.
Qed.

(** A frame whose document may not be read is given up at once: the
    security toast is shown for 5000 ms, two error lines are logged, and no
    retry is armed and no listener installed. *)
Theorem setupIframeListeners_denied (s : State num) :
  contentDocument (iframe s) = None ->
  let s' := setupIframeListeners s in
  toast s'
  = {| textContent := "Error: Failed to access PDF viewer (security restriction)";
       toast_display := "block" |}
  /\ timers s' = (timers s ++ [(5000, cbHideToast)])%list
  /\ iframe s' = iframe s
  /\ hostCalls s' = hostCalls s
  /\ length (console s') = (length (console s) + 2)%nat.
Proof.
  intros Hdoc s'. subst s'. unfold setupIframeListeners. rewrite Hdoc.
  repeat split. cbn. rewrite !length_app. cbn. lia.
Qed.

End MoreLifecycleProperties.

Section BusProperties.

Context {num : Type} `{Number num}.

Lemma dispatchTo_subscriptions_calls (evt : BusEvent) (s : State num) :
  pyBridge s = true ->
  hostCalls (dispatchTo evt bridgeSubscriptions s) = (hostCalls s ++ busCalls evt)%list.
Proof.
  intros Hb. unfold bridgeSubscriptions, busCalls. cbn [dispatchTo].
  rewrite (String.eqb_sym (evt_name evt) "pagechanging").
  rewrite (String.eqb_sym (evt_name evt) "documentloaded").
  destruct (String.eqb_spec "pagechanging" (evt_name evt)) as [<-|_];
    [cbn; unfold callHost; rewrite Hb; reflexivity|].
  destruct (String.eqb_spec "documentloaded" (evt_name evt)) as [<-|_];
    [cbn; unfold callHost; cbn; rewrite Hb; reflexivity|].
  destruct (String.eqb "documenterror" (evt_name evt)).
  - cbn [runBusHandler]. rewrite showToast_hostCalls. cbn. rewrite app_nil_r. reflexivity.
  - rewrite app_nil_r. reflexivity.
Qed.

Lemma eventBus_run_calls (evts : list BusEvent) :
  forall s : State num,
    pyBridge s = true ->
    busListeners s = bridgeSubscriptions ->
    hostCalls (eventBus_run evts s) = (hostCalls s ++ flat_map busCalls evts)%list.
Proof.
  induction evts as [|evt evts IH]; intros s Hb Hbus.
  - cbn. rewrite app_nil_r. reflexivity.
  - cbn [eventBus_run flat_map].
    destruct (eventBus_dispatch_frame evt s) as [Hbus' Hb'].
    rewrite IH; [|rewrite Hb'; exact Hb|rewrite Hbus'; exact Hbus].
    unfold eventBus_dispatch. rewrite Hbus, dispatchTo_subscriptions_calls by exact Hb.
    rewrite <- app_assoc. reflexivity.
Qed.

(** In connected mode, after [setupIframeListeners] has subscribed, the
    host hears of the viewer's events in the order they happen: one
    [onPageChanged] with the page number for each page-change event, one
    [onViewerReady] for each document-loaded event, and nothing for any
    other event (a document error among them). *)
Theorem eventBus_host_calls (evts : list BusEvent) (s : State num) :
  pyBridge s = true ->
  contentDocument (iframe s) <> None ->
  PDFViewerApplication (iframe s) = Some {| eventBus := Some [] |} ->
  hostCalls (eventBus_run evts (setupIframeListeners s))
  = (hostCalls s ++ flat_map busCalls evts)%list.
Proof.
  intros Hb Hdoc Happ.
  destruct (contentDocument (iframe s)) as [d|] eqn:Hd; [|contradiction].
  destruct (setupIframeListeners_ready s d [] Hd Happ) as (Hbus & _ & _ & _ & Hh & _).
  rewrite eventBus_run_calls; [rewrite Hh; reflexivity| |exact Hbus].
  unfold setupIframeListeners. rewrite Hd.
  cbn [iframe consoleWrite set_console]. rewrite Happ. exact Hb.
Qed.

(** A document-error event is shown to the user and not to the host: the
    toast reads "Error loading PDF: " and the event's message ("Unknown
    error" when the message is missing or empty) for 5000 ms, and no host
    call is made, so readiness is not signalled. *)
Theorem documenterror_toast (evt : BusEvent) (s : State num) :
  busListeners s = bridgeSubscriptions ->
  evt_name evt = "documenterror" ->
  let s' := eventBus_dispatch evt s in
  toast s' = {| textContent := documentErrorText evt; toast_display := "block" |}
  /\ timers s' = (timers s ++ [(5000, cbHideToast)])%list
  /\ hostCalls s' = hostCalls s
  /\ iframe s' = iframe s.
Proof.
  intros Hbus Hname s'. subst s'. unfold eventBus_dispatch. rewrite Hbus.
  unfold bridgeSubscriptions. cbn [dispatchTo]. rewrite Hname.
  cbn [String.eqb Ascii.eqb Bool.eqb]. cbn [runBusHandler].
  assert (Htext : ("Error loading PDF: "
                   ++ match message evt with
                      | Some m => orElse m "Unknown error"
                      | None => "Unknown error"
                      end) = documentErrorText evt).
  { unfold documentErrorText, orElse. destruct (message evt) as [[|c m]|]; reflexivity. }
  rewrite Htext. repeat split.
Qed.

(** Toasts do not queue: a second toast replaces the first one's text, and
    the first one's timer, still pending, hides the second toast when it
    fires while the second timer is still waiting. *)
Theorem showToast_overwrite (env : Environment num) (m1 m2 : string) (d1 d2 : Z)
    (s : State num) :
  d1 <> 0 -> d2 <> 0 ->
  let s2 := showToast m2 (Some d2) (showToast m1 (Some d1) s) in
  let s3 := react (inTimer env (length (timers s))) s2 in
  toast s2 = {| textContent := m2; toast_display := "block" |}
  /\ timers s2 = (timers s ++ [(d1, cbHideToast); (d2, cbHideToast)])%list
  /\ toast s3 = {| textContent := m2; toast_display := "none" |}
  /\ timers s3 = (timers s ++ [(d2, cbHideToast)])%list.
Proof.
  intros Hd1 Hd2 s2 s3.
  assert (Ht2 : timers s2 = (timers s ++ [(d1, cbHideToast)] ++ [(d2, cbHideToast)])%list).
  { subst s2. unfold showToast. apply Z.eqb_neq in Hd1, Hd2. rewrite Hd1, Hd2.
    cbn. rewrite <- app_assoc. reflexivity. }
  split; [reflexivity|]. split; [exact Ht2|].
  subst s3. unfold react. rewrite Ht2.
  rewrite app_assoc, nth_error_app1 by (rewrite length_app; cbn; lia).
  rewrite nth_error_last.
  assert (Hrm : removeNth (length (timers s))
                  ((timers s ++ [(d1, @cbHideToast num)]) ++ [(d2, cbHideToast)])
                = (timers s ++ [(d2, cbHideToast)])%list).
  { clear. induction (timers s) as [|t l IH]; cbn; [|rewrite IH]; reflexivity. }
  rewrite Hrm. cbn [runCallback]. split; reflexivity.
Qed.

End BusProperties.

(** Placing the menu where [showContextMenu] has put it moves it no
    further: the clamp is idempotent. *)
Theorem showContextMenu_idempotent (x y x' y' : Z) (s : State Z) :
  menu_left (menu (showContextMenu x y s)) = Some x' ->
  menu_top (menu (showContextMenu x y s)) = Some y' ->
  menu (showContextMenu x' y' (showContextMenu x y s)) = menu (showContextMenu x y s).
Proof.
  assert (Hclamp : forall v m p : Z,
             (if (if p + m >? v then v - m - 10 else p) + m >? v
              then v - m - 10 else (if p + m >? v then v - m - 10 else p))
             = (if p + m >? v then v - m - 10 else p)).
  { intros v m p. destruct (p + m >? v) eqn:Hp; [|rewrite Hp; reflexivity].
    destruct (v - m - 10 + m >? v) eqn:Hq; [|reflexivity].
    rewrite Z.gtb_ltb, Z.ltb_lt in Hq. lia. }
  unfold showContextMenu. cbn. intros [= <-] [= <-].
  rewrite !Hclamp. reflexivity.
Qed.

Lemma showContextMenu_idempotent_witness :
  menu_left (menu (showContextMenu 790 590 exConnected)) = Some 670
  /\ menu_top (menu (showContextMenu 790 590 exConnected)) = Some 510
  /\ menu (showContextMenu 670 510 (showContextMenu 790 590 exConnected))
     = menu (showContextMenu 790 590 exConnected).
Proof.
  assert (Hx : menu_left (menu (showContextMenu 790 590 exConnected)) = Some 670)
    by reflexivity.
  assert (Hy : menu_top (menu (showContextMenu 790 590 exConnected)) = Some 510)
    by reflexivity.
  split; [exact Hx|]. split; [exact Hy|].
  exact (showContextMenu_idempotent 790 590 670 510 exConnected Hx Hy).
Defined.

(** ** Further properties: whole sessions *)

Section SessionProperties.

Context {num : Type} `{Number num}.

Lemma quietHost_refl (s : State num) : quietHost s s.
Proof. split; [reflexivity|intros _; reflexivity]. Qed.

Lemma quietHost_trans (s1 s2 s3 : State num) :
  quietHost s1 s2 -> quietHost s2 s3 -> quietHost s1 s3.
Proof.
  intros [Hp1 Hh1] [Hp2 Hh2]. split; [congruence|].
  intros Hb. rewrite Hh2, Hh1; [reflexivity|exact Hb|congruence].
Qed.

Lemma quietHost_same (s s' : State num) :
  pyBridge s' = pyBridge s -> hostCalls s' = hostCalls s -> quietHost s s'.
Proof. intros Hp Hh. split; [exact Hp|intros _; exact Hh]. Qed.

Lemma callHost_quietHost (c : HostCall num) (s : State num) : quietHost s (callHost c s).
Proof.
  split; [apply callHost_pyBridge|].
  intros Hb. rewrite callHost_standalone by exact Hb. reflexivity.
Qed.

Lemma renderHighlight_quietHost (ann : Annotation num) (s : State num) :
  quietHost s (renderHighlight ann s).
Proof.
  apply quietHost_same; [apply renderHighlight_pyBridge|apply renderHighlight_hostCalls].
Qed.

Lemma createHighlight_quietHost (s : State num) : quietHost s (createHighlight s).
Proof.
  unfold createHighlight.
  destruct (String.eqb (selectedText s) "" || _); [apply quietHost_refl|].
  eapply quietHost_trans; [apply callHost_quietHost|].
  eapply quietHost_trans; [apply renderHighlight_quietHost|].
  apply quietHost_same; reflexivity.
Qed.

Lemma contextAction_quietHost (action : string) (s : State num) :
  quietHost s (contextAction action s).
Proof.
  unfold contextAction.
  eapply quietHost_trans; [apply (quietHost_same s (hideContextMenu s)); reflexivity|].
  destruct (String.eqb (selectedText (hideContextMenu s)) ""); [apply quietHost_refl|].
  destruct (String.eqb action "highlight");
    [apply createHighlight_quietHost|apply callHost_quietHost].
Qed.

Lemma handleTextSelection_quietHost (selection : option (Selection num))
    (e : MouseEvent num) (s : State num) :
  quietHost s (handleTextSelection selection e s).
Proof.
  unfold handleTextSelection.
  destruct (strlen _ <? 2); [apply quietHost_same; reflexivity|].
  set (st := set_selectionPage _ _).
  apply (quietHost_trans s st).
  { apply quietHost_same; subst st;
      (destruct selection as [sel|]; [destruct (ranges sel)|]); reflexivity. }
  eapply quietHost_trans; [apply callHost_quietHost|].
  apply quietHost_same; reflexivity.
Qed.

Lemma loadAnnotations_quietHost (l : list (Annotation num)) (s : State num) :
  quietHost s (loadAnnotations l s).
Proof.
  unfold loadAnnotations.
  match goal with
  | |- quietHost s (fold_left _ l ?st) =>
      destruct (renderAll_frame l st) as (Hh & _ & _ & _ & _ & Hp)
  end.
  apply quietHost_same; [rewrite Hp|rewrite Hh]; reflexivity.
Qed.

Lemma initViewer_quietHost (s : State num) : quietHost s (initViewer s).
Proof.
  unfold initViewer.
  destruct (searchParam_file (window s)) as [[|c f]|]; apply quietHost_same; reflexivity.
Qed.

Lemma setupIframeListeners_quietHost (s : State num) :
  quietHost s (setupIframeListeners s).
Proof.
  unfold setupIframeListeners.
  destruct (contentDocument (iframe s)) as [d|]; [|apply quietHost_same; reflexivity].
  cbn [iframe consoleWrite set_console].
  destruct (PDFViewerApplication (iframe s)) as [[[bus|]]|];
    apply quietHost_same; reflexivity.
Qed.

Lemma initBridge_quietHost (q t : bool) (s : State num) : quietHost s (initBridge q t s).
Proof.
  unfold initBridge. destruct q; cbn [negb].
  - destruct t; cbn [negb]; [apply quietHost_refl|apply quietHost_same; reflexivity].
  - eapply quietHost_trans; [|apply initViewer_quietHost].
    apply quietHost_same; reflexivity.
Qed.

Lemma runBusHandler_quietHost (h : BusHandler) (evt : BusEvent) (s : State num) :
  quietHost s (runBusHandler h evt s).
Proof.
  destruct h; cbn [runBusHandler].
  - apply callHost_quietHost.
  - eapply quietHost_trans; [|apply callHost_quietHost]. apply quietHost_same; reflexivity.
  - apply quietHost_same; reflexivity.
Qed.

Lemma dispatchTo_quietHost (evt : BusEvent) (l : list (string * BusHandler)) :
  forall s : State num, quietHost s (dispatchTo evt l s).
Proof.
  induction l as [|[n h] l IH]; intros s; [apply quietHost_refl|].
  cbn [dispatchTo]. eapply quietHost_trans; [|apply IH].
  destruct (String.eqb n (evt_name evt)); [apply runBusHandler_quietHost|apply quietHost_refl].
Qed.

Lemma dispatchDocTo_quietHost (name : string) (e : MouseEvent num)
    (l : list (string * DocHandler)) :
  forall s : State num, quietHost s (dispatchDocTo name e l s).
Proof.
  induction l as [|[n h] l IH]; intros s; [apply quietHost_refl|].
  cbn [dispatchDocTo]. eapply quietHost_trans; [|apply IH].
  destruct (String.eqb n name); [|apply quietHost_refl].
  destruct h; apply quietHost_same; reflexivity.
Qed.

Lemma runCallback_quietHost (env : Environment num) (cb : Callback num) (s : State num) :
  quietHost s (runCallback env cb s).
Proof.
  destruct cb; cbn [runCallback].
  - apply initBridge_quietHost.
  - apply setupIframeListeners_quietHost.
  - apply handleTextSelection_quietHost.
  - apply quietHost_same; reflexivity.
Qed.

(** Every handler but the channel callback keeps [pyBridge] and, without a
    host, makes no host call. *)
Lemma react_quietHost (i : Input num) (s : State num) :
  (forall b, i <> inChannelReady b) -> quietHost s (react i s).
Proof.
  intros Hi. destruct i; cbn [react].
  - apply quietHost_same; reflexivity.
  - apply quietHost_same; reflexivity.
  - apply initBridge_quietHost.
  - contradiction (Hi channel_pyBridge eq_refl).
  - destruct (onload (iframe s)); [|apply quietHost_refl].
    unfold iframe_onload. eapply quietHost_trans; [|apply setupIframeListeners_quietHost].
    apply quietHost_same; reflexivity.
  - destruct (onerror (iframe s)); [|apply quietHost_refl].
    apply quietHost_same; reflexivity.
  - destruct (nth_error (timers s) i) as [[delay cb]|]; [|apply quietHost_refl].
    eapply quietHost_trans; [|apply runCallback_quietHost].
    apply quietHost_same; reflexivity.
  - apply dispatchTo_quietHost.
  - unfold frameDocument_dispatch.
    destruct (contentDocument (iframe s)); [apply dispatchDocTo_quietHost|apply quietHost_refl].
  - destruct onMenu; [apply quietHost_refl|apply quietHost_same; reflexivity].
  - apply contextAction_quietHost.
  - apply callHost_quietHost.
  - apply loadAnnotations_quietHost.
  - apply quietHost_same; reflexivity.
Qed.

Lemma react_standalone (i : Input num) (s : State num) :
  connects i = false -> pyBridge s = false ->
  pyBridge (react i s) = false /\ hostCalls (react i s) = hostCalls s.
Proof.
  intros Hi Hb.
  destruct i as [| | |[|]| | | | | | | | | |];
    try discriminate;
    try (match goal with
         | |- context [react ?i s] =>
             destruct (react_quietHost i s) as [Hp Hh];
             [intros b; discriminate|split; [congruence|exact (Hh Hb)]]
         end).
  cbn [react]. unfold onChannelReady.
  destruct (initViewer_quietHost
              (consoleWrite LogInfo [AStr "QWebChannel bridge established."]
                 (set_pyBridge false s))) as [Hp Hh].
  split; [rewrite Hp; reflexivity|rewrite Hh; reflexivity].
Qed.

(** Standalone mode: as long as no channel callback stores a host object,
    no handler ever makes a host call, whatever the user, the viewer, the
    timers and the page do, and [pyBridge] stays empty. *)
Theorem session_standalone (inputs : list (Input num)) (s : State num) :
  pyBridge s = false ->
  forallb (fun i => negb (connects i)) inputs = true ->
  hostCalls (session inputs s) = hostCalls s
  /\ pyBridge (session inputs s) = false.
Proof.
  revert s. induction inputs as [|i inputs IH]; intros s Hb Hall; [split; [reflexivity|exact Hb]|].
  cbn [forallb] in Hall. apply andb_true_iff in Hall as [Hi Hall].
  apply negb_true_iff in Hi.
  destruct (react_standalone i s Hi Hb) as [Hp Hh].
  cbn [session]. destruct (IH (react i s) Hp Hall) as [Hh' Hp'].
  split; [rewrite Hh', Hh; reflexivity|exact Hp'].
Qed.

End SessionProperties.

Section MenuInvariant.

Context {num : Type} `{Number num}.

Lemma menuBacked_same (s s' : State num) :
  menu_display (menu s') = menu_display (menu s) ->
  selectedText s' = selectedText s ->
  menuBacked s -> menuBacked s'.
Proof. unfold menuBacked. intros -> ->. exact (fun Hm => Hm). Qed.

Lemma menuBacked_hidden (s' : State num) :
  menu_display (menu s') = "none" -> menuBacked s'.
Proof. unfold menuBacked. intros ->. discriminate. Qed.

Lemma handleTextSelection_menuBacked (selection : option (Selection num))
    (e : MouseEvent num) (s : State num) :
  menuBacked (handleTextSelection selection e s).
Proof.
  unfold handleTextSelection.
  destruct (strlen _ <? 2) eqn:Hlen; [apply menuBacked_hidden; reflexivity|].
  apply Z.ltb_ge in Hlen. intros _.
  set (text := match selection with Some sel => trim (toString sel) | None => "" end) in *.
  replace (selectedText _) with text; [exact Hlen|].
  destruct selection as [sel|]; [destruct (ranges sel)|];
    unfold callHost; cbn; destruct (pyBridge s); reflexivity.
Qed.

Lemma initViewer_menu (s : State num) :
  menu (initViewer s) = menu s /\ selectedText (initViewer s) = selectedText s.
Proof.
  unfold initViewer. destruct (searchParam_file (window s)) as [[|c f]|]; split; reflexivity.
Qed.

Lemma setupIframeListeners_menu (s : State num) :
  menu (setupIframeListeners s) = menu s
  /\ selectedText (setupIframeListeners s) = selectedText s.
Proof.
  unfold setupIframeListeners.
  destruct (contentDocument (iframe s)) as [d|]; [|split; reflexivity].
  cbn [iframe consoleWrite set_console].
  destruct (PDFViewerApplication (iframe s)) as [[[bus|]]|]; split; reflexivity.
Qed.

Lemma initBridge_menu (q t : bool) (s : State num) :
  menu (initBridge q t s) = menu s /\ selectedText (initBridge q t s) = selectedText s.
Proof.
  unfold initBridge. destruct q; cbn [negb].
  - destruct t; split; reflexivity.
  - apply (initViewer_menu
             (consoleWrite LogWarn
                [AStr "QWebChannel not available, running in standalone mode."] s)).
Qed.

Lemma dispatchTo_menu (evt : BusEvent) (l : list (string * BusHandler)) :
  forall s : State num,
    menu (dispatchTo evt l s) = menu s /\ selectedText (dispatchTo evt l s) = selectedText s.
Proof.
  induction l as [|[n h] l IH]; intros s; [split; reflexivity|].
  cbn [dispatchTo]. destruct (String.eqb n (evt_name evt)); [|apply IH].
  destruct (IH (runBusHandler h evt s)) as [Hm Hs]. rewrite Hm, Hs.
  destruct h; cbn [runBusHandler].
  - destruct (callHost_frame (onPageChanged (pageNumber evt)) s)
      as (_ & Hst & _ & _ & _ & _ & Hmm & _). split; assumption.
  - destruct (callHost_frame onViewerReady
                (consoleWrite LogInfo [AStr "[OK] PDF document fully loaded!"] s))
      as (_ & Hst & _ & _ & _ & _ & Hmm & _). split; assumption.
  - split; reflexivity.
Qed.

Lemma dispatchDocTo_menuBacked (name : string) (e : MouseEvent num)
    (l : list (string * DocHandler)) :
  forall s : State num, menuBacked s -> menuBacked (dispatchDocTo name e l s).
Proof.
  induction l as [|[n h] l IH]; intros s Hs; [exact Hs|].
  cbn [dispatchDocTo]. apply IH.
  destruct (String.eqb n name); [|exact Hs].
  destruct h; cbn [runDocHandler].
  - exact Hs.
  - apply menuBacked_hidden. reflexivity.
Qed.

Lemma react_menuBacked (i : Input num) (s : State num) :
  menuBacked s -> menuBacked (react i s).
Proof.
  intros Hs. destruct i; cbn [react].
  - exact Hs.
  - exact Hs.
  - destruct (initBridge_menu qwebchannel transport s) as [Hm Ht].
    apply (menuBacked_same s); [rewrite Hm; reflexivity|exact Ht|exact Hs].
  - unfold onChannelReady.
    destruct (initViewer_menu
                (consoleWrite LogInfo [AStr "QWebChannel bridge established."]
                   (set_pyBridge channel_pyBridge s))) as [Hm Ht].
    apply (menuBacked_same s); [rewrite Hm; reflexivity|exact Ht|exact Hs].
  - destruct (onload (iframe s)); [|exact Hs]. unfold iframe_onload.
    destruct (setupIframeListeners_menu
                (consoleWrite LogInfo [AStr "[OK] PDF.js iframe loaded successfully"] s))
      as [Hm Ht].
    apply (menuBacked_same s); [rewrite Hm; reflexivity|exact Ht|exact Hs].
  - destruct (onerror (iframe s)); exact Hs.
  - destruct (nth_error (timers s) i) as [[delay cb]|]; [|exact Hs].
    destruct cb; cbn [runCallback].
    + destruct (initBridge_menu (env_QWebChannel env) (env_transport env)
                  (set_timers (removeNth i (timers s)) s)) as [Hm Ht].
      apply (menuBacked_same s); [rewrite Hm; reflexivity|exact Ht|exact Hs].
    + destruct (setupIframeListeners_menu (set_timers (removeNth i (timers s)) s))
        as [Hm Ht].
      apply (menuBacked_same s); [rewrite Hm; reflexivity|exact Ht|exact Hs].
    + apply handleTextSelection_menuBacked.
    + exact Hs.
  - destruct (dispatchTo_menu evt (busListeners s) s) as [Hm Ht].
    apply (menuBacked_same s); [unfold eventBus_dispatch; rewrite Hm; reflexivity
                               |exact Ht|exact Hs].
  - unfold frameDocument_dispatch.
    destruct (contentDocument (iframe s)); [apply dispatchDocTo_menuBacked|]; exact Hs.
  - destruct onMenu; [exact Hs|apply menuBacked_hidden; reflexivity].
  - apply menuBacked_hidden, contextAction_menu_display.
  - destruct (callHost_frame
                (onContextAction "show_annotation"
                   (PJson (JObj [("id", JInt (ann_id (click_ann o)));
                                 ("content", JStr (ann_content (click_ann o)));
                                 ("comment", JStr (ann_comment (click_ann o)))]))) s)
      as (_ & Hst & _ & _ & _ & _ & Hmm & _).
    apply (menuBacked_same s); [unfold clickHighlight; rewrite Hmm; reflexivity
                               |exact Hst|exact Hs].
  - unfold loadAnnotations.
    match goal with
    | |- menuBacked (fold_left _ annList ?st) =>
        destruct (renderAll_frame annList st) as (_ & Hst & _ & _ & Hm & _)
    end.
    apply (menuBacked_same s); [rewrite Hm; reflexivity|rewrite Hst; reflexivity|exact Hs].
  - exact Hs.
Qed.

(** The context menu is never on display without a selection to act on:
    from a start where the menu is hidden, after whatever the user, the
    viewer, the host and the timers do, a displayed menu means a stored
    selection of at least 2 characters. *)
Theorem session_menu_backed (inputs : list (Input num)) (s : State num) :
  menuBacked s -> menuBacked (session inputs s).
Proof.
  revert s. induction inputs as [|i inputs IH]; intros s Hs; [exact Hs|].
  cbn [session]. apply IH, react_menuBacked, Hs.
Qed.

End MenuInvariant.

Section OverlayInvariant.

Context {num : Type} `{Number num}.

Lemma textLayerOf_pagesOf (s s' : State num) (number : string) :
  pagesOf s' = pagesOf s -> textLayerOf number s' = textLayerOf number s.
Proof.
  unfold pagesOf, textLayerOf.
  destruct (contentDocument (iframe s')) as [d'|], (contentDocument (iframe s)) as [d|];
    cbn; intros Heq; try discriminate; [|reflexivity].
  injection Heq as ->. reflexivity.
Qed.

Lemma overlaysOf_pagesOf (s s' : State num) :
  pagesOf s' = pagesOf s -> overlaysOf s' = overlaysOf s.
Proof.
  unfold pagesOf, overlaysOf.
  destruct (contentDocument (iframe s')) as [d'|], (contentDocument (iframe s)) as [d|];
    cbn; intros Heq; try discriminate; [|reflexivity].
  injection Heq as ->. reflexivity.
Qed.

Lemma keptBy_pagesOf (s s' : State num) : pagesOf s' = pagesOf s -> keptBy s s'.
Proof.
  intros Heq. split.
  - intros number tl Htl. exists []. rewrite withAppended_nil.
    rewrite (textLayerOf_pagesOf s s' number Heq). exact Htl.
  - intros o Ho. left. rewrite <- (overlaysOf_pagesOf s s' Heq). exact Ho.
Qed.

Lemma keptBy_refl (s : State num) : keptBy s s.
Proof. apply keptBy_pagesOf. reflexivity. Qed.

Lemma keptBy_trans (s1 s2 s3 : State num) : keptBy s1 s2 -> keptBy s2 s3 -> keptBy s1 s3.
Proof.
  intros [Hl1 Ho1] [Hl2 Ho2]. split.
  - intros number tl Htl. destruct (Hl1 number tl Htl) as [cs1 H1].
    destruct (Hl2 number _ H1) as [cs2 H2]. exists (cs1 ++ cs2)%list.
    rewrite H2, withAppended_twice. reflexivity.
  - intros o Ho. destruct (Ho2 o Ho) as [Hin|Hmade]; [exact (Ho1 o Hin)|right; exact Hmade].
Qed.

Lemma renderHighlight_keptBy (ann : Annotation num) (s : State num) :
  keptBy s (renderHighlight ann s).
Proof.
  split.
  - intros number tl Htl. rewrite renderHighlight_textLayerOf, Htl. cbn [option_map]. eauto.
  - intros o Ho. destruct (overlaysOf_renderHighlight ann s) as [_ Hin].
    destruct (Hin o Ho) as [Hold|(r & tl & rect & ->)]; [left; exact Hold|right; eauto].
Qed.

Lemma renderAll_keptBy (l : list (Annotation num)) :
  forall s : State num, keptBy s (fold_left (fun s ann => renderHighlight ann s) l s).
Proof.
  induction l as [|a l IH]; intros s; [apply keptBy_refl|].
  cbn [fold_left]. eapply keptBy_trans; [apply renderHighlight_keptBy|apply IH].
Qed.

Lemma callHost_pagesOf (c : HostCall num) (s : State num) :
  pagesOf (callHost c s) = pagesOf s.
Proof. unfold pagesOf. rewrite callHost_iframe. reflexivity. Qed.

Lemma createHighlight_keptBy (s : State num) : keptBy s (createHighlight s).
Proof.
  unfold createHighlight.
  destruct (String.eqb (selectedText s) "" || _); [apply keptBy_refl|].
  eapply keptBy_trans; [apply keptBy_pagesOf, callHost_pagesOf|].
  eapply keptBy_trans; [apply renderHighlight_keptBy|].
  apply keptBy_pagesOf. reflexivity.
Qed.

Lemma contextAction_keptBy (action : string) (s : State num) :
  keptBy s (contextAction action s).
Proof.
  unfold contextAction.
  eapply keptBy_trans; [apply (keptBy_pagesOf s (hideContextMenu s)); reflexivity|].
  destruct (String.eqb (selectedText (hideContextMenu s)) ""); [apply keptBy_refl|].
  destruct (String.eqb action "highlight");
    [apply createHighlight_keptBy|apply keptBy_pagesOf, callHost_pagesOf].
Qed.

Lemma initViewer_pagesOf (s : State num) : pagesOf (initViewer s) = pagesOf s.
Proof.
  unfold initViewer. destruct (searchParam_file (window s)) as [[|c f]|]; reflexivity.
Qed.

Lemma initBridge_pagesOf (q t : bool) (s : State num) :
  pagesOf (initBridge q t s) = pagesOf s.
Proof.
  unfold initBridge. destruct q; cbn [negb]; [destruct t; reflexivity|].
  apply (initViewer_pagesOf
           (consoleWrite LogWarn
              [AStr "QWebChannel not available, running in standalone mode."] s)).
Qed.

Lemma setupIframeListeners_pagesOf (s : State num) :
  pagesOf (setupIframeListeners s) = pagesOf s.
Proof.
  unfold setupIframeListeners, pagesOf.
  destruct (contentDocument (iframe s)) as [d|] eqn:Hd; [|cbn; rewrite Hd; reflexivity].
  cbn [iframe consoleWrite set_console].
  destruct (PDFViewerApplication (iframe s)) as [[[bus|]]|]; cbn; rewrite Hd; reflexivity.
Qed.

Lemma handleTextSelection_pagesOf (selection : option (Selection num))
    (e : MouseEvent num) (s : State num) :
  pagesOf (handleTextSelection selection e s) = pagesOf s.
Proof.
  unfold handleTextSelection, pagesOf.
  destruct (strlen _ <? 2); [reflexivity|].
  change (iframe (showContextMenu ?x ?y ?st)) with (iframe st).
  rewrite callHost_iframe.
  destruct selection as [sel|]; [destruct (ranges sel)|]; reflexivity.
Qed.

Lemma dispatchTo_pagesOf (evt : BusEvent) (l : list (string * BusHandler)) (s : State num) :
  pagesOf (dispatchTo evt l s) = pagesOf s.
Proof.
  unfold pagesOf. destruct (dispatchTo_frame evt l s) as [Hi _]. rewrite Hi. reflexivity.
Qed.

Lemma dispatchDocTo_pagesOf (name : string) (e : MouseEvent num)
    (l : list (string * DocHandler)) :
  forall s : State num, pagesOf (dispatchDocTo name e l s) = pagesOf s.
Proof.
  induction l as [|[n h] l IH]; intros s; [reflexivity|].
  cbn [dispatchDocTo]. rewrite IH.
  destruct (String.eqb n name); [destruct h|]; reflexivity.
Qed.

Lemma react_keptBy (i : Input num) (s : State num) :
  viewerQuiet i = true -> keptBy s (react i s).
Proof.
  intros Hq. destruct i; cbn [react]; try discriminate.
  - apply keptBy_pagesOf. reflexivity.
  - apply keptBy_pagesOf, initBridge_pagesOf.
  - apply keptBy_pagesOf. unfold onChannelReady.
    apply (initViewer_pagesOf
             (consoleWrite LogInfo [AStr "QWebChannel bridge established."]
                (set_pyBridge channel_pyBridge s))).
  - destruct (onload (iframe s)); [|apply keptBy_refl].
    apply keptBy_pagesOf. unfold iframe_onload.
    apply (setupIframeListeners_pagesOf
             (consoleWrite LogInfo [AStr "[OK] PDF.js iframe loaded successfully"] s)).
  - destruct (onerror (iframe s)); apply keptBy_pagesOf; reflexivity.
  - destruct (nth_error (timers s) i) as [[delay cb]|]; [|apply keptBy_refl].
    apply keptBy_pagesOf. destruct cb; cbn [runCallback].
    + apply (initBridge_pagesOf _ _ (set_timers (removeNth i (timers s)) s)).
    + apply (setupIframeListeners_pagesOf (set_timers (removeNth i (timers s)) s)).
    + apply (handleTextSelection_pagesOf _ _ (set_timers (removeNth i (timers s)) s)).
    + reflexivity.
  - apply keptBy_pagesOf, dispatchTo_pagesOf.
  - apply keptBy_pagesOf. unfold frameDocument_dispatch.
    destruct (contentDocument (iframe s)); [apply dispatchDocTo_pagesOf|reflexivity].
  - apply keptBy_pagesOf. destruct onMenu; reflexivity.
  - apply contextAction_keptBy.
  - apply keptBy_pagesOf, callHost_pagesOf.
  - unfold loadAnnotations. eapply keptBy_trans; [|apply renderAll_keptBy].
    apply keptBy_pagesOf. reflexivity.
  - apply keptBy_pagesOf. reflexivity.
Qed.

Lemma session_keptBy (inputs : list (Input num)) :
  forall s : State num,
    forallb viewerQuiet inputs = true -> keptBy s (session inputs s).
Proof.
  induction inputs as [|i inputs IH]; intros s Hall; [apply keptBy_refl|].
  cbn [forallb] in Hall. apply andb_true_iff in Hall as [Hi Hall].
  cbn [session]. eapply keptBy_trans; [apply react_keptBy, Hi|apply IH, Hall].
Qed.

(** The bridge never takes anything out of a text layer: as long as the
    viewer itself does not rebuild its pages, every text layer keeps its
    children, in place, through every handler, and highlights are only
    ever added after them. *)
Theorem session_keeps_layers (inputs : list (Input num)) (s : State num)
    (number : string) (tl : TextLayer num) :
  forallb viewerQuiet inputs = true ->
  textLayerOf number s = Some tl ->
  exists tl' : TextLayer num,
    textLayerOf number (session inputs s) = Some tl'
    /\ firstn (length (children tl)) (children tl') = children tl
    /\ tl_rect tl' = tl_rect tl
    /\ scrollLeft tl' = scrollLeft tl
    /\ scrollTop tl' = scrollTop tl.
Proof.
  intros Hall Htl. destruct (session_keptBy inputs s Hall) as [Hgrow _].
  destruct (Hgrow number tl Htl) as [cs Hcs].
  exists (withAppended cs tl). split; [exact Hcs|].
  cbn [withAppended children tl_rect scrollLeft scrollTop]. repeat split.
  rewrite firstn_app, Nat.sub_diag, firstn_all. cbn. apply app_nil_r.
Qed.

(** A highlight's tag is always the id its click sends: if that holds of
    the overlays a session starts with (of none, when there are none), it
    holds of every overlay in the frame after the session, and a click on
    one sends, in connected mode, the id whose decimal form is the tag. *)
Theorem session_overlays_well_tagged (inputs : list (Input num)) (s : State num) :
  forallb viewerQuiet inputs = true ->
  (forall o, In o (overlaysOf s) -> wellTagged o) ->
  forall o : Overlay num,
    In o (overlaysOf (session inputs s)) ->
    wellTagged o
    /\ forall s0 : State num,
         pyBridge s0 = true ->
         exists (id : Z) (content comment : string),
           string_of_Z id = data_annotation_id o
           /\ hostCalls (clickHighlight o s0)
              = (hostCalls s0
                 ++ [onContextAction "show_annotation"
                       (PJson (JObj [("id", JInt id); ("content", JStr content);
                                     ("comment", JStr comment)]))])%list.
Proof.
  intros Hall Hstart o Ho.
  assert (Hwt : wellTagged o).
  { destruct (session_keptBy inputs s Hall) as [_ Hfrom].
    destruct (Hfrom o Ho) as [Hold|(ann & r & tl & rect & ->)];
      [exact (Hstart o Hold)|reflexivity]. }
  split; [exact Hwt|].
  intros s0 Hb.
  exists (ann_id (click_ann o)), (ann_content (click_ann o)), (ann_comment (click_ann o)).
  split; [symmetry; exact Hwt|].
  unfold clickHighlight. rewrite callHost_connected by exact Hb. reflexivity.
Qed.

End OverlayInvariant.

(** ** The further properties on the concrete session *)

Example exSession_example :
  let s := session exSession exBoot in
  hostCalls s = []
  /\ selectedText s = "Hello"
  /\ menu_display (menu s) = "none"
  /\ map data_annotation_id (overlaysOf s) = ["-1"; "7"; "7"]
  /\ src (iframe s)
     = Some "file:///app/resources/../pdfjs-5.4.624-dist/web/viewer.html?file=%2Fhome%2Fu%2Fpaper.pdf".
Proof. repeat split; reflexivity. Qed.

Lemma resolvePdfjsPath_directory_witness :
  without "?" "file:///app/resources" = true
  /\ without "?" "viewer_bridge.html" = true
  /\ without "/" "viewer_bridge.html" = true
  /\ resolvePdfjsPath exConnected
     = "file:///app/resources/../pdfjs-5.4.624-dist/web/viewer.html".
Proof.
  assert (Hd : without "?" "file:///app/resources" = true) by reflexivity.
  assert (Hf : without "?" "viewer_bridge.html" = true) by reflexivity.
  assert (Hs : without "/" "viewer_bridge.html" = true) by reflexivity.
  split; [exact Hd|]. split; [exact Hf|]. split; [exact Hs|].
  apply (resolvePdfjsPath_directory exConnected "file:///app/resources"
           "viewer_bridge.html" "file=/home/u/paper.pdf" Hd Hf Hs).
  right. reflexivity.
Defined.

Lemma getPageFromSelection_nearest_witness :
  ranges exSelection <> []
  /\ forallb passedThrough [TextNode; ElementNode ["textLayer"] []] = true
  /\ getPageFromSelection (Some exSelection) = 1.
Proof.
  assert (Hr : ranges exSelection <> []) by discriminate.
  assert (Hp : forallb passedThrough [TextNode; ElementNode ["textLayer"] []] = true)
    by reflexivity.
  split; [exact Hr|]. split; [exact Hp|].
  exact (getPageFromSelection_nearest exSelection
           [TextNode; ElementNode ["textLayer"] []]
           [ElementNode [] [("id", "viewer")]; DocumentNode]
           ["page"] [("data-page-number", "1")] Hr eq_refl Hp eq_refl).
Defined.

Lemma getPageFromSelection_round_trip_witness :
  safeInteger 1
  /\ ranges exSelection <> []
  /\ getAttribute [("data-page-number", "1")] "data-page-number" = Some (string_of_Z 1)
  /\ getPageFromSelection (Some exSelection) = 1.
Proof.
  assert (Hr : ranges exSelection <> []) by discriminate.
  assert (Ha : getAttribute [("data-page-number", "1")] "data-page-number"
               = Some (string_of_Z 1)) by reflexivity.
  assert (Hn : safeInteger 1) by (unfold safeInteger; cbn; lia).
  split; [exact Hn|]. split; [exact Hr|]. split; [exact Ha|].
  exact (proj1 (getPageFromSelection_round_trip exSelection
                  [TextNode; ElementNode ["textLayer"] []]
                  [ElementNode [] [("id", "viewer")]; DocumentNode]
                  ["page"] [("data-page-number", "1")] 1 Hn Hr eq_refl eq_refl eq_refl Ha)).
Defined.

Lemma handleTextSelection_whitespace_witness :
  allWhiteSpace (toString exBlankSelection) = true
  /\ selectedText (handleTextSelection (Some exBlankSelection) exMouseEvent exConnected) = ""
  /\ hostCalls (handleTextSelection (Some exBlankSelection) exMouseEvent exConnected) = [].
Proof.
  assert (Hws : allWhiteSpace (toString exBlankSelection) = true) by reflexivity.
  split; [exact Hws|].
  destruct (handleTextSelection_whitespace exBlankSelection exMouseEvent exConnected Hws)
    as (Ht & _ & Hh & _).
  split; [exact Ht|exact Hh].
Defined.

Lemma handleTextSelection_captures_witness :
  2 <= strlen (trim (toString exSelection))
  /\ selectedText (handleTextSelection (Some exSelection) exMouseEvent exConnected) = "Hello"
  /\ selectionPage (handleTextSelection (Some exSelection) exMouseEvent exConnected) = 1.
Proof.
  assert (Hlen : 2 <= strlen (trim (toString exSelection))) by (vm_compute; discriminate).
  split; [exact Hlen|].
  destruct (handleTextSelection_captures exSelection exMouseEvent exConnected Hlen)
    as (Ht & Hp & _).
  split; [exact Ht|exact Hp].
Defined.

Lemma renderHighlight_skips_witness :
  textLayerOf (string_of_Z (ann_page exStrayAnnotation)) exConnected = None
  /\ iframe (renderHighlight exStrayAnnotation exConnected) = iframe exConnected
  /\ toast (renderHighlight exStrayAnnotation exConnected) = toast exConnected.
Proof.
  assert (Hn : textLayerOf (string_of_Z (ann_page exStrayAnnotation)) exConnected = None)
    by reflexivity.
  split; [exact Hn|].
  destruct (renderHighlight_skips exStrayAnnotation exConnected Hn) as (_ & Hi & _ & Ht & _).
  split; [exact Hi|exact Ht].
Defined.

Lemma renderHighlight_other_pages_witness :
  "9" <> string_of_Z (ann_page exAnnotation)
  /\ textLayerOf "9" (renderHighlight exAnnotation exConnected) = textLayerOf "9" exConnected.
Proof.
  assert (Hne : "9" <> string_of_Z (ann_page exAnnotation)) by discriminate.
  split; [exact Hne|].
  exact (renderHighlight_other_pages exAnnotation "9" exConnected Hne).
Defined.

Lemma renderHighlight_attributes_witness :
  textLayerOf (string_of_Z (ann_page exAnnotation)) exConnected = Some exTextLayer
  /\ exists tl' : TextLayer Z,
       textLayerOf (string_of_Z (ann_page exAnnotation)) (renderHighlight exAnnotation exConnected)
       = Some tl'.
Proof.
  assert (Htl : textLayerOf (string_of_Z (ann_page exAnnotation)) exConnected
                = Some exTextLayer) by reflexivity.
  split; [exact Htl|].
  destruct (renderHighlight_attributes exAnnotation exConnected exTextLayer Htl)
    as (tl' & Hafter & _).
  exists tl'. exact Hafter.
Defined.

Lemma createHighlight_optimistic_witness :
  let s := handleTextSelection (Some exSelection) exMouseEvent exBoot in
  selectedText s <> ""
  /\ selectionRects s <> []
  /\ pyBridge s = false
  /\ textContent (toast (createHighlight s)) = "Highlight saved!"
  /\ hostCalls (createHighlight s) = [].
Proof.
  intros s.
  assert (Ht : selectedText s <> "") by discriminate.
  assert (Hr : selectionRects s <> []) by discriminate.
  assert (Hb : pyBridge s = false) by reflexivity.
  split; [exact Ht|]. split; [exact Hr|]. split; [exact Hb|].
  destruct (createHighlight_optimistic s Ht Hr) as (Htoast & _ & Hcalls & _).
  split; [rewrite Htoast; reflexivity|rewrite (Hcalls Hb); reflexivity].
Defined.

Lemma contextAction_forwards_witness :
  let s := handleTextSelection (Some exSelection) exMouseEvent exConnected in
  pyBridge s = true
  /\ selectedText s <> ""
  /\ "translate" <> "highlight"
  /\ hostCalls (contextAction "translate" s)
     = [onTextSelected "Hello"; onContextAction "translate" (PText "Hello")].
Proof.
  intros s.
  assert (Hb : pyBridge s = true) by reflexivity.
  assert (Ht : selectedText s <> "") by discriminate.
  assert (Ha : "translate" <> "highlight") by discriminate.
  split; [exact Hb|]. split; [exact Ht|]. split; [exact Ha|].
  destruct (contextAction_forwards "translate" s Hb Ht Ha) as (Hcalls & _).
  rewrite Hcalls. reflexivity.
Defined.

Lemma contextAction_after_short_selection_witness :
  let s := handleTextSelection (Some exSelection) exMouseEvent exConnected in
  strlen (trimmedText (Some exShortSelection)) < 2
  /\ selectionRects s <> []
  /\ hostCalls (contextAction "highlight"
                  (handleTextSelection (Some exShortSelection) exMouseEvent s))
     = hostCalls s.
Proof.
  intros s.
  assert (Hlen : strlen (trimmedText (Some exShortSelection)) < 2) by reflexivity.
  assert (Hr : selectionRects s <> []) by discriminate.
  split; [exact Hlen|]. split; [exact Hr|].
  destruct (contextAction_after_short_selection (Some exShortSelection) exMouseEvent
              "highlight" s Hlen) as (Hcalls & _).
  exact Hcalls.
Defined.

Lemma initViewer_empty_file_witness :
  searchParam_file (window exEmptyFile) = Some ""
  /\ src (iframe (initViewer exEmptyFile)) = None
  /\ textContent (toast (initViewer exEmptyFile)) = "Error: No PDF file specified".
Proof.
  assert (Hf : searchParam_file (window exEmptyFile) = Some "") by reflexivity.
  split; [exact Hf|].
  destruct (initViewer_empty_file exEmptyFile Hf) as (Ht & _ & Hi & _).
  split; [rewrite Hi; reflexivity|rewrite Ht; reflexivity].
Defined.

Lemma initViewer_viewer_address_witness :
  searchParam_file (window exConnected) = Some "/home/u/paper.pdf"
  /\ "/home/u/paper.pdf" <> ""
  /\ src (iframe (initViewer exConnected))
     = Some (resolvePdfjsPath exConnected ++ "?file=" ++ encodeURIComponent "/home/u/paper.pdf").
Proof.
  assert (Hf : searchParam_file (window exConnected) = Some "/home/u/paper.pdf")
    by reflexivity.
  assert (Hne : "/home/u/paper.pdf" <> "") by discriminate.
  split; [exact Hf|]. split; [exact Hne|].
  exact (proj1 (initViewer_viewer_address exConnected "/home/u/paper.pdf" Hf Hne)).
Defined.

Lemma initBridge_waits_for_transport_witness :
  env_QWebChannel exEnvironment = true
  /\ timers (initBridge true false exBoot) = [(50, cbInitBridge)]
  /\ timers (react (inTimer exEnvironment 0) (initBridge true false exBoot))
     = [(50, cbInitBridge)].
Proof.
  assert (Hq : env_QWebChannel exEnvironment = true) by reflexivity.
  split; [exact Hq|].
  destruct (initBridge_waits_for_transport exEnvironment exBoot Hq)
    as (H1 & _ & _ & _ & _ & H2 & _).
  split; [exact H1|exact (H2 eq_refl)].
Defined.

Lemma setupIframeListeners_waits_witness :
  contentDocument (iframe exNotReady) <> None
  /\ PDFViewerApplication (iframe exNotReady) = None
  /\ timers (setupIframeListeners exNotReady) = [(100, cbSetupIframeListeners)]
  /\ timers (react (inTimer exEnvironment 0) (setupIframeListeners exNotReady))
     = [(100, cbSetupIframeListeners)].
Proof.
  assert (Hd : contentDocument (iframe exNotReady) <> None) by discriminate.
  assert (Ha : PDFViewerApplication (iframe exNotReady) = None) by reflexivity.
  split; [exact Hd|]. split; [exact Ha|].
  destruct (setupIframeListeners_waits exEnvironment exNotReady Hd (or_introl Ha))
    as (H1 & _ & _ & _ & H2 & _).
  split; [exact H1|exact H2].
Defined.

Lemma setupIframeListeners_polling_succeeds_witness :
  contentDocument (iframe exNotReady) <> None
  /\ PDFViewerApplication (iframe exNotReady) = None
  /\ busListeners
       (react (inTimer exEnvironment 0)
          (viewerUpdate (Some {| pages := [exPage]; docListeners := [] |})
                        (Some {| eventBus := Some [] |}) (frame_rect exIframe)
                        (setupIframeListeners exNotReady)))
     = bridgeSubscriptions.
Proof.
  assert (Hd : contentDocument (iframe exNotReady) <> None) by discriminate.
  assert (Ha : PDFViewerApplication (iframe exNotReady) = None) by reflexivity.
  split; [exact Hd|]. split; [exact Ha|].
  exact (proj1 (setupIframeListeners_polling_succeeds exEnvironment exNotReady
                  {| pages := [exPage]; docListeners := [] |} [] (frame_rect exIframe)
                  Hd Ha)).
Defined.

Lemma setupIframeListeners_denied_witness :
  contentDocument (iframe exDenied) = None
  /\ timers (setupIframeListeners exDenied) = [(5000, cbHideToast)]
  /\ iframe (setupIframeListeners exDenied) = iframe exDenied.
Proof.
  assert (Hd : contentDocument (iframe exDenied) = None) by reflexivity.
  split; [exact Hd|].
  destruct (setupIframeListeners_denied exDenied Hd) as (_ & Ht & Hi & _).
  split; [exact Ht|exact Hi].
Defined.

Lemma eventBus_host_calls_witness :
  pyBridge exConnected = true
  /\ contentDocument (iframe exConnected) <> None
  /\ PDFViewerApplication (iframe exConnected) = Some {| eventBus := Some [] |}
  /\ hostCalls (eventBus_run [exPageChanging; exDocumentError; exDocumentLoaded]
                  (setupIframeListeners exConnected))
     = [onPageChanged 3; onViewerReady].
Proof.
  assert (Hb : pyBridge exConnected = true) by reflexivity.
  assert (Hdoc : contentDocument (iframe exConnected) <> None) by discriminate.
  assert (Happ : PDFViewerApplication (iframe exConnected) = Some {| eventBus := Some [] |})
    by reflexivity.
  split; [exact Hb|]. split; [exact Hdoc|]. split; [exact Happ|].
  exact (eventBus_host_calls [exPageChanging; exDocumentError; exDocumentLoaded]
           exConnected Hb Hdoc Happ).
Defined.

Lemma documenterror_toast_witness :
  busListeners (setupIframeListeners exConnected) = bridgeSubscriptions
  /\ evt_name exDocumentError = "documenterror"
  /\ textContent (toast (eventBus_dispatch exDocumentError (setupIframeListeners exConnected)))
     = "Error loading PDF: Invalid PDF structure"
  /\ hostCalls (eventBus_dispatch exDocumentError (setupIframeListeners exConnected)) = [].
Proof.
  assert (Hbus : busListeners (setupIframeListeners exConnected) = bridgeSubscriptions)
    by reflexivity.
  assert (Hn : evt_name exDocumentError = "documenterror") by reflexivity.
  split; [exact Hbus|]. split; [exact Hn|].
  destruct (documenterror_toast exDocumentError (setupIframeListeners exConnected) Hbus Hn)
    as (Ht & _ & Hh & _).
  split; [rewrite Ht; reflexivity|rewrite Hh; reflexivity].
Defined.

Lemma showToast_overwrite_witness :
  5000 <> 0 /\ 3000 <> 0
  /\ toast (react (inTimer exEnvironment 0)
              (showToast "Highlight saved!" (Some 5000)
                 (showToast "Error: No PDF file specified" (Some 3000) exBoot)))
     = {| textContent := "Highlight saved!"; toast_display := "none" |}.
Proof.
  assert (H1 : 3000 <> 0) by discriminate.
  assert (H2 : 5000 <> 0) by discriminate.
  split; [exact H2|]. split; [exact H1|].
  destruct (showToast_overwrite exEnvironment "Error: No PDF file specified"
              "Highlight saved!" 3000 5000 exBoot H1 H2) as (_ & _ & H3 & _).
  exact H3.
Defined.

Lemma session_standalone_witness :
  pyBridge exBoot = false
  /\ forallb (fun i => negb (connects i)) exSession = true
  /\ hostCalls (session exSession exBoot) = [].
Proof.
  assert (Hb : pyBridge exBoot = false) by reflexivity.
  assert (Hall : forallb (fun i => negb (connects i)) exSession = true) by reflexivity.
  split; [exact Hb|]. split; [exact Hall|].
  exact (proj1 (session_standalone exSession exBoot Hb Hall)).
Defined.

Lemma session_menu_backed_witness :
  menuBacked exBoot /\ menuBacked (session exSession exBoot).
Proof.
  assert (H0 : menuBacked exBoot) by (intros Hm; discriminate Hm).
  split; [exact H0|]. exact (session_menu_backed exSession exBoot H0).
Defined.

Lemma session_keeps_layers_witness :
  forallb viewerQuiet exSession = true
  /\ textLayerOf "1" exBoot = Some exTextLayer
  /\ exists tl' : TextLayer Z,
       textLayerOf "1" (session exSession exBoot) = Some tl'
       /\ firstn 1 (children tl') = [Span "Hello world"].
Proof.
  assert (Hq : forallb viewerQuiet exSession = true) by reflexivity.
  assert (Htl : textLayerOf "1" exBoot = Some exTextLayer) by reflexivity.
  split; [exact Hq|]. split; [exact Htl|].
  destruct (session_keeps_layers exSession exBoot "1" exTextLayer Hq Htl)
    as (tl' & Hafter & Hfirst & _).
  exists tl'. split; [exact Hafter|exact Hfirst].
Defined.

Lemma session_overlays_well_tagged_witness :
  forallb viewerQuiet exSession = true
  /\ overlaysOf exBoot = []
  /\ length (overlaysOf (session exSession exBoot)) = 3%nat
  /\ Forall wellTagged (overlaysOf (session exSession exBoot)).
Proof.
  assert (Hq : forallb viewerQuiet exSession = true) by reflexivity.
  assert (H0 : forall o, In o (overlaysOf exBoot) -> wellTagged o) by (intros o []).
  split; [exact Hq|]. split; [reflexivity|]. split; [reflexivity|].
  apply Forall_forall. intros o Ho.
  exact (proj1 (session_overlays_well_tagged exSession exBoot Hq H0 o Ho)).
Defined.

Lemma contextAction_highlight_without_rects_witness :
  let s := handleTextSelection (Some exRangelessSelection) exMouseEvent exConnected in
  selectedText s = "Hello"
  /\ selectionRects s = []
  /\ hostCalls (contextAction "highlight" s) = hostCalls s
  /\ toast (contextAction "highlight" s) = toast s.
Proof.
  intros s.
  assert (Hr : selectionRects s = []) by reflexivity.
  split; [reflexivity|]. split; [exact Hr|].
  destruct (contextAction_highlight_without_rects s Hr) as (Hh & _ & Ht & _).
  split; [exact Hh|exact Ht].
Defined.
